(** * date-operations-mcp: working-day arithmetic, holiday cache, due dates

    A shallow embedding of [config.ts], [dateCalculations.ts] and of the two
    modules they are used with, imported as [./bankHolidays.js] and
    [./asanaHelpers.js], followed by the properties of the specification
    that concern them.

    Modelling decisions, once and for all:
    - a JavaScript [Date] is its time value, the number of milliseconds since
      the epoch, an integer of [Z]; only valid dates are modelled (the
      [TimeClip] range and [Invalid Date] are left out);
    - the zone of the process, in which [date-fns] reads and writes calendar
      fields, is a fixed offset [tz] (milliseconds east of UTC): zones with
      daylight saving are outside the model;
    - asynchronous functions run to completion one after the other, so a
      [Promise] is a computation of the monad [M] over the module state, the
      clock and the network; the clock is read from the world and does not
      move while one operation runs;
    - [console.error] output is not part of the world;
    - strings are strings of ASCII characters, and [parseISO] of date-fns is
      a parameter of the functions that call it: [None] stands for
      [Invalid Date]. *)

From Stdlib Require Import ZArith Lia List Ascii String DecimalString DecimalN.
From stdpp Require Import base decidable option list gmap strings.

Local Open Scope string_scope.
Local Open Scope Z_scope.

(* ===================================================================== *)
(** ** JavaScript numbers and strings, as far as the program uses them   *)
(* ===================================================================== *)

(** The values of type [number] that the configuration can hold. *)
Inductive number : Type :=
| NaN : number
| Num : Z -> number.

(** [Number.prototype.toString] on an integer. *)
Definition toString (n : Z) : string :=
  let digits := NilEmpty.string_of_uint (N.to_uint (Z.to_N (Z.abs n))) in
  if n <? 0 then "-" +:+ digits else digits.

(** date-fns [addLeadingZeros(number, targetLength)]: the decimal digits of
    [|number|], padded on the left with zeros, behind the sign. *)
Fixpoint zeros (k : nat) : string :=
  match k with
  | O => ""
  | S k' => String "0" (zeros k')
  end.

Definition addLeadingZeros (n : Z) (targetLength : nat) : string :=
  let sign := if n <? 0 then "-" else "" in
  let output := toString (Z.abs n) in
  sign +:+ zeros (targetLength - String.length output) +:+ output.

(** ASCII part of [String.prototype.toUpperCase]. *)
Definition upcase (c : ascii) : ascii :=
  let n := nat_of_ascii c in
  if ((97 <=? n) && (n <=? 122))%nat then ascii_of_nat (n - 32) else c.

Fixpoint toUpperCase (s : string) : string :=
  match s with
  | EmptyString => EmptyString
  | String c s' => String (upcase c) (toUpperCase s')
  end.

(** [parseInt(s, 10)]: leading white space is skipped, a sign is read, then
    the longest run of decimal digits; no digit at all gives [NaN]. *)
Definition isWhiteSpace (c : ascii) : bool :=
  let n := nat_of_ascii c in
  ((n =? 32) || ((9 <=? n) && (n <=? 13)))%nat.

Definition digitValue (c : ascii) : option Z :=
  let n := nat_of_ascii c in
  if ((48 <=? n) && (n <=? 57))%nat then Some (Z.of_nat n - 48) else None.

Fixpoint skipWhiteSpace (s : string) : string :=
  match s with
  | String c s' => if isWhiteSpace c then skipWhiteSpace s' else s
  | EmptyString => s
  end.

Fixpoint readDigits (s : string) (acc : option Z) : option Z :=
  match s with
  | String c s' =>
      match digitValue c with
      | Some v => readDigits s' (Some (10 * default 0 acc + v))
      | None => acc
      end
  | EmptyString => acc
  end.

Definition parseInt (s : string) : number :=
  let s1 := skipWhiteSpace s in
  let '(sign, s2) :=
    match s1 with
    | String "-" r => (-1, r)
    | String "+" r => (1, r)
    | _ => (1, s1)
    end in
  match readDigits s2 None with
  | Some v => Num (sign * v)
  | None => NaN
  end.

(** [Math.min] and [Math.max] of an integer constant and a number. *)
Definition Math_min (a : Z) (b : number) : number :=
  match b with NaN => NaN | Num z => Num (Z.min a z) end.

Definition Math_max (a : Z) (b : number) : number :=
  match b with NaN => NaN | Num z => Num (Z.max a z) end.

(* ===================================================================== *)
(** ** Time values and calendar fields (ECMAScript [Date], date-fns)     *)
(* ===================================================================== *)

(** A [Date]: milliseconds since 1970-01-01T00:00:00Z. *)
Definition Date : Type := Z.

Definition msPerSecond : Z := 1000.
Definition msPerMinute : Z := 60000.
Definition msPerHour : Z := 3600000.
Definition msPerDay : Z := 86400000.

(** Number of the day that holds a (local) time, and its day of the week,
    0 for Sunday up to 6 for Saturday (1970-01-01 was a Thursday). *)
Definition Day (t : Z) : Z := t / msPerDay.
Definition WeekDay (day : Z) : Z := (day + 4) mod 7.

(** Proleptic Gregorian date (year, month 1..12, day 1..31) of a day number
    counted from 1970-01-01, by eras of 400 years starting on 1 March. *)
Definition civilFromDays (day : Z) : Z * Z * Z :=
  let z := day + 719468 in
  let era := z / 146097 in
  let doe := z - era * 146097 in
  let yoe := (doe - doe / 1460 + doe / 36524 - doe / 146096) / 365 in
  let doy := doe - (365 * yoe + yoe / 4 - yoe / 100) in
  let mp := (5 * doy + 2) / 153 in
  let d := doy - (153 * mp + 2) / 5 + 1 in
  let m := if mp <? 10 then mp + 3 else mp - 9 in
  (yoe + era * 400 + (if m <=? 2 then 1 else 0), m, d).

(** The inverse: the day number of a calendar date. *)
Definition daysFromCivil (ymd : Z * Z * Z) : Z :=
  let '(y0, m, d) := ymd in
  let y := y0 - (if m <=? 2 then 1 else 0) in
  let era := y / 400 in
  let yoe := y - era * 400 in
  let doy := (153 * (if 2 <? m then m - 3 else m + 9) + 2) / 5 + d - 1 in
  let doe := yoe * 365 + yoe / 4 - yoe / 100 + doy in
  era * 146097 + doe - 719468.

(** The string that the pattern ['yyyy-MM-dd'] gives for a day number.
    The year token prints the year of the era: 1 - y for y <= 0. *)
Definition isoOfDay (day : Z) : string :=
  let '(y, m, d) := civilFromDays day in
  let year := if 0 <? y then y else 1 - y in
  addLeadingZeros year 4 +:+ "-" +:+ addLeadingZeros m 2
    +:+ "-" +:+ addLeadingZeros d 2.

Section LocalTime.

(** Offset of the zone of the process, in milliseconds east of UTC. *)
Variable tz : Z.

Definition LocalTime (d : Date) : Z := d + tz.

(** Calendar day of a date in the zone of the process. *)
Definition localDay (d : Date) : Z := Day (LocalTime d).

(** [Date.prototype.getDay], [getFullYear], [getHours], ... *)
Definition getDay (d : Date) : Z := WeekDay (localDay d).
Definition getFullYear (d : Date) : Z := fst (fst (civilFromDays (localDay d))).
Definition getHours (d : Date) : Z := (LocalTime d / msPerHour) mod 24.
Definition getMinutes (d : Date) : Z := (LocalTime d / msPerMinute) mod 60.
Definition getSeconds (d : Date) : Z := (LocalTime d / msPerSecond) mod 60.
Definition getMilliseconds (d : Date) : Z := LocalTime d mod msPerSecond.

(** date-fns [isWeekend]: [getDay] is 0 or 6. *)
Definition isWeekend (d : Date) : bool :=
  (getDay d =? 0) || (getDay d =? 6).

(** date-fns [addDays]: [setDate(getDate() + amount)]; in a zone of fixed
    offset the local time of day is kept and whole days are added. *)
Definition addDays (d : Date) (amount : Z) : Date := d + amount * msPerDay.
Definition subDays (d : Date) (amount : Z) : Date := addDays d (- amount).
Definition addWeeks (d : Date) (amount : Z) : Date := addDays d (amount * 7).

(** date-fns [differenceInDays]: the number of full days between two dates,
    truncated towards zero. *)
Definition differenceInDays (dateLeft dateRight : Date) : Z :=
  Z.quot (dateLeft - dateRight) msPerDay.

(** date-fns [format(date, 'yyyy-MM-dd')]. *)
Definition format_yyyy_MM_dd (d : Date) : string := isoOfDay (localDay d).

(** date-fns [setHours], [setMinutes], [setSeconds], [setMilliseconds]:
    one local field is replaced, the others are kept. *)
Definition setHours (d : Date) (hours : Z) : Date :=
  d + (hours - getHours d) * msPerHour.
Definition setMinutes (d : Date) (minutes : Z) : Date :=
  d + (minutes - getMinutes d) * msPerMinute.
Definition setSeconds (d : Date) (seconds : Z) : Date :=
  d + (seconds - getSeconds d) * msPerSecond.
Definition setMilliseconds (d : Date) (ms : Z) : Date :=
  d + (ms - getMilliseconds d).

(** date-fns-tz [utcToZonedTime(date, zone)]: the date whose local fields
    show the wall clock of [zone] at the instant [date]; [zoneOffset] is the
    offset of [zone] at that instant. *)
Definition utcToZonedTime (zoneOffset : Z -> Z) (d : Date) : Date :=
  d + zoneOffset d - tz.

End LocalTime.

(* ===================================================================== *)
(** ** config.ts                                                          *)
(* ===================================================================== *)

Record Config : Type := mkConfig {
  timezone : string;
  asanaDueHour : number;
  bankHolidayCountry : string;
  enableBankHolidays : bool
}.

(** The three variables of [process.env] that the program reads. *)
Record ProcessEnv : Type := mkProcessEnv {
  env_BANK_HOLIDAY_COUNTRY : option string;
  env_TIMEZONE : option string;
  env_ASANA_DUE_HOUR : option string
}.

Definition COUNTRY_TIMEZONES : gmap string string :=
  list_to_map
    [ ("NONE", "Europe/London"); ("GB", "Europe/London");
      ("RO", "Europe/Bucharest"); ("ES", "Europe/Madrid");
      ("IE", "Europe/Dublin"); ("DK", "Europe/Copenhagen");
      ("DE", "Europe/Berlin"); ("PL", "Europe/Warsaw");
      ("US", "America/New_York"); ("NZ", "Pacific/Auckland");
      ("AU", "Australia/Sydney"); ("MY", "Asia/Kuala_Lumpur");
      ("LK", "Asia/Colombo"); ("TH", "Asia/Bangkok");
      ("VN", "Asia/Ho_Chi_Minh") ].

(** [a || b] where [a] is a string or [undefined] and [b] a string: the
    empty string and [undefined] are falsy. *)
Definition or_else (a : option string) (b : string) : string :=
  match a with
  | Some (String c s) => String c s
  | _ => b
  end.

Definition getConfig (env : ProcessEnv) : Config :=
  let bankHolidayCountry :=
    toUpperCase (or_else (env_BANK_HOLIDAY_COUNTRY env) "NONE") in
  let enableBankHolidays := negb (String.eqb bankHolidayCountry "NONE") in
  let timezone :=
    or_else (env_TIMEZONE env)
      (or_else (COUNTRY_TIMEZONES !! bankHolidayCountry) "Europe/London") in
  let asanaDueHour := parseInt (or_else (env_ASANA_DUE_HOUR env) "16") in
  {| timezone := timezone;
     asanaDueHour := Math_max 0 (Math_min 23 asanaDueHour);
     bankHolidayCountry := bankHolidayCountry;
     enableBankHolidays := enableBankHolidays |}.

(* ===================================================================== *)
(** ** The world: module state of bankHolidays.ts, clock and network     *)
(* ===================================================================== *)

(** [cachedHolidays], [cacheExpiry] and [cachedCountry] are the three
    module variables; [clock] is what [Date.now()] reads; [requests] lists
    the URLs fetched so far, oldest first. *)
Record World : Type := mkWorld {
  cachedHolidays : option (gset string);
  cacheExpiry : Z;
  cachedCountry : option string;
  clock : Z;
  requests : list string
}.

(** The state of a process that has just loaded the module. *)
Definition initialWorld (now : Z) : World :=
  {| cachedHolidays := None; cacheExpiry := 0; cachedCountry := None;
     clock := now; requests := [] |}.

Inductive Error : Type :=
| FetchError      (* the promise of [fetch] is rejected *)
| SyntaxError     (* [response.json()] on a body that is not JSON *)
| TypeError.      (* a property read on a value that does not have it *)

(** What a computation leaves behind: a value, a thrown exception, or a
    loop that used up its iteration budget. *)
Inductive Outcome (A : Type) : Type :=
| Val (a : A) (w : World)
| Throw (e : Error) (w : World)
| OutOfFuel.

Arguments Val {A} a w.
Arguments Throw {A} e w.
Arguments OutOfFuel {A}.

Definition M (A : Type) : Type := World -> Outcome A.

#[global] Instance M_ret : MRet M := fun A (a : A) w => Val a w.

#[global] Instance M_bind : MBind M := fun A B (k : A -> M B) (m : M A) w =>
  match m w with
  | Val a w' => k a w'
  | Throw e w' => Throw e w'
  | OutOfFuel => OutOfFuel
  end.

Definition throw {A : Type} (e : Error) : M A := fun w => Throw e w.

(** A loop whose iteration budget is spent. *)
Definition out_of_fuel {A : Type} : M A := fun _ => OutOfFuel.

(** [try { body } catch (error) { handler }]. *)
Definition try_catch {A : Type} (body : M A) (handler : Error -> M A) : M A :=
  fun w =>
    match body w with
    | Throw e w' => handler e w'
    | o => o
    end.

(** [Date.now()], and the time value of [new Date()]. *)
Definition Date_now : M Z := fun w => Val (clock w) w.

(** JSON documents, by the shapes the program looks for. *)
Record UKEvent : Type := mkUKEvent {
  title : string;
  event_date : string;
  notes : string;
  bunting : bool
}.

Record BankHoliday : Type := mkBankHoliday {
  date : string;
  localName : string;
  name : string
}.

Inductive Json : Type :=
| JUKBankHolidays (division : string) (events : list UKEvent)
    (* an object whose ['england-and-wales'] member has an [events] array *)
| JArray (items : list BankHoliday)
| JOther.
    (* any other document *)

Record Response : Type := mkResponse {
  ok : bool;
  status : Z;
  body : option Json   (* [None]: the body is not JSON *)
}.

Inductive FetchResult : Type :=
| Rejected
| Resolved (r : Response).

(** The network: what the n-th request of the process, to a given URL,
    comes back with. *)
Definition Network : Type := nat -> string -> FetchResult.

(** The world after some more requests have been sent. *)
Definition add_requests (urls : list string) (w : World) : World :=
  {| cachedHolidays := cachedHolidays w;
     cacheExpiry := cacheExpiry w;
     cachedCountry := cachedCountry w;
     clock := clock w;
     requests := requests w ++ urls |}.

(** The world when the clock shows [now]: time passes between two
    operations, not during one. *)
Definition set_clock (now : Z) (w : World) : World :=
  {| cachedHolidays := cachedHolidays w;
     cacheExpiry := cacheExpiry w;
     cachedCountry := cachedCountry w;
     clock := now;
     requests := requests w |}.

(* ===================================================================== *)
(** ** bankHolidays.ts                                                    *)
(* ===================================================================== *)

Section BankHolidays.

Variable tz : Z.
Variable config : Config.
Variable net : Network.

(** [fetch(url)]: the request is recorded, the network answers. *)
Definition fetch (url : string) : M Response := fun w =>
  let w' := add_requests [url] w in
  match net (length (requests w)) url with
  | Rejected => Throw FetchError w'
  | Resolved r => Val r w'
  end.

(** [response.json()]. *)
Definition json (response : Response) : M Json :=
  match body response with
  | Some j => mret j
  | None => throw SyntaxError
  end.

(** [data['england-and-wales'].events] *)
Definition england_and_wales_events (data : Json) : M (list UKEvent) :=
  match data with
  | JUKBankHolidays _ events => mret events
  | _ => throw TypeError
  end.

(** The receiver of [data.forEach] in [fetchNagerDateHolidays]. *)
Definition holiday_array (data : Json) : M (list BankHoliday) :=
  match data with
  | JArray items => mret items
  | _ => throw TypeError
  end.

(** The [try] block of [fetchUKBankHolidays]. *)
Definition fetchUKBankHolidays_try : M (gset string) :=
  response ← fetch "https://www.gov.uk/bank-holidays.json";
  data ← json response;
  events ← england_and_wales_events data;
  mret (foldl (fun holidays event => {[event_date event]} ∪ holidays) ∅ events).

Definition fetchUKBankHolidays : M (gset string) :=
  try_catch fetchUKBankHolidays_try (fun error => mret ∅).

(** One turn of the loop over [[currentYear, nextYear]]; a response that is
    not [ok] is skipped. *)
Definition fetchNagerDateYear (countryCode : string)
    (holidays : gset string) (year : Z) : M (gset string) :=
  response ← fetch ("https://date.nager.at/api/v3/PublicHolidays/"
                      +:+ toString year +:+ "/" +:+ countryCode);
  if negb (ok response) then mret holidays
  else
    data ← json response;
    items ← holiday_array data;
    mret (foldl (fun holidays holiday => {[date holiday]} ∪ holidays) holidays items).

(** The [try] block of [fetchNagerDateHolidays]. *)
Definition fetchNagerDateHolidays_try (countryCode : string) : M (gset string) :=
  now ← Date_now;
  let currentYear := getFullYear tz now in
  let nextYear := currentYear + 1 in
  holidays ← fetchNagerDateYear countryCode ∅ currentYear;
  holidays ← fetchNagerDateYear countryCode holidays nextYear;
  mret holidays.

Definition fetchNagerDateHolidays (countryCode : string) : M (gset string) :=
  try_catch (fetchNagerDateHolidays_try countryCode) (fun error => mret ∅).

(** The source that [fetchBankHolidays] turns to for a country. *)
Definition fetchHolidaysOf (country : string) : M (gset string) :=
  if String.eqb country "GB" then fetchUKBankHolidays
  else fetchNagerDateHolidays country.

(** The three assignments that refresh the cache. *)
Definition store_cache (holidays : gset string) (country : string) (now : Z)
  : M unit := fun w =>
  Val tt {| cachedHolidays := Some holidays;
            cacheExpiry := now + 24 * 60 * 60 * 1000;
            cachedCountry := Some country;
            clock := clock w;
            requests := requests w |}.

(** The test [cachedHolidays && now < cacheExpiry && cachedCountry === country]:
    a [Set], even an empty one, is truthy. *)
Definition cache_hit (now : Z) (country : string) (w : World) : option (gset string) :=
  match cachedHolidays w with
  | Some holidays =>
      if (now <? cacheExpiry w) && bool_decide (cachedCountry w = Some country)
      then Some holidays else None
  | None => None
  end.

Definition read_cache (now : Z) (country : string) : M (option (gset string)) :=
  fun w => Val (cache_hit now country w) w.

Definition fetchBankHolidays : M (gset string) :=
  now ← Date_now;
  let country := bankHolidayCountry config in
  if negb (enableBankHolidays config) then mret ∅
  else
    cached ← read_cache now country;
    match cached with
    | Some holidays => mret holidays
    | None =>
        holidays ← fetchHolidaysOf country;
        store_cache holidays country now;;
        mret holidays
    end.

Definition isUKBankHoliday (d : Date) : M bool :=
  if negb (enableBankHolidays config) then mret false
  else
    holidays ← fetchBankHolidays;
    let dateString := format_yyyy_MM_dd tz d in
    mret (bool_decide (dateString ∈ holidays)).

End BankHolidays.

(* ===================================================================== *)
(** ** dateCalculations.ts                                                *)
(* ===================================================================== *)

Definition UK_TIMEZONE : string := "Europe/London".

Record SprintDates : Type := mkSprintDates {
  sprint_start : Date;
  sprint_end : Date;
  sprint_length : Z
}.

Record SprintInfo : Type := mkSprintInfo {
  sprintNumber : Z;
  daysIntoSprint : Z;
  daysRemaining : Z;
  currentSprintStart : Date;
  currentSprintEnd : Date
}.

Inductive Direction : Type := forward | backward.

Section DateCalculations.

Variable tz : Z.
Variable config : Config.
Variable net : Network.

(** Offset (milliseconds east of UTC) of a named zone at an instant: the
    time zone database that date-fns-tz consults. *)
Variable zoneOffset : string -> Z -> Z.

Definition isWorkingDay (d : Date) : M bool :=
  if isWeekend tz d then mret false
  else
    holiday ← isUKBankHoliday tz config net d;
    mret (negb holiday).

(** The [while] loop of [getNextWorkingDay]; [fuel] bounds the number of
    times its body runs. *)
Fixpoint getNextWorkingDay_loop (fuel : nat) (current : Date) : M Date :=
  working ← isWorkingDay current;
  if (working : bool) then mret current
  else
    match fuel with
    | O => out_of_fuel
    | S fuel' => getNextWorkingDay_loop fuel' (addDays current 1)
    end.

Definition getNextWorkingDay (fuel : nat) (fromDate : Date) : M Date :=
  getNextWorkingDay_loop fuel (addDays fromDate 1).

(** The loop of [calculateWorkingDays], with the test
    [workingDaysCount < Math.abs(numDays)] at its head. *)
Fixpoint calculateWorkingDays_loop (fuel : nat) (addOrSubtract : Date -> Z -> Date)
    (bound : Z) (current : Date) (workingDaysCount : Z) : M Date :=
  if workingDaysCount <? bound then
    match fuel with
    | O => out_of_fuel
    | S fuel' =>
        let current := addOrSubtract current 1 in
        working ← isWorkingDay current;
        calculateWorkingDays_loop fuel' addOrSubtract bound current
          (if (working : bool) then workingDaysCount + 1 else workingDaysCount)
    end
  else mret current.

Definition calculateWorkingDays (fuel : nat) (startDate : Date) (numDays : Z)
    (direction : Direction) : M Date :=
  let addOrSubtract :=
    match direction with forward => addDays | backward => subDays end in
  calculateWorkingDays_loop fuel addOrSubtract (Z.abs numDays) startDate 0.

(** The loop of [getWorkingDaysBetween], with the test [current <= end]. *)
Fixpoint getWorkingDaysBetween_loop (fuel : nat) (end_ : Date)
    (current : Date) (workingDays : Z) : M Z :=
  if current <=? end_ then
    match fuel with
    | O => out_of_fuel
    | S fuel' =>
        working ← isWorkingDay current;
        getWorkingDaysBetween_loop fuel' end_ (addDays current 1)
          (if (working : bool) then workingDays + 1 else workingDays)
    end
  else mret workingDays.

Definition getWorkingDaysBetween (fuel : nat) (startDate endDate : Date) : M Z :=
  let start := startDate in
  let end_ := endDate in
  if end_ <? start then mret 0
  else getWorkingDaysBetween_loop fuel end_ start 0.

Definition calculateSprintDates (startDate : Date) (sprintLengthWeeks : Z)
  : SprintDates :=
  let start := startDate in
  let end_ := addWeeks start sprintLengthWeeks in
  let endAdjusted := subDays end_ 1 in
  {| sprint_start := start; sprint_end := endAdjusted;
     sprint_length := sprintLengthWeeks |}.

(** [getCurrentSprintInfo] on whole numbers of weeks.  With a sprint of zero
    weeks the divisions give [NaN] or an infinity, which the fields of
    [SprintInfo] cannot hold: that case is [None]. *)
Definition getCurrentSprintInfo (sprintStart : Date) (sprintLengthWeeks : Z)
  : M (option SprintInfo) :=
  now ← Date_now;
  let daysSinceStart := differenceInDays now sprintStart in
  let sprintLengthDays := sprintLengthWeeks * 7 in
  if sprintLengthDays =? 0 then mret None
  else
    let sprintNumber := daysSinceStart / sprintLengthDays + 1 in
    let daysIntoSprint := Z.rem daysSinceStart sprintLengthDays in
    let daysRemaining := sprintLengthDays - daysIntoSprint in
    let currentSprintStart :=
      addDays sprintStart ((sprintNumber - 1) * sprintLengthDays) in
    let currentSprintEnd := addDays currentSprintStart (sprintLengthDays - 1) in
    mret (Some {| sprintNumber := sprintNumber;
                  daysIntoSprint := daysIntoSprint;
                  daysRemaining := daysRemaining;
                  currentSprintStart := currentSprintStart;
                  currentSprintEnd := currentSprintEnd |}).

Definition getTodayUK : M Date :=
  now ← Date_now;
  mret (utcToZonedTime tz (zoneOffset UK_TIMEZONE) now).

(* ===================================================================== *)
(** ** asanaHelpers.ts                                                    *)
(* ===================================================================== *)

Definition ASANA_DUE_HOUR : Z := 16.

(** [getAsanaDueDate(fromDate?)]; [fuel] bounds each of the loops of
    [getNextWorkingDay]. *)
Definition getAsanaDueDate (fuel : nat) (fromDate : option Date) : M Date :=
  startDate ← match fromDate with
              | Some d => mret d
              | None => getTodayUK
              end;
  let dayOfWeek := getDay tz startDate in
  dueDate ← (if dayOfWeek =? 5 then
               (dueDate ← getNextWorkingDay fuel startDate;
                getNextWorkingDay fuel dueDate)
             else getNextWorkingDay fuel startDate);
  let dueDate := setHours tz dueDate ASANA_DUE_HOUR in
  let dueDate := setMinutes tz dueDate 0 in
  let dueDate := setSeconds tz dueDate 0 in
  let dueDate := setMilliseconds tz dueDate 0 in
  mret dueDate.

End DateCalculations.

(* ===================================================================== *)
(** ** More of JavaScript: strings, a regular expression, months          *)
(* ===================================================================== *)

(** ASCII part of [String.prototype.toLowerCase]. *)
Definition downcase (c : ascii) : ascii :=
  let n := nat_of_ascii c in
  if ((65 <=? n) && (n <=? 90))%nat then ascii_of_nat (n + 32) else c.

Fixpoint toLowerCase (s : string) : string :=
  match s with
  | EmptyString => EmptyString
  | String c s' => String (downcase c) (toLowerCase s')
  end.

(** [String.prototype.trim]: white space, the ASCII part of it, is dropped at
    both ends. *)
Fixpoint trimEnd (s : string) : string :=
  match s with
  | EmptyString => EmptyString
  | String c s' =>
      match trimEnd s' with
      | EmptyString => if isWhiteSpace c then EmptyString else String c EmptyString
      | t => String c t
      end
  end.

Definition trim (s : string) : string := trimEnd (skipWhiteSpace s).

(** The text behind a prefix. *)
Fixpoint stripPrefix (p s : string) : option string :=
  match p, s with
  | EmptyString, _ => Some s
  | String a p', String b s' => if Ascii.eqb a b then stripPrefix p' s' else None
  | String _ _, EmptyString => None
  end.

(** The longest run of decimal digits at the head of a string, and what
    follows it: what [\d+] takes, and has to take for a space to follow. *)
Fixpoint digitRun (s : string) : string * string :=
  match s with
  | String c s' =>
      match digitValue c with
      | Some _ => let '(digits, rest) := digitRun s' in (String c digits, rest)
      | None => (EmptyString, s)
      end
  | EmptyString => (EmptyString, EmptyString)
  end.

(** A match of [/in (\d+) days?/] or [/in (\d+) weeks?/] that starts at the
    head of the string; [word] is ["day"] or ["week"], the optional [s] has
    no part in whether there is a match.  The value is the group. *)
Definition regexp_in_at (word s : string) : option string :=
  match stripPrefix "in " s with
  | Some s1 =>
      let '(digits, s2) := digitRun s1 in
      match digits, stripPrefix (String " " word) s2 with
      | String _ _, Some _ => Some digits
      | _, _ => None
      end
  | None => None
  end.

(** [String.prototype.match] with such an expression: the leftmost match. *)
Fixpoint regexp_in (word s : string) : option string :=
  match regexp_in_at word s with
  | Some group => Some group
  | None =>
      match s with
      | String _ s' => regexp_in word s'
      | EmptyString => None
      end
  end.

(** The integer that [parseInt] reads in a group of digits. *)
Definition integer_of (n : number) : Z :=
  match n with Num z => z | NaN => 0 end.

(** [Date.prototype.getMonth] (0 for January), [getDate], and [setMonth],
    which goes through [MakeDay]: a month outside 0..11 moves the year, a
    day of the month that the new month does not have runs over into the
    next one. *)
Definition getMonth (tz : Z) (d : Date) : Z :=
  snd (fst (civilFromDays (localDay tz d))) - 1.

Definition getDate (tz : Z) (d : Date) : Z := snd (civilFromDays (localDay tz d)).

Definition MakeDay (year month date : Z) : Z :=
  daysFromCivil (year + month / 12, month mod 12 + 1, 1) + date - 1.

Definition setMonth (tz : Z) (d : Date) (month : Z) : Date :=
  MakeDay (getFullYear tz d) month (getDate tz d) * msPerDay
    + LocalTime tz d mod msPerDay - tz.

(** The tokens of date-fns [format] that the program uses besides
    ['yyyy-MM-dd'], with the names of the default locale: [EEEE] the day of
    the week, [MMMM] the month, [d] the day of the month, [h] the hour on a
    clock of twelve, [mm] the minutes on two digits, [a] AM or PM. *)
Definition format_EEEE (weekDay : Z) : string :=
  match weekDay with
  | 0 => "Sunday" | 1 => "Monday" | 2 => "Tuesday" | 3 => "Wednesday"
  | 4 => "Thursday" | 5 => "Friday" | _ => "Saturday"
  end.

Definition format_MMMM (month : Z) : string :=
  match month with
  | 1 => "January" | 2 => "February" | 3 => "March" | 4 => "April"
  | 5 => "May" | 6 => "June" | 7 => "July" | 8 => "August"
  | 9 => "September" | 10 => "October" | 11 => "November" | _ => "December"
  end.

Definition format_h (hours : Z) : string :=
  toString (if hours mod 12 =? 0 then 12 else hours mod 12).

Definition format_a (hours : Z) : string :=
  if hours <? 12 then "AM" else "PM".

Definition format_EEEE_MMMM_d_yyyy (tz : Z) (d : Date) : string :=
  let '(y, m, dd) := civilFromDays (localDay tz d) in
  let year := if 0 <? y then y else 1 - y in
  format_EEEE (getDay tz d) +:+ ", " +:+ format_MMMM m +:+ " " +:+ toString dd
    +:+ ", " +:+ addLeadingZeros year 4.

Definition format_h_mm_a (tz : Z) (d : Date) : string :=
  format_h (getHours tz d) +:+ ":" +:+ addLeadingZeros (getMinutes tz d) 2
    +:+ " " +:+ format_a (getHours tz d).

(* ===================================================================== *)
(** ** bankHolidays.ts: the list of coming holidays                       *)
(* ===================================================================== *)

(** An element of the array that [getUpcomingBankHolidays] returns. *)
Record Upcoming : Type := mkUpcoming {
  upcoming_date : string;
  upcoming_title : string
}.

Section UpcomingBankHolidays.

Variable tz : Z.
Variable config : Config.
Variable net : Network.

(** date-fns [parseISO]; [None] is [Invalid Date]. *)
Variable parseISO : string -> option Date.

(** [eventDate >= now && eventDate <= futureDate]: both comparisons are
    false on [Invalid Date]. *)
Definition in_window (now futureDate : Date) (dateString : string) : bool :=
  match parseISO dateString with
  | Some eventDate => (now <=? eventDate) && (eventDate <=? futureDate)
  | None => false
  end.

(** [futureDate.setMonth(futureDate.getMonth() + monthsAhead)]. *)
Definition monthsFrom (now : Date) (monthsAhead : Z) : Date :=
  setMonth tz now (getMonth tz now + monthsAhead).

(** The branch for ["GB"]. *)
Definition getUpcomingBankHolidays_GB (monthsAhead : Z) : M (list Upcoming) :=
  response ← fetch net "https://www.gov.uk/bank-holidays.json";
  data ← json response;
  now ← Date_now;
  futureDate ← Date_now;
  let futureDate := monthsFrom futureDate monthsAhead in
  events ← england_and_wales_events data;
  mret ((fun event => {| upcoming_date := event_date event;
                         upcoming_title := title event |})
          <$> List.filter (fun event => in_window now futureDate (event_date event))
                events).

(** One turn of the loop over [[currentYear, nextYear]]. *)
Definition getUpcomingBankHolidays_year (country : string)
    (allHolidays : list Upcoming) (year : Z) : M (list Upcoming) :=
  response ← fetch net ("https://date.nager.at/api/v3/PublicHolidays/"
                          +:+ toString year +:+ "/" +:+ country);
  if negb (ok response) then mret allHolidays
  else
    data ← json response;
    items ← holiday_array data;
    mret (allHolidays ++
            ((fun holiday => {| upcoming_date := date holiday;
                                upcoming_title :=
                                  or_else (Some (localName holiday)) (name holiday) |})
               <$> items))%list.

(** The branch for the other countries. *)
Definition getUpcomingBankHolidays_Nager (country : string) (monthsAhead : Z)
  : M (list Upcoming) :=
  today ← Date_now;
  let currentYear := getFullYear tz today in
  let nextYear := currentYear + 1 in
  allHolidays ← getUpcomingBankHolidays_year country [] currentYear;
  allHolidays ← getUpcomingBankHolidays_year country allHolidays nextYear;
  now ← Date_now;
  futureDate ← Date_now;
  let futureDate := monthsFrom futureDate monthsAhead in
  mret (List.filter (fun holiday => in_window now futureDate (upcoming_date holiday))
          allHolidays).

(** The [try] block. *)
Definition getUpcomingBankHolidays_try (country : string) (monthsAhead : Z)
  : M (list Upcoming) :=
  if String.eqb country "GB" then getUpcomingBankHolidays_GB monthsAhead
  else getUpcomingBankHolidays_Nager country monthsAhead.

Definition getUpcomingBankHolidays (monthsAhead : Z) : M (list Upcoming) :=
  if negb (enableBankHolidays config) then mret []
  else
    let country := bankHolidayCountry config in
    try_catch (getUpcomingBankHolidays_try country monthsAhead)
      (fun error => mret []).

End UpcomingBankHolidays.

(* ===================================================================== *)
(** ** dateCalculations.ts and asanaHelpers.ts: the rest                  *)
(* ===================================================================== *)

Section Requests.

Variable tz : Z.
Variable config : Config.
Variable net : Network.
Variable zoneOffset : string -> Z -> Z.

(** date-fns-tz [formatInTimeZone(date, zone, 'yyyy-MM-dd')]: [format] of
    [utcToZonedTime(date, zone)]. *)
Definition formatInTimeZone_yyyy_MM_dd (d : Date) (zone : string) : string :=
  format_yyyy_MM_dd tz (utcToZonedTime tz (zoneOffset zone) d).

Definition formatDateISO (d : Date) : string :=
  formatInTimeZone_yyyy_MM_dd d UK_TIMEZONE.

(** [formatInTimeZone] with the patterns ['EEEE, MMMM d, yyyy'] and
    ['EEEE, MMMM d, yyyy \'at\' h:mm a']. *)
Definition formatInTimeZone_EEEE_MMMM_d_yyyy (d : Date) (zone : string) : string :=
  format_EEEE_MMMM_d_yyyy tz (utcToZonedTime tz (zoneOffset zone) d).

Definition formatInTimeZone_EEEE_MMMM_d_yyyy_at_h_mm_a (d : Date) (zone : string)
  : string :=
  let zoned := utcToZonedTime tz (zoneOffset zone) d in
  format_EEEE_MMMM_d_yyyy tz zoned +:+ " at " +:+ format_h_mm_a tz zoned.

Definition formatDateUK (d : Date) : string :=
  formatInTimeZone_EEEE_MMMM_d_yyyy d UK_TIMEZONE.

Definition formatDateTimeUK (d : Date) : string :=
  formatInTimeZone_EEEE_MMMM_d_yyyy_at_h_mm_a d UK_TIMEZONE.

Definition formatAsanaDisplayDate (d : Date) : string :=
  formatInTimeZone_EEEE_MMMM_d_yyyy_at_h_mm_a d UK_TIMEZONE.

(** [parseDate(dateString)].  [parseISO] does not throw, so the [catch]
    clause is never entered; [None] stands for [Invalid Date]. *)
Definition parseDate (parseISO : string -> option Date) (dateString : string)
  : option Date :=
  utcToZonedTime tz (zoneOffset UK_TIMEZONE) <$> parseISO dateString.

(** [targetDate.setDate(targetDate.getDate() + days)] on a copy of [today],
    then [getAsanaDueDate(targetDate)]. *)
Definition dueDateIn (fuel : nat) (today : Date) (days : Z) : M Date :=
  let targetDate := addDays today days in
  getAsanaDueDate tz config net zoneOffset fuel (Some targetDate).

(** [parseAsanaDateRequest(request)].  The number of days is the one that a
    JavaScript number holds exactly, and the target date a valid one: from
    about 1e8 days on the target date of the code is an [Invalid Date],
    which the model does not have. *)
Definition parseAsanaDateRequest (fuel : nat) (request : string) : M Date :=
  today ← getTodayUK tz zoneOffset;
  let lowerRequest := trim (toLowerCase request) in
  if String.eqb lowerRequest "tomorrow" then
    getAsanaDueDate tz config net zoneOffset fuel (Some today)
  else if String.eqb lowerRequest "next working day"
          || String.eqb lowerRequest "default" then
    getAsanaDueDate tz config net zoneOffset fuel (Some today)
  else
    match regexp_in "day" lowerRequest with
    | Some group =>
        let days := integer_of (parseInt group) in
        dueDateIn fuel today days
    | None =>
        match regexp_in "week" lowerRequest with
        | Some group =>
            let weeks := integer_of (parseInt group) in
            dueDateIn fuel today (weeks * 7)
        | None => getAsanaDueDate tz config net zoneOffset fuel (Some today)
        end
    end.

End Requests.

(* ===================================================================== *)
(** ** Vocabulary of the properties                                       *)
(* ===================================================================== *)

(** The first day of year 1, from which on ['yyyy'] prints the year itself. *)
Definition firstDayAD : Z := -719162.

(** Reading back a run of decimal digits. *)
Definition readNumber (s : string) : option Z :=
  (fun u => Z.of_N (N.of_uint u)) <$> NilEmpty.uint_of_string s.

(** A day number is a working day for a set of holidays: it is not a
    Saturday or a Sunday, and its ISO string is not in the set. *)
Definition workingDayNumber (holidays : gset string) (day : Z) : bool :=
  negb ((WeekDay day =? 0) || (WeekDay day =? 6))
  && negb (bool_decide (isoOfDay day ∈ holidays)).

(** The Wednesday of the j-th week after week [q]. *)
Definition wednesday (q : Z) (j : nat) : Z := 7 * (q + Z.of_nat j) + 6.

(** Calendar fields of a date in a zone of a given offset: the "zoned
    calendar date" of the specification. *)
Definition isWeekendAt (offset : Z) (d : Date) : bool :=
  (WeekDay (Day (d + offset)) =? 0) || (WeekDay (Day (d + offset)) =? 6).

Definition isoDateAt (offset : Z) (d : Date) : string := isoOfDay (Day (d + offset)).

(** Time of day of a date, in milliseconds after local midnight. *)
Definition timeOfDay (tz : Z) (d : Date) : Z := LocalTime tz d mod msPerDay.

(** Some requests were sent between [w] and [w'], and nothing else changed. *)
Definition sent (w w' : World) : Prop :=
  exists urls, urls <> [] /\ w' = add_requests urls w.

(** An outcome that is a value or an exception, in a world reached by
    sending requests. *)
Definition after_requests {A : Type} (w : World) (o : Outcome A) : Prop :=
  match o with
  | Val _ w' => sent w w'
  | Throw _ w' => sent w w'
  | OutOfFuel => False
  end.

(** What a [catch] clause that returns an empty set makes of the outcome of
    its [try] block. *)
Definition fail_open (o : Outcome (gset string)) : Outcome (gset string) :=
  match o with
  | Throw _ w' => Val ∅ w'
  | o => o
  end.

(** The world that a refresh of the cache at [clock w] leaves. *)
Definition refreshed (holidays : gset string) (country : string)
    (urls : list string) (w : World) : World :=
  {| cachedHolidays := Some holidays;
     cacheExpiry := clock w + 86400000;
     cachedCountry := Some country;
     clock := clock w;
     requests := requests w ++ urls |}.


(** The holidays [hs] in force in [w], the world [w'] once they are cached,
    and how [isWorkingDay] runs in both. *)
Definition settles (tz : Z) (config : Config) (net : Network)
    (w : World) (hs : gset string) (w' : World) : Prop :=
  clock w' = clock w /\
  (forall d, isWorkingDay tz config net d w
     = Val (workingDayNumber hs (localDay tz d)) (if isWeekend tz d then w else w')) /\
  (forall d, isWorkingDay tz config net d w'
     = Val (workingDayNumber hs (localDay tz d)) w').

(** [isWorkingDay(d)] answers [true] in the world [w]. *)
Definition is_working (tz : Z) (config : Config) (net : Network)
    (w : World) (d : Date) : bool :=
  match isWorkingDay tz config net d w with
  | Val true _ => true
  | _ => false
  end.

(** The number of working days among [n] calendar days, the first of which
    is the day of [d]. *)
Fixpoint countWorking (tz : Z) (config : Config) (net : Network)
    (w : World) (d : Date) (n : nat) : Z :=
  match n with
  | O => 0
  | S n' =>
      (if is_working tz config net w d then 1 else 0)
      + countWorking tz config net w (addDays d 1) n'
  end.

(** The number of calendar days in the inclusive range from the day of
    [startDate] to the day of [endDate] that satisfy [isWorkingDay]. *)
Definition workingDaysInRange (tz : Z) (config : Config) (net : Network)
    (w : World) (startDate endDate : Date) : Z :=
  countWorking tz config net w startDate
    (Z.to_nat (localDay tz endDate - localDay tz startDate + 1)).

(** The same count over day numbers, for a set of holidays. *)
Fixpoint countFrom (hs : gset string) (day : Z) (n : nat) : Z :=
  match n with
  | O => 0
  | S n' => (if workingDayNumber hs day then 1 else 0) + countFrom hs (day + 1) n'
  end.

(** The step of a direction, in days. *)
Definition stepOf (direction : Direction) : Z :=
  match direction with forward => 1 | backward => -1 end.

(** The number of working days among the [k] days met when stepping from
    [d] by [s] days at a time, [d] itself left out. *)
Fixpoint countStepped (tz : Z) (config : Config) (net : Network)
    (w : World) (d : Date) (s : Z) (k : nat) : Z :=
  match k with
  | O => 0
  | S k' =>
      (if is_working tz config net w (addDays d s) then 1 else 0)
      + countStepped tz config net w (addDays d s) s k'
  end.

(** The same count over day numbers, for a set of holidays. *)
Fixpoint countDays (hs : gset string) (day : Z) (s : Z) (k : nat) : Z :=
  match k with
  | O => 0
  | S k' => (if workingDayNumber hs (day + s) then 1 else 0) + countDays hs (day + s) s k'
  end.

(** The four [set...] calls at the end of [getAsanaDueDate]. *)
Definition atDueTime (tz : Z) (d : Date) : Date :=
  setMilliseconds tz (setSeconds tz (setMinutes tz (setHours tz d ASANA_DUE_HOUR) 0) 0) 0.


(** The URL that is asked for the public holidays of a country in a year. *)
Definition nagerURL (year : Z) (countryCode : string) : string :=
  "https://date.nager.at/api/v3/PublicHolidays/"
    +:+ toString year +:+ "/" +:+ countryCode.

(** What one turn of the loop of [fetchNagerDateHolidays] adds, for an
    answer of the network: nothing when the response is not [ok]; [None]
    when the turn throws. *)
Definition yearDates (answer : FetchResult) : option (gset string) :=
  match answer with
  | Rejected => None
  | Resolved r =>
      if ok r then
        match body r with
        | Some (JArray items) => Some (list_to_set (date <$> items))
        | _ => None
        end
      else Some ∅
  end.

(** The shapes of document that the two sources of holidays answer with. *)
Definition isUKDocument (data : Json) : bool :=
  match data with JUKBankHolidays _ _ => true | _ => false end.

Definition isHolidayArray (data : Json) : bool :=
  match data with JArray _ => true | _ => false end.

(** A failure of a request for a document of a given shape: a failure of
    the network, on which [fetch] is rejected, or a failure to parse, when
    the body of the response is not JSON or is JSON of another shape. *)
Inductive Failure (shape : Json -> bool) : FetchResult -> Prop :=
| network_failure : Failure shape Rejected
| not_json (r : Response) : body r = None -> Failure shape (Resolved r)
| other_shape (r : Response) (data : Json) :
    body r = Some data -> shape data = false -> Failure shape (Resolved r).

(** The answer is a response with an HTTP error status: [response.ok] is
    false. *)
Definition errorStatus (answer : FetchResult) : bool :=
  match answer with
  | Rejected => false
  | Resolved r => negb (ok r)
  end.

(** A world with another cache. *)
Definition with_cache (holidays : option (gset string)) (expiry : Z)
    (country : option string) (w : World) : World :=
  {| cachedHolidays := holidays; cacheExpiry := expiry; cachedCountry := country;
     clock := clock w; requests := requests w |}.

(** An outcome, in a world with another cache. *)
Definition recache {A : Type} (holidays : option (gset string)) (expiry : Z)
    (country : option string) (o : Outcome A) : Outcome A :=
  match o with
  | Val a w => Val a (with_cache holidays expiry country w)
  | Throw e w => Throw e (with_cache holidays expiry country w)
  | OutOfFuel => OutOfFuel
  end.

(** A computation that neither reads nor writes the cache. *)
Definition cache_blind {A : Type} (m : M A) : Prop :=
  forall holidays expiry country w,
    m (with_cache holidays expiry country w) = recache holidays expiry country (m w).

(* ===================================================================== *)
(** ** Concrete processes, for the examples                               *)
(* ===================================================================== *)

(** A process whose zone is UTC. *)
Definition UTC : Z := 0.

(** Offsets of the zones without daylight saving that the examples name;
    every other name is given the offset 0 and is not used. *)
Definition zoneTable (zone : string) (instant : Z) : Z :=
  if String.eqb zone "Asia/Bangkok" then 7 * msPerHour
  else if String.eqb zone "Asia/Colombo" then 5 * msPerHour + 30 * msPerMinute
  else if String.eqb zone "Asia/Kuala_Lumpur" then 8 * msPerHour
  else 0.

(** No variable set: weekends only, 16:00. *)
Definition configDefault : Config :=
  getConfig {| env_BANK_HOLIDAY_COUNTRY := None; env_TIMEZONE := None;
               env_ASANA_DUE_HOUR := None |}.

(** [TIMEZONE=UTC ASANA_DUE_HOUR=9]. *)
Definition configNine : Config :=
  getConfig {| env_BANK_HOLIDAY_COUNTRY := None; env_TIMEZONE := Some "UTC";
               env_ASANA_DUE_HOUR := Some "9" |}.

(** [BANK_HOLIDAY_COUNTRY=th], [=lk] and [=gb]. *)
Definition configTH : Config :=
  getConfig {| env_BANK_HOLIDAY_COUNTRY := Some "th"; env_TIMEZONE := None;
               env_ASANA_DUE_HOUR := None |}.

Definition configLK : Config :=
  getConfig {| env_BANK_HOLIDAY_COUNTRY := Some "lk"; env_TIMEZONE := None;
               env_ASANA_DUE_HOUR := None |}.

Definition configGB : Config :=
  getConfig {| env_BANK_HOLIDAY_COUNTRY := Some "gb"; env_TIMEZONE := None;
               env_ASANA_DUE_HOUR := None |}.

(** A network that is down, and one that serves a list of public holidays
    of Thailand for every year asked. *)
Definition netDown : Network := fun _ _ => Rejected.

Definition netTH : Network := fun _ _ =>
  Resolved {| ok := true; status := 200;
              body := Some (JArray [ {| date := "2025-12-05";
                                        localName := "Father's Day";
                                        name := "King Bhumibol's Birthday" |};
                                     {| date := "2025-12-10";
                                        localName := "Constitution Day";
                                        name := "Constitution Day" |} ]) |}.

(** The GOV.UK document, cut down to two events, and two bodies that
    [fetchUKBankHolidays] cannot use. *)
Definition netUK : Network := fun _ _ =>
  Resolved {| ok := true; status := 200;
              body := Some (JUKBankHolidays "england-and-wales"
                              [ {| title := "Christmas Day";
                                   event_date := "2025-12-25";
                                   notes := ""; bunting := true |};
                                {| title := "Boxing Day";
                                   event_date := "2025-12-26";
                                   notes := ""; bunting := true |} ]) |}.

Definition netNotJson : Network := fun _ _ =>
  Resolved {| ok := false; status := 502; body := None |}.

Definition netOtherJson : Network := fun _ _ =>
  Resolved {| ok := true; status := 200; body := Some JOther |}.

(** The list of the current year is answered with status 500, that of the
    next year with the list of [netTH]. *)
Definition netYearMissing : Network := fun n url =>
  match n with
  | O => Resolved {| ok := false; status := 500; body := None |}
  | S _ => netTH n url
  end.

(** The GOV.UK document of [netUK], answered with status 500. *)
Definition netUKStatus500 : Network := fun _ _ =>
  Resolved {| ok := false; status := 500;
              body := Some (JUKBankHolidays "england-and-wales"
                              [ {| title := "Christmas Day";
                                   event_date := "2025-12-25";
                                   notes := ""; bunting := true |};
                                {| title := "Boxing Day";
                                   event_date := "2025-12-26";
                                   notes := ""; bunting := true |} ]) |}.

(** Instants of January and December 2025. *)
Definition fri_2025_01_03_18h : Date := 1735927200000.
Definition mon_2025_01_06_00h : Date := 1736121600000.
Definition mon_2025_01_06_10h : Date := 1736157600000.
Definition tue_2025_01_07_09h : Date := 1736240400000.
Definition thu_2025_12_04_18h : Date := 1764871200000.
Definition wed_2025_12_24_00h : Date := 1766534400000.

(** London in summer: one hour east of UTC at every instant asked. *)
Definition zoneSummer (zone : string) (instant : Z) : Z := msPerHour.

(** What [parseISO] makes of a string [yyyy-MM-dd]: midnight of that day in
    the zone of the process. *)
Definition parseISODate (tz : Z) (s : string) : option Date :=
  match readNumber (substring 0 4 s), readNumber (substring 5 2 s),
        readNumber (substring 8 2 s) with
  | Some y, Some m, Some d =>
      if (String.length s =? 10)%nat then Some (daysFromCivil (y, m, d) * msPerDay - tz)
      else None
  | _, _, _ => None
  end.

Definition tue_2025_07_01_22h30 : Date := 1751409000000.
Definition thu_2025_12_25_10h : Date := 1766656800000.

(** London from April 2025 to March 2026: one hour east of UTC until 01:00
    UTC on Sunday 26 October 2025, on UTC after. *)
Definition zoneLondon2025 (zone : string) (instant : Z) : Z :=
  if instant <? 1761440400000 then msPerHour else 0.

Definition mon_2025_10_20_01h : Date := 1760922000000.
Definition mon_2025_10_27_00h : Date := 1761523200000.
Definition fri_2025_12_05_00h : Date := 1764892800000.

(* ===================================================================== *)
(** * Properties                                                          *)
(* ===================================================================== *)

Ltac div_lia := Z.to_euclidean_division_equations; lia.

Ltac unfold_M :=
  unfold mbind, M_bind, mret, M_ret, throw, try_catch, out_of_fuel, Date_now in *.

(* ===================================================================== *)
(** ** The calendar                                                       *)
(* ===================================================================== *)



Lemma era_bounds (doe : Z) :
  0 <= doe <= 146096 ->
  let yoe := (doe - doe / 1460 + doe / 36524 - doe / 146096) / 365 in
  let doy := doe - (365 * yoe + yoe / 4 - yoe / 100) in
  0 <= yoe <= 399 /\ 0 <= doy <= 365.
Proof. intros H yoe doy. subst doy yoe. div_lia. Qed.

Lemma civilFromDays_fields (z : Z) :
  1 <= snd (fst (civilFromDays z)) <= 12 /\ 1 <= snd (civilFromDays z) <= 31.
Proof.
  unfold civilFromDays.
  set (z' := z + 719468). set (era := z' / 146097).
  set (doe := z' - era * 146097).
  assert (Hdoe : 0 <= doe <= 146096) by (subst doe era; div_lia).
  destruct (era_bounds doe Hdoe) as [Hy Hd]. cbv zeta in Hy, Hd.
  set (yoe := (doe - doe / 1460 + doe / 36524 - doe / 146096) / 365) in *.
  set (doy := doe - (365 * yoe + yoe / 4 - yoe / 100)) in *.
  clearbody doy. clear - Hd. cbn [fst snd].
  set (mp := (5 * doy + 2) / 153).
  assert (0 <= mp <= 11) by (subst mp; div_lia).
  split.
  - destruct (mp <? 10) eqn:E; lia.
  - subst mp. div_lia.
Qed.

Lemma daysFromCivil_civilFromDays (z : Z) : daysFromCivil (civilFromDays z) = z.
Proof.
  unfold civilFromDays, daysFromCivil.
  set (z' := z + 719468). set (era := z' / 146097).
  set (doe := z' - era * 146097).
  assert (Hdoe : 0 <= doe <= 146096) by (subst doe era; div_lia).
  destruct (era_bounds doe Hdoe) as [Hy Hd]. cbv zeta in Hy, Hd.
  set (yoe := (doe - doe / 1460 + doe / 36524 - doe / 146096) / 365) in *.
  set (doy := doe - (365 * yoe + yoe / 4 - yoe / 100)) in *.
  set (mp := (5 * doy + 2) / 153).
  assert (Hmp : 0 <= mp <= 11) by (subst mp; div_lia).
  set (m := if mp <? 10 then mp + 3 else mp - 9).
  assert (Hm : (if 2 <? m then m - 3 else m + 9) = mp).
  { subst m. destruct (mp <? 10) eqn:E.
    - destruct (2 <? mp + 3) eqn:E'; lia.
    - destruct (2 <? mp - 9) eqn:E'; lia. }
  rewrite Hm.
  replace (yoe + era * 400 + (if m <=? 2 then 1 else 0) - (if m <=? 2 then 1 else 0))
    with (yoe + era * 400) by lia.
  assert (He : (yoe + era * 400) / 400 = era) by div_lia.
  rewrite He.
  replace (yoe + era * 400 - era * 400) with yoe by lia.
  subst doy doe z'. lia.
Qed.

Lemma civilFromDays_inj (a b : Z) : civilFromDays a = civilFromDays b -> a = b.
Proof.
  intros H. rewrite <- (daysFromCivil_civilFromDays a), H.
  apply daysFromCivil_civilFromDays.
Qed.

Lemma civilFromDays_year_AD (z : Z) :
  firstDayAD <= z -> 1 <= fst (fst (civilFromDays z)).
Proof.
  unfold firstDayAD, civilFromDays. intros Hz.
  set (z' := z + 719468). set (era := z' / 146097).
  set (doe := z' - era * 146097).
  assert (Hdoe : 0 <= doe <= 146096) by (subst doe era; div_lia).
  assert (Hera : 0 <= era) by (subst era z'; div_lia).
  destruct (era_bounds doe Hdoe) as [Hy Hd]. cbv zeta in Hy, Hd.
  set (yoe := (doe - doe / 1460 + doe / 36524 - doe / 146096) / 365) in *.
  set (doy := doe - (365 * yoe + yoe / 4 - yoe / 100)) in *.
  set (mp := (5 * doy + 2) / 153).
  cbn [fst snd].
  assert (H0 : era = 0 -> yoe = 0 -> 10 <= mp).
  { intros E0 Y0. assert (306 <= doe) by (subst doe z'; lia).
    subst mp doy. rewrite Y0. div_lia. }
  destruct (mp <? 10) eqn:E; [ | destruct (mp - 9 <=? 2) eqn:E2 ]; try lia.
  - destruct (mp + 3 <=? 2); lia.
  - assert (mp <= 11) by (subst mp; div_lia). lia.
Qed.

(** *** Printing numbers *)

Lemma readNumber_toString (n : Z) : 0 <= n -> readNumber (toString n) = Some n.
Proof.
  intros Hn. unfold readNumber, toString.
  destruct (n <? 0) eqn:E; [lia|].
  rewrite NilEmpty.usu. cbn. rewrite DecimalN.Unsigned.of_to. f_equal. lia.
Qed.

Lemma string_app_cons (c : ascii) (s t : string) : String c s +:+ t = String c (s +:+ t).
Proof. reflexivity. Qed.

Lemma string_app_nil (t : string) : "" +:+ t = t.
Proof. reflexivity. Qed.

Lemma readNumber_zeros (k : nat) (s : string) :
  readNumber (zeros k +:+ s) = readNumber s.
Proof.
  induction k as [|k IH]; [reflexivity|].
  unfold readNumber in *. cbn [zeros]. rewrite string_app_cons.
  cbn [NilEmpty.uint_of_string].
  rewrite <- IH.
  destruct (NilEmpty.uint_of_string (zeros k +:+ s)) as [u|]; reflexivity.
Qed.

Lemma readNumber_addLeadingZeros (n : Z) (k : nat) :
  0 <= n -> readNumber (addLeadingZeros n k) = Some n.
Proof.
  intros Hn. unfold addLeadingZeros.
  destruct (n <? 0) eqn:E; [lia|]. rewrite string_app_nil.
  rewrite readNumber_zeros, Z.abs_eq by lia. now apply readNumber_toString.
Qed.

Lemma addLeadingZeros_inj (n n' : Z) (k : nat) :
  0 <= n -> 0 <= n' -> addLeadingZeros n k = addLeadingZeros n' k -> n = n'.
Proof.
  intros Hn Hn' E.
  assert (H : readNumber (addLeadingZeros n k) = readNumber (addLeadingZeros n' k))
    by now rewrite E.
  rewrite !readNumber_addLeadingZeros in H by assumption. congruence.
Qed.

Lemma string_length_app (s t : string) :
  String.length (s +:+ t) = (String.length s + String.length t)%nat.
Proof.
  induction s as [|c s IH]; [reflexivity|].
  rewrite string_app_cons. cbn [String.length Nat.add]. now rewrite IH.
Qed.

Lemma string_app_inj_suffix (s1 s2 t1 t2 : string) :
  String.length t1 = String.length t2 ->
  s1 +:+ t1 = s2 +:+ t2 -> s1 = s2 /\ t1 = t2.
Proof.
  revert s2. induction s1 as [|c s1 IH]; intros [|c' s2] Hl E;
    rewrite ?string_app_cons, ?string_app_nil in E.
  - now split.
  - exfalso. subst t1. cbn [String.length] in Hl. rewrite string_length_app in Hl. lia.
  - exfalso. subst t2. cbn [String.length] in Hl. rewrite string_length_app in Hl. lia.
  - injection E as -> E. destruct (IH s2 Hl E) as [-> ->]. now split.
Qed.

Lemma length_two_digits (n : Z) :
  0 <= n < 100 -> String.length (addLeadingZeros n 2) = 2%nat.
Proof.
  intros Hn.
  assert (Hall : forallb (fun i => Nat.eqb (String.length (addLeadingZeros (Z.of_nat i) 2)) 2)
                   (seq 0 100) = true) by (vm_compute; reflexivity).
  rewrite forallb_forall in Hall.
  specialize (Hall (Z.to_nat n)).
  rewrite Z2Nat.id in Hall by lia.
  apply Nat.eqb_eq, Hall, in_seq. lia.
Qed.

Lemma isoOfDay_inj (a b : Z) :
  firstDayAD <= a -> firstDayAD <= b -> isoOfDay a = isoOfDay b -> a = b.
Proof.
  intros Ha Hb E. apply civilFromDays_inj.
  pose proof (civilFromDays_year_AD a Ha) as Hya.
  pose proof (civilFromDays_year_AD b Hb) as Hyb.
  pose proof (civilFromDays_fields a) as [Hma Hda].
  pose proof (civilFromDays_fields b) as [Hmb Hdb].
  unfold isoOfDay in E.
  destruct (civilFromDays a) as [[ya ma] da], (civilFromDays b) as [[yb mb] db].
  cbn [fst snd] in *.
  destruct (0 <? ya) eqn:Ea; [|lia]. destruct (0 <? yb) eqn:Eb; [|lia].
  apply string_app_inj_suffix in E as [Ey E].
  2:{ rewrite !string_length_app, !length_two_digits by lia. reflexivity. }
  rewrite !string_app_cons, !string_app_nil in E. injection E as E.
  apply string_app_inj_suffix in E as [Em E].
  2:{ cbn [String.length]. rewrite !length_two_digits by lia. reflexivity. }
  injection E as E.
  apply addLeadingZeros_inj in Ey, Em, E; try lia. congruence.
Qed.

(** *** Working days exist *)

Lemma WeekDay_wednesday (q : Z) (j : nat) : WeekDay (wednesday q j) = 3.
Proof. unfold WeekDay, wednesday. div_lia. Qed.

Lemma wednesday_inj (q : Z) (i j : nat) : wednesday q i = wednesday q j -> i = j.
Proof. unfold wednesday. lia. Qed.

Lemma exists_workingDay (holidays : gset string) (lo : Z) :
  exists day, lo <= day /\ workingDayNumber holidays day = true.
Proof.
  set (q := Z.max lo firstDayAD / 7 + 1).
  set (l := wednesday q <$> seq 0 (S (size holidays))).
  assert (Hlo : forall day, day ∈ l -> lo <= day /\ firstDayAD <= day).
  { intros day (j & -> & _)%list_elem_of_fmap. unfold wednesday. subst q. div_lia. }
  assert (Hex : Exists (fun day => isoOfDay day ∉ holidays) l).
  { apply (not_Forall_Exists _). intros Hall.
    assert (Hnd : NoDup (isoOfDay <$> l)).
    { apply NoDup_fmap_2_strong.
      - intros x y Hx Hy. apply isoOfDay_inj; now apply Hlo.
      - apply NoDup_fmap_2_strong; [|apply NoDup_seq].
        intros i j _ _. apply wednesday_inj. }
    assert (Hsub : list_to_set (isoOfDay <$> l) ⊆ holidays).
    { intros s (day & -> & Hd)%elem_of_list_to_set%list_elem_of_fmap.
      now apply (proj1 (Forall_forall _ _) Hall). }
    apply subseteq_size in Hsub.
    rewrite size_list_to_set in Hsub by assumption.
    subst l. rewrite !length_fmap, length_seq in Hsub. lia. }
  apply Exists_exists in Hex as (day & Hin & Hnot).
  exists day. split; [now apply Hlo|].
  apply list_elem_of_fmap in Hin as (j & -> & _).
  unfold workingDayNumber.
  rewrite WeekDay_wednesday, bool_decide_false by assumption. reflexivity.
Qed.

Lemma least_true (P : nat -> bool) (n : nat) :
  P n = true ->
  exists m, (m <= n)%nat /\ P m = true /\ forall j, (j < m)%nat -> P j = false.
Proof.
  intros Hn.
  assert (H : forall k, (forall j, (j < k)%nat -> P j = false) \/
                        (exists m, (m < k)%nat /\ P m = true /\
                                   forall j, (j < m)%nat -> P j = false)).
  { induction k as [|k [IH|IH]].
    - left. lia.
    - destruct (P k) eqn:E.
      + right. exists k. auto.
      + left. intros j Hj. destruct (decide (j = k)) as [->|]; [assumption|].
        apply IH. lia.
    - right. destruct IH as (m & ? & ? & ?). exists m. auto. }
  destruct (H (S n)) as [Hall|(m & Hm & Hp & Hl)].
  - rewrite Hall in Hn by lia. discriminate.
  - exists m. split; [lia | auto].
Qed.

(** From any day on there is a first working day. *)
Lemma first_workingDay (holidays : gset string) (lo : Z) :
  exists n : nat,
    workingDayNumber holidays (lo + Z.of_nat n) = true /\
    forall j : nat, (j < n)%nat -> workingDayNumber holidays (lo + Z.of_nat j) = false.
Proof.
  destruct (exists_workingDay holidays lo) as (day & Hlo & Hd).
  destruct (least_true (fun j => workingDayNumber holidays (lo + Z.of_nat j))
              (Z.to_nat (day - lo))) as (m & _ & Hm & Hl).
  - cbn. now replace (lo + Z.of_nat (Z.to_nat (day - lo))) with day by lia.
  - exists m. auto.
Qed.

Lemma civilFromDays_year_BC (z : Z) :
  z < firstDayAD -> fst (fst (civilFromDays z)) <= 0.
Proof.
  unfold firstDayAD, civilFromDays. intros Hz.
  set (z' := z + 719468). set (era := z' / 146097).
  set (doe := z' - era * 146097).
  assert (Hdoe : 0 <= doe <= 146096) by (subst doe era; div_lia).
  assert (Hera : era <= 0) by (subst era z'; div_lia).
  destruct (era_bounds doe Hdoe) as [Hy Hd]. cbv zeta in Hy, Hd.
  set (yoe := (doe - doe / 1460 + doe / 36524 - doe / 146096) / 365) in *.
  set (doy := doe - (365 * yoe + yoe / 4 - yoe / 100)) in *.
  set (mp := (5 * doy + 2) / 153).
  cbn [fst snd].
  assert (H0 : era = 0 -> yoe = 0 /\ mp < 10).
  { intros E0. assert (doe < 306) by (subst doe z'; lia).
    assert (yoe = 0) by (subst yoe; div_lia).
    split; [assumption|]. subst mp doy. replace yoe with 0 by lia. div_lia. }
  assert (Hmp : 0 <= mp) by (subst mp; div_lia).
  destruct (mp <? 10) eqn:E; [ | destruct (mp - 9 <=? 2) eqn:E2 ]; try lia.
  destruct (mp + 3 <=? 2) eqn:E3; lia.
Qed.

Lemma isoOfDay_inj_BC (a b : Z) :
  a < firstDayAD -> b < firstDayAD -> isoOfDay a = isoOfDay b -> a = b.
Proof.
  intros Ha Hb E. apply civilFromDays_inj.
  pose proof (civilFromDays_year_BC a Ha) as Hya.
  pose proof (civilFromDays_year_BC b Hb) as Hyb.
  pose proof (civilFromDays_fields a) as [Hma Hda].
  pose proof (civilFromDays_fields b) as [Hmb Hdb].
  unfold isoOfDay in E.
  destruct (civilFromDays a) as [[ya ma] da], (civilFromDays b) as [[yb mb] db].
  cbn [fst snd] in *.
  destruct (0 <? ya) eqn:Ea; [lia|]. destruct (0 <? yb) eqn:Eb; [lia|].
  apply string_app_inj_suffix in E as [Ey E].
  2:{ rewrite !string_length_app, !length_two_digits by lia. reflexivity. }
  rewrite !string_app_cons, !string_app_nil in E. injection E as E.
  apply string_app_inj_suffix in E as [Em E].
  2:{ cbn [String.length]. rewrite !length_two_digits by lia. reflexivity. }
  injection E as E.
  apply addLeadingZeros_inj in Ey, Em, E; try lia.
  assert (ya = yb) by lia. congruence.
Qed.

Lemma exists_workingDay_before (holidays : gset string) (hi : Z) :
  exists day, day <= hi /\ workingDayNumber holidays day = true.
Proof.
  set (q := Z.min hi (firstDayAD - 1) / 7 - Z.of_nat (size holidays) - 1).
  set (l := wednesday q <$> seq 0 (S (size holidays))).
  assert (Hhi : forall day, day ∈ l -> day <= hi /\ day < firstDayAD).
  { intros day (j & -> & Hj)%list_elem_of_fmap.
    apply elem_of_seq in Hj. unfold wednesday. subst q. div_lia. }
  assert (Hex : Exists (fun day => isoOfDay day ∉ holidays) l).
  { apply (not_Forall_Exists _). intros Hall.
    assert (Hnd : NoDup (isoOfDay <$> l)).
    { apply NoDup_fmap_2_strong.
      - intros x y Hx Hy. apply isoOfDay_inj_BC; now apply Hhi.
      - apply NoDup_fmap_2_strong; [|apply NoDup_seq].
        intros i j _ _. apply wednesday_inj. }
    assert (Hsub : list_to_set (isoOfDay <$> l) ⊆ holidays).
    { intros s (day & -> & Hd)%elem_of_list_to_set%list_elem_of_fmap.
      now apply (proj1 (Forall_forall _ _) Hall). }
    apply subseteq_size in Hsub.
    rewrite size_list_to_set in Hsub by assumption.
    subst l. rewrite !length_fmap, length_seq in Hsub. lia. }
  apply Exists_exists in Hex as (day & Hin & Hnot).
  exists day. split; [now apply Hhi|].
  apply list_elem_of_fmap in Hin as (j & -> & _).
  unfold workingDayNumber.
  rewrite WeekDay_wednesday, bool_decide_false by assumption. reflexivity.
Qed.

(** In either direction there is a first working day after any day. *)
Lemma first_workingDay_towards (holidays : gset string) (day s : Z) :
  s = 1 \/ s = -1 ->
  exists n : nat,
    workingDayNumber holidays (day + s * (1 + Z.of_nat n)) = true /\
    forall j : nat, (j < n)%nat ->
      workingDayNumber holidays (day + s * (1 + Z.of_nat j)) = false.
Proof.
  intros [-> | ->].
  - destruct (first_workingDay holidays (day + 1)) as (n & Hn & Hl).
    exists n. split.
    + now replace (day + 1 * (1 + Z.of_nat n)) with (day + 1 + Z.of_nat n) by lia.
    + intros j Hj.
      replace (day + 1 * (1 + Z.of_nat j)) with (day + 1 + Z.of_nat j) by lia. auto.
  - destruct (exists_workingDay_before holidays (day - 1)) as (d & Hd & Hw).
    destruct (least_true (fun j => workingDayNumber holidays (day + -1 * (1 + Z.of_nat j)))
                (Z.to_nat (day - 1 - d))) as (m & _ & Hm & Hl).
    + cbn. now replace (day + -1 * (1 + Z.of_nat (Z.to_nat (day - 1 - d)))) with d by lia.
    + exists m. auto.
Qed.

(* ===================================================================== *)
(** ** The holiday cache                                                  *)
(* ===================================================================== *)



Section HolidayCache.

Variable tz : Z.
Variable config : Config.
Variable net : Network.

Lemma add_requests_add_requests (l1 l2 : list string) (w : World) :
  add_requests l2 (add_requests l1 w) = add_requests (l1 ++ l2)%list w.
Proof. unfold add_requests; cbn. now rewrite app_assoc. Qed.

Lemma sent_one (url : string) (w : World) : sent w (add_requests [url] w).
Proof. exists [url]. split; [discriminate | reflexivity]. Qed.

Lemma sent_trans (w1 w2 w3 : World) : sent w1 w2 -> sent w2 w3 -> sent w1 w3.
Proof.
  intros (l1 & H1 & ->) (l2 & H2 & ->). exists (l1 ++ l2)%list. split.
  - destruct l1; [congruence | discriminate].
  - apply add_requests_add_requests.
Qed.

Lemma fetch_after (url : string) (w : World) : after_requests w (fetch net url w).
Proof. unfold fetch. destruct (net _ _); apply sent_one. Qed.

Lemma fetchUKBankHolidays_try_after (w : World) :
  after_requests w (fetchUKBankHolidays_try net w).
Proof.
  unfold fetchUKBankHolidays_try. unfold_M.
  pose proof (fetch_after "https://www.gov.uk/bank-holidays.json" w) as Hf.
  destruct (fetch net _ w) as [r w1|e w1|]; cbn in *; try assumption.
  unfold json. destruct (body r) as [j|]; unfold_M; cbn; [|assumption].
  destruct j; cbn; unfold_M; assumption.
Qed.

Lemma fetchNagerDateYear_after (c : string) (hs : gset string) (y : Z) (w : World) :
  after_requests w (fetchNagerDateYear net c hs y w).
Proof.
  unfold fetchNagerDateYear. unfold_M.
  match goal with |- context [fetch net ?u w] =>
    pose proof (fetch_after u w) as Hf; destruct (fetch net u w) as [r w1|e w1|] end;
    cbn in *; try assumption.
  destruct (negb (ok r)); cbn; [assumption|].
  unfold json. destruct (body r) as [j|]; unfold_M; cbn; [|assumption].
  destruct j; cbn; unfold_M; assumption.
Qed.

Lemma fetchNagerDateHolidays_try_after (c : string) (w : World) :
  after_requests w (fetchNagerDateHolidays_try tz net c w).
Proof.
  unfold fetchNagerDateHolidays_try. unfold_M.
  pose proof (fetchNagerDateYear_after c ∅ (getFullYear tz (clock w)) w) as H1.
  destruct (fetchNagerDateYear net c ∅ _ w) as [hs w1|e w1|]; cbn in *; try assumption.
  pose proof (fetchNagerDateYear_after c hs (getFullYear tz (clock w) + 1) w1) as H2.
  destruct (fetchNagerDateYear net c hs _ w1) as [hs2 w2|e w2|]; cbn in *;
    try contradiction; eapply sent_trans; eassumption.
Qed.

Lemma fetchUKBankHolidays_fail_open (w : World) :
  fetchUKBankHolidays net w = fail_open (fetchUKBankHolidays_try net w).
Proof.
  unfold fetchUKBankHolidays, try_catch, fail_open.
  destruct (fetchUKBankHolidays_try net w); reflexivity.
Qed.

Lemma fetchNagerDateHolidays_fail_open (c : string) (w : World) :
  fetchNagerDateHolidays tz net c w = fail_open (fetchNagerDateHolidays_try tz net c w).
Proof.
  unfold fetchNagerDateHolidays, try_catch, fail_open.
  destruct (fetchNagerDateHolidays_try tz net c w); reflexivity.
Qed.

Lemma fetchHolidaysOf_total (c : string) (w : World) :
  exists hs w', fetchHolidaysOf tz net c w = Val hs w' /\ sent w w'.
Proof.
  unfold fetchHolidaysOf. destruct (String.eqb c "GB").
  - rewrite fetchUKBankHolidays_fail_open.
    pose proof (fetchUKBankHolidays_try_after w) as H.
    destruct (fetchUKBankHolidays_try net w); cbn in *; eauto; contradiction.
  - rewrite fetchNagerDateHolidays_fail_open.
    pose proof (fetchNagerDateHolidays_try_after c w) as H.
    destruct (fetchNagerDateHolidays_try tz net c w); cbn in *; eauto; contradiction.
Qed.

Lemma fetchBankHolidays_disabled (w : World) :
  enableBankHolidays config = false ->
  fetchBankHolidays tz config net w = Val ∅ w.
Proof. intros E. unfold fetchBankHolidays. unfold_M. now rewrite E. Qed.

Lemma fetchBankHolidays_hit (w : World) (hs : gset string) :
  enableBankHolidays config = true ->
  cache_hit (clock w) (bankHolidayCountry config) w = Some hs ->
  fetchBankHolidays tz config net w = Val hs w.
Proof.
  intros E Hh. unfold fetchBankHolidays, read_cache. unfold_M.
  rewrite E; cbn. now rewrite Hh.
Qed.

Lemma fetchBankHolidays_miss (w : World) :
  enableBankHolidays config = true ->
  cache_hit (clock w) (bankHolidayCountry config) w = None ->
  exists hs urls, urls <> [] /\
    fetchHolidaysOf tz net (bankHolidayCountry config) w = Val hs (add_requests urls w) /\
    fetchBankHolidays tz config net w
      = Val hs (refreshed hs (bankHolidayCountry config) urls w).
Proof.
  intros E Hh. unfold fetchBankHolidays, read_cache. unfold_M.
  rewrite E; cbn. rewrite Hh.
  destruct (fetchHolidaysOf_total (bankHolidayCountry config) w)
    as (hs & w' & Hf & urls & Hne & ->).
  exists hs, urls. rewrite Hf. split; [assumption|]. split; reflexivity.
Qed.

Lemma cache_hit_refreshed (hs : gset string) (urls : list string) (w : World) (now : Z) :
  now < clock w + 86400000 ->
  cache_hit now (bankHolidayCountry config)
    (set_clock now (refreshed hs (bankHolidayCountry config) urls w)) = Some hs.
Proof.
  intros Hnow. unfold cache_hit, refreshed, set_clock; cbn.
  rewrite bool_decide_true by reflexivity.
  destruct (now <? clock w + 86400000) eqn:E; [reflexivity | lia].
Qed.

Lemma set_clock_same (w : World) : set_clock (clock w) w = w.
Proof. now destruct w. Qed.

(** A call leaves a world in which every further call, at the same clock
    reading, answers the same set and changes nothing. *)
Lemma fetchBankHolidays_settles (w : World) :
  exists hs w',
    fetchBankHolidays tz config net w = Val hs w' /\
    fetchBankHolidays tz config net w' = Val hs w' /\
    clock w' = clock w /\
    (enableBankHolidays config = false -> hs = ∅ /\ w' = w).
Proof.
  destruct (enableBankHolidays config) eqn:E.
  - destruct (cache_hit (clock w) (bankHolidayCountry config) w) as [hs|] eqn:Hh.
    + exists hs, w. rewrite (fetchBankHolidays_hit w hs E Hh). repeat split; discriminate.
    + destruct (fetchBankHolidays_miss w E Hh) as (hs & urls & _ & _ & Hf).
      exists hs, (refreshed hs (bankHolidayCountry config) urls w).
      split; [assumption|]. split; [|split; [reflexivity | discriminate]].
      apply fetchBankHolidays_hit; [assumption|].
      rewrite <- (set_clock_same (refreshed _ _ _ _)) at 2.
      cbn [clock refreshed]. apply cache_hit_refreshed. lia.
  - exists ∅, w. rewrite (fetchBankHolidays_disabled w E). repeat split; reflexivity.
Qed.

End HolidayCache.

(* ===================================================================== *)
(** ** Working days                                                       *)
(* ===================================================================== *)


Section WorkingDays.

Variable tz : Z.
Variable config : Config.
Variable net : Network.

Lemma localDay_addDays (d : Date) (k : Z) :
  localDay tz (addDays d k) = localDay tz d + k.
Proof. unfold localDay, Day, LocalTime, addDays, msPerDay. div_lia. Qed.

Lemma addDays_addDays (d : Date) (j k : Z) :
  addDays (addDays d j) k = addDays d (j + k).
Proof. unfold addDays. lia. Qed.

Lemma addDays_0 (d : Date) : addDays d 0 = d.
Proof. unfold addDays. lia. Qed.

Lemma isWeekend_WeekDay (d : Date) :
  isWeekend tz d = (WeekDay (localDay tz d) =? 0) || (WeekDay (localDay tz d) =? 6).
Proof. reflexivity. Qed.

Lemma workingDayNumber_weekend (hs : gset string) (d : Date) :
  isWeekend tz d = true -> workingDayNumber hs (localDay tz d) = false.
Proof. intros H. unfold workingDayNumber. now rewrite <- isWeekend_WeekDay, H. Qed.

Lemma workingDayNumber_not_weekend (hs : gset string) (d : Date) :
  workingDayNumber hs (localDay tz d) = true -> isWeekend tz d = false.
Proof.
  destruct (isWeekend tz d) eqn:E; [|reflexivity].
  now rewrite (workingDayNumber_weekend hs d E).
Qed.

(** [isWorkingDay] against the set that [fetchBankHolidays] answers: a
    weekend day leaves the world alone. *)
Lemma isWorkingDay_run (w w' : World) (hs : gset string) (d : Date) :
  fetchBankHolidays tz config net w = Val hs w' ->
  (enableBankHolidays config = false -> hs = ∅ /\ w' = w) ->
  isWorkingDay tz config net d w
    = Val (workingDayNumber hs (localDay tz d)) (if isWeekend tz d then w else w').
Proof.
  intros Hf Hoff. unfold isWorkingDay.
  destruct (isWeekend tz d) eqn:Ewe.
  - now rewrite (workingDayNumber_weekend hs d Ewe).
  - unfold workingDayNumber. rewrite <- isWeekend_WeekDay, Ewe.
    unfold isUKBankHoliday. destruct (enableBankHolidays config) eqn:E; unfold_M; cbn.
    + now rewrite Hf.
    + destruct (Hoff eq_refl) as [-> ->]. rewrite bool_decide_false; [reflexivity|].
      apply not_elem_of_empty.
Qed.

Lemma isWorkingDay_settles (w : World) : exists hs w', settles tz config net w hs w'.
Proof.
  destruct (fetchBankHolidays_settles tz config net w) as (hs & w' & H1 & H2 & Hc & Hoff).
  exists hs, w'. split; [assumption|]. split; intros d.
  - now apply isWorkingDay_run.
  - rewrite (isWorkingDay_run w' w' hs d H2).
    + now destruct (isWeekend tz d).
    + intros E. destruct (Hoff E). now split.
Qed.

Lemma getNextWorkingDay_loop_unfold (fuel : nat) (current : Date) (w : World) :
  getNextWorkingDay_loop tz config net fuel current w =
  match isWorkingDay tz config net current w with
  | Val true w1 => Val current w1
  | Val false w1 =>
      match fuel with
      | O => OutOfFuel
      | S fuel' => getNextWorkingDay_loop tz config net fuel' (addDays current 1) w1
      end
  | Throw e w1 => Throw e w1
  | OutOfFuel => OutOfFuel
  end.
Proof.
  destruct fuel; cbn; unfold mbind, M_bind;
    destruct (isWorkingDay tz config net current w) as [[] ?| |]; reflexivity.
Qed.

Lemma getNextWorkingDay_loop_skips (w w' : World) (hs : gset string) :
  settles tz config net w hs w' ->
  forall (n : nat) (current : Date) (w0 : World),
    w0 = w \/ w0 = w' ->
    (forall j : nat, (j < n)%nat ->
       workingDayNumber hs (localDay tz current + Z.of_nat j) = false) ->
    workingDayNumber hs (localDay tz current + Z.of_nat n) = true ->
    forall fuel, (n <= fuel)%nat ->
      getNextWorkingDay_loop tz config net fuel current w0
        = Val (addDays current (Z.of_nat n)) w'.
Proof.
  intros (_ & Hw & Hw'). induction n as [|n IH]; intros current w0 Hw0 Hskip Hn fuel Hfuel.
  - rewrite Z.add_0_r in Hn. rewrite getNextWorkingDay_loop_unfold.
    change (Z.of_nat 0) with 0. rewrite addDays_0.
    destruct Hw0 as [-> | ->].
    + now rewrite Hw, Hn, (workingDayNumber_not_weekend hs current Hn).
    + now rewrite Hw', Hn.
  - destruct fuel as [|fuel]; [lia|].
    rewrite getNextWorkingDay_loop_unfold.
    assert (H0 : workingDayNumber hs (localDay tz current) = false).
    { rewrite <- (Z.add_0_r (localDay tz current)). apply (Hskip 0%nat). lia. }
    assert (Hnext : forall w1, w1 = w \/ w1 = w' ->
              getNextWorkingDay_loop tz config net fuel (addDays current 1) w1
              = Val (addDays current (Z.of_nat (S n))) w').
    { intros w1 Hw1. rewrite (IH (addDays current 1) w1 Hw1).
      - rewrite addDays_addDays. f_equal. f_equal. lia.
      - intros j Hj. rewrite localDay_addDays.
        replace (localDay tz current + 1 + Z.of_nat j)
          with (localDay tz current + Z.of_nat (S j)) by lia.
        apply Hskip. lia.
      - rewrite localDay_addDays.
        now replace (localDay tz current + 1 + Z.of_nat n)
          with (localDay tz current + Z.of_nat (S n)) by lia.
      - lia. }
    destruct Hw0 as [-> | ->].
    + rewrite Hw, H0. apply Hnext. destruct (isWeekend tz current); auto.
    + rewrite Hw', H0. apply Hnext. auto.
Qed.

(** [getNextWorkingDay] returns, given iterations enough. *)
Lemma getNextWorkingDay_returns (d : Date) (w : World) :
  exists (fuel0 : nat) (r : Date) (w' : World),
    forall fuel, (fuel0 <= fuel)%nat ->
      getNextWorkingDay tz config net fuel d w = Val r w'.
Proof.
  destruct (isWorkingDay_settles w) as (hs & w' & Hs).
  destruct (first_workingDay hs (localDay tz d + 1)) as (n & Hn & Hskip).
  exists n, (addDays (addDays d 1) (Z.of_nat n)), w'.
  intros fuel Hfuel. unfold getNextWorkingDay.
  apply (getNextWorkingDay_loop_skips w w' hs Hs); auto;
    rewrite localDay_addDays; auto.
Qed.

(** *** Counting working days *)

Lemma is_working_settled (w w' w0 : World) (hs : gset string) (d : Date) :
  settles tz config net w hs w' -> w0 = w \/ w0 = w' ->
  is_working tz config net w0 d = workingDayNumber hs (localDay tz d).
Proof.
  intros (_ & Hw & Hw') [-> | ->]; unfold is_working.
  - rewrite Hw. now destruct (workingDayNumber hs (localDay tz d)).
  - rewrite Hw'. now destruct (workingDayNumber hs (localDay tz d)).
Qed.

Lemma countWorking_countFrom (w w' w0 : World) (hs : gset string) (n : nat) :
  settles tz config net w hs w' -> w0 = w \/ w0 = w' ->
  forall d, countWorking tz config net w0 d n = countFrom hs (localDay tz d) n.
Proof.
  intros Hs Hw0. induction n as [|n IH]; intros d; cbn [countWorking countFrom].
  - reflexivity.
  - now rewrite (is_working_settled w w' w0 hs d Hs Hw0), IH, localDay_addDays.
Qed.

Lemma getWorkingDaysBetween_loop_unfold (fuel : nat) (end_ current : Date)
    (workingDays : Z) (w : World) :
  getWorkingDaysBetween_loop tz config net fuel end_ current workingDays w =
  if current <=? end_ then
    match fuel with
    | O => OutOfFuel
    | S fuel' =>
        match isWorkingDay tz config net current w with
        | Val working w1 =>
            getWorkingDaysBetween_loop tz config net fuel' end_ (addDays current 1)
              (if working then workingDays + 1 else workingDays) w1
        | Throw e w1 => Throw e w1
        | OutOfFuel => OutOfFuel
        end
    end
  else Val workingDays w.
Proof.
  destruct fuel; cbn; destruct (current <=? end_); try reflexivity.
Qed.

(** The loop runs [n] times when [end_] lies in the n-th day after
    [current], and counts the working days it meets. *)
Lemma getWorkingDaysBetween_loop_counts (w w' : World) (hs : gset string) (end_ : Date) :
  settles tz config net w hs w' ->
  forall (n : nat) (current : Date) (workingDays : Z) (w0 : World),
    w0 = w \/ w0 = w' ->
    end_ < current + Z.of_nat n * msPerDay ->
    ((0 < n)%nat -> current + (Z.of_nat n - 1) * msPerDay <= end_) ->
    exists wf, (wf = w \/ wf = w') /\
      forall fuel, (n <= fuel)%nat ->
        getWorkingDaysBetween_loop tz config net fuel end_ current workingDays w0
          = Val (workingDays + countFrom hs (localDay tz current) n) wf.
Proof.
  intros Hs. pose proof Hs as (_ & Hw & Hw').
  induction n as [|n IH]; intros current acc w0 Hw0 Hlt Hle.
  - exists w0. split; [assumption|]. intros fuel _.
    rewrite getWorkingDaysBetween_loop_unfold.
    destruct (current <=? end_) eqn:E; [lia|].
    cbn [countFrom]. f_equal. lia.
  - assert (Hstep : exists w1, (w1 = w \/ w1 = w') /\
              isWorkingDay tz config net current w0
              = Val (workingDayNumber hs (localDay tz current)) w1).
    { destruct Hw0 as [-> | ->].
      - rewrite Hw. destruct (isWeekend tz current); eauto.
      - rewrite Hw'. eauto. }
    destruct Hstep as (w1 & Hw1 & Hrun).
    destruct (IH (addDays current 1)
                (if workingDayNumber hs (localDay tz current) then acc + 1 else acc)
                w1 Hw1) as (wf & Hwf & Hloop).
    + unfold addDays, msPerDay in *. lia.
    + unfold addDays, msPerDay in *. lia.
    + exists wf. split; [assumption|]. intros fuel Hfuel.
      rewrite getWorkingDaysBetween_loop_unfold.
      destruct (current <=? end_) eqn:E; [|unfold msPerDay in *; lia].
      destruct fuel as [|fuel]; [lia|].
      rewrite Hrun, Hloop by lia. rewrite localDay_addDays.
      cbn [countFrom]. f_equal.
      destruct (workingDayNumber hs (localDay tz current)); lia.
Qed.

(** With a start whose time of day is not later than that of the end, the
    loop runs once for every calendar day of the range. *)
Lemma iterations_calendar_days (startDate endDate : Date) (n : nat) :
  startDate <= endDate ->
  timeOfDay tz startDate <= timeOfDay tz endDate ->
  n = Z.to_nat (localDay tz endDate - localDay tz startDate + 1) ->
  endDate < startDate + Z.of_nat n * msPerDay /\
  startDate + (Z.of_nat n - 1) * msPerDay <= endDate.
Proof.
  unfold timeOfDay, localDay, Day, LocalTime, msPerDay. intros Hle Htod Hn.
  assert (Hn' : Z.of_nat n = (endDate + tz) / 86400000 - (startDate + tz) / 86400000 + 1).
  { subst n. rewrite Z2Nat.id; [reflexivity|]. div_lia. }
  rewrite Hn'. clear Hn Hn' n. div_lia.
Qed.

Lemma getWorkingDaysBetween_aligned (startDate endDate : Date) (w : World) :
  startDate <= endDate ->
  timeOfDay tz startDate <= timeOfDay tz endDate ->
  exists (fuel0 : nat) (w' : World), forall fuel, (fuel0 <= fuel)%nat ->
    getWorkingDaysBetween tz config net fuel startDate endDate w
      = Val (workingDaysInRange tz config net w' startDate endDate) w'.
Proof.
  intros Hle Htod.
  destruct (isWorkingDay_settles w) as (hs & w1 & Hs).
  set (n := Z.to_nat (localDay tz endDate - localDay tz startDate + 1)).
  destruct (iterations_calendar_days startDate endDate n Hle Htod eq_refl) as [H1 H2].
  destruct (getWorkingDaysBetween_loop_counts w w1 hs endDate Hs n startDate 0 w
              (or_introl eq_refl) H1 (fun _ => H2)) as (wf & Hwf & Hrun).
  exists n, wf. intros fuel Hfuel.
  unfold getWorkingDaysBetween.
  destruct (endDate <? startDate) eqn:E; [lia|].
  unfold workingDaysInRange. fold n.
  rewrite (countWorking_countFrom w w1 wf hs n Hs Hwf).
  now rewrite Hrun.
Qed.

(** *** Stepping over working days *)

Lemma calculateWorkingDays_loop_unfold (fuel : nat) (f : Date -> Z -> Date)
    (bound : Z) (current : Date) (count : Z) (w : World) :
  calculateWorkingDays_loop tz config net fuel f bound current count w =
  if count <? bound then
    match fuel with
    | O => OutOfFuel
    | S fuel' =>
        match isWorkingDay tz config net (f current 1) w with
        | Val working w1 =>
            calculateWorkingDays_loop tz config net fuel' f bound (f current 1)
              (if working then count + 1 else count) w1
        | Throw e w1 => Throw e w1
        | OutOfFuel => OutOfFuel
        end
    end
  else Val current w.
Proof. destruct fuel; cbn; destruct (count <? bound); reflexivity. Qed.

Lemma countDays_app (hs : gset string) (s : Z) (a b : nat) :
  forall day,
    countDays hs day s (a + b)
    = countDays hs day s a + countDays hs (day + s * Z.of_nat a) s b.
Proof.
  induction a as [|a IH]; intros day; cbn [countDays Nat.add].
  - replace (day + s * Z.of_nat 0) with day by lia. lia.
  - rewrite IH. replace (day + s + s * Z.of_nat a) with (day + s * Z.of_nat (S a)) by lia.
    lia.
Qed.

(** Days that are skipped count for nothing, the working day that ends the
    run counts for one. *)
Lemma countDays_run (hs : gset string) (s : Z) (m : nat) :
  forall day,
    (forall j : nat, (j < m)%nat ->
       workingDayNumber hs (day + s * (1 + Z.of_nat j)) = false) ->
    workingDayNumber hs (day + s * (1 + Z.of_nat m)) = true ->
    countDays hs day s (S m) = 1.
Proof.
  induction m as [|m IH]; intros day Hskip Hm; cbn [countDays].
  - replace (day + s * (1 + Z.of_nat 0)) with (day + s) in Hm by lia.
    now rewrite Hm.
  - pose proof (Hskip 0%nat ltac:(lia)) as H0.
    replace (day + s * (1 + Z.of_nat 0)) with (day + s) in H0 by lia.
    rewrite H0. cbn [countDays] in IH. rewrite (IH (day + s)); [reflexivity| |].
    + intros j Hj. replace (day + s + s * (1 + Z.of_nat j))
        with (day + s * (1 + Z.of_nat (S j))) by lia. apply Hskip. lia.
    + now replace (day + s + s * (1 + Z.of_nat m))
        with (day + s * (1 + Z.of_nat (S m))) by lia.
Qed.

Lemma countStepped_countDays (w w' w0 : World) (hs : gset string) (s : Z) (k : nat) :
  settles tz config net w hs w' -> w0 = w \/ w0 = w' ->
  forall d, countStepped tz config net w0 d s k = countDays hs (localDay tz d) s k.
Proof.
  intros Hs Hw0. induction k as [|k IH]; intros d; cbn [countStepped countDays].
  - reflexivity.
  - now rewrite (is_working_settled w w' w0 hs _ Hs Hw0), IH,
      localDay_addDays.
Qed.

Section Loop.

Variables (w w1 : World) (hs : gset string).
Hypothesis Hs : settles tz config net w hs w1.
Variables (f : Date -> Z -> Date) (s bound : Z).
Hypothesis Hf : forall d, f d 1 = addDays d s.

(** The loop passes [m] days that are not working days and counts the
    working day behind them. *)
Lemma calculateWorkingDays_loop_run (count : Z) (m : nat) :
  count < bound ->
  forall (current : Date) (w0 : World),
    w0 = w \/ w0 = w1 ->
    (forall j : nat, (j < m)%nat ->
       workingDayNumber hs (localDay tz current + s * (1 + Z.of_nat j)) = false) ->
    workingDayNumber hs (localDay tz current + s * (1 + Z.of_nat m)) = true ->
    forall fuel,
      calculateWorkingDays_loop tz config net (S m + fuel) f bound current count w0
      = calculateWorkingDays_loop tz config net fuel f bound
          (addDays current (s * (1 + Z.of_nat m))) (count + 1) w1.
Proof.
  intros Hc. destruct Hs as (_ & Hw & Hw').
  assert (Hc' : (count <? bound) = true) by lia.
  induction m as [|m IH]; intros current w0 Hw0 Hskip Hm fuel;
    cbn [Nat.add]; rewrite calculateWorkingDays_loop_unfold, Hc', Hf.
  - replace (s * (1 + Z.of_nat 0)) with s in * by lia.
    assert (Hwk : workingDayNumber hs (localDay tz (addDays current s)) = true)
      by now rewrite localDay_addDays.
    destruct Hw0 as [-> | ->].
    + now rewrite Hw, Hwk, (workingDayNumber_not_weekend hs _ Hwk).
    + now rewrite Hw', Hwk.
  - pose proof (Hskip 0%nat ltac:(lia)) as H0.
    replace (s * (1 + Z.of_nat 0)) with s in H0 by lia.
    assert (Hwk : workingDayNumber hs (localDay tz (addDays current s)) = false)
      by now rewrite localDay_addDays.
    assert (Hnext : forall w2, w2 = w \/ w2 = w1 ->
              calculateWorkingDays_loop tz config net (S m + fuel) f bound
                (addDays current s) count w2
              = calculateWorkingDays_loop tz config net fuel f bound
                  (addDays current (s * (1 + Z.of_nat (S m)))) (count + 1) w1).
    { intros w2 Hw2. rewrite (IH (addDays current s) w2 Hw2).
      - rewrite addDays_addDays. do 2 f_equal. lia.
      - intros j Hj. rewrite localDay_addDays.
        replace (localDay tz current + s + s * (1 + Z.of_nat j))
          with (localDay tz current + s * (1 + Z.of_nat (S j))) by lia.
        apply Hskip. lia.
      - rewrite localDay_addDays.
        now replace (localDay tz current + s + s * (1 + Z.of_nat m))
          with (localDay tz current + s * (1 + Z.of_nat (S m))) by lia. }
    destruct Hw0 as [-> | ->].
    + rewrite Hw, Hwk. apply Hnext. destruct (isWeekend tz (addDays current s)); auto.
    + rewrite Hw', Hwk. apply Hnext. auto.
Qed.

Hypothesis Hdir : s = 1 \/ s = -1.

Lemma calculateWorkingDays_loop_steps (n : nat) :
  forall (current : Date) (count : Z) (w0 : World),
    w0 = w \/ w0 = w1 ->
    Z.of_nat n = Z.max 0 (bound - count) ->
    exists (k : nat) (wf : World),
      (n = 0%nat -> k = 0%nat /\ wf = w0) /\
      ((0 < n)%nat -> wf = w1) /\
      (forall fuel, (k <= fuel)%nat ->
         calculateWorkingDays_loop tz config net fuel f bound current count w0
         = Val (addDays current (s * Z.of_nat k)) wf) /\
      countDays hs (localDay tz current) s k = Z.of_nat n /\
      ((0 < n)%nat ->
         workingDayNumber hs (localDay tz current + s * Z.of_nat k) = true).
Proof.
  induction n as [|n IH]; intros current count w0 Hw0 Hn.
  - exists 0%nat, w0. split; [auto|]. split; [lia|].
    split; [|split; [reflexivity | lia]].
    intros fuel _. rewrite calculateWorkingDays_loop_unfold.
    destruct (count <? bound) eqn:E; [lia|].
    f_equal. unfold addDays. lia.
  - destruct (first_workingDay_towards hs (localDay tz current) s Hdir)
      as (m & Hm & Hskip).
    destruct (IH (addDays current (s * (1 + Z.of_nat m))) (count + 1) w1
                (or_intror eq_refl) ltac:(lia))
      as (k & wf & Hwf0 & Hwf1 & Hrun & Hcount & Hlast).
    assert (Hwf : wf = w1) by (destruct n; [apply Hwf0; reflexivity | apply Hwf1; lia]).
    exists (S m + k)%nat, wf. split; [lia|]. split; [auto|]. split; [|split].
    + intros fuel Hfuel.
      replace fuel with (S m + (fuel - S m))%nat by lia.
      rewrite (calculateWorkingDays_loop_run count m ltac:(lia) current w0 Hw0 Hskip Hm).
      rewrite Hrun by lia. rewrite addDays_addDays. do 2 f_equal. lia.
    + rewrite countDays_app, (countDays_run hs s m _ Hskip Hm).
      rewrite localDay_addDays in Hcount.
      replace (localDay tz current + s * Z.of_nat (S m))
        with (localDay tz current + s * (1 + Z.of_nat m)) by lia.
      lia.
    + intros _. destruct n as [|n].
      * destruct (Hwf0 eq_refl) as [-> _].
        now replace (localDay tz current + s * Z.of_nat (S m + 0))
          with (localDay tz current + s * (1 + Z.of_nat m)) by lia.
      * rewrite localDay_addDays in Hlast.
        replace (localDay tz current + s * Z.of_nat (S m + k))
          with (localDay tz current + s * (1 + Z.of_nat m) + s * Z.of_nat k) by lia.
        apply Hlast. lia.
Qed.

End Loop.

End WorkingDays.

(* ===================================================================== *)
(** ** Due dates                                                          *)
(* ===================================================================== *)

Lemma atDueTime_fields (tz : Z) (d : Date) :
  getHours tz (atDueTime tz d) = 16 /\
  getMinutes tz (atDueTime tz d) = 0 /\
  getSeconds tz (atDueTime tz d) = 0 /\
  getMilliseconds tz (atDueTime tz d) = 0.
Proof.
  unfold atDueTime, setMilliseconds, setSeconds, setMinutes, setHours,
    getMilliseconds, getSeconds, getMinutes, getHours, LocalTime, ASANA_DUE_HOUR,
    msPerHour, msPerMinute, msPerSecond.
  repeat split; div_lia.
Qed.

Section DueDates.

Variable tz : Z.
Variable config : Config.
Variable net : Network.
Variable zoneOffset : string -> Z -> Z.

(** The date that [getAsanaDueDate] starts from. *)
Lemma getAsanaDueDate_unfold (fuel : nat) (fromDate : option Date) (w : World) :
  let startDate :=
    match fromDate with
    | Some d => d
    | None => utcToZonedTime tz (zoneOffset UK_TIMEZONE) (clock w)
    end in
  getAsanaDueDate tz config net zoneOffset fuel fromDate w =
  match (if getDay tz startDate =? 5 then
           match getNextWorkingDay tz config net fuel startDate w with
           | Val d1 w1 => getNextWorkingDay tz config net fuel d1 w1
           | o => o
           end
         else getNextWorkingDay tz config net fuel startDate w) with
  | Val d w' => Val (atDueTime tz d) w'
  | Throw e w' => Throw e w'
  | OutOfFuel => OutOfFuel
  end.
Proof.
  unfold getAsanaDueDate, getTodayUK. unfold_M.
  destruct fromDate as [d|]; cbn;
    match goal with |- context [getDay tz ?s =? 5] => destruct (getDay tz s =? 5) end;
    repeat match goal with
      | |- context [match getNextWorkingDay tz config net fuel ?a ?b with _ => _ end] =>
          destruct (getNextWorkingDay tz config net fuel a b)
      end; reflexivity.
Qed.

End DueDates.

(* ===================================================================== *)
(** ** Working-day steps                                                  *)
(* ===================================================================== *)

Section Steps.

Variable tz : Z.
Variable config : Config.
Variable net : Network.

(** [calculateWorkingDays] returns, given iterations enough. *)
Lemma calculateWorkingDays_returns (startDate : Date) (numDays : Z)
    (direction : Direction) (w : World) :
  exists (fuel0 : nat) (r : Date) (w' : World), forall fuel, (fuel0 <= fuel)%nat ->
    calculateWorkingDays tz config net fuel startDate numDays direction w = Val r w'.
Proof.
  destruct (isWorkingDay_settles tz config net w) as (hs & w1 & Hs).
  set (f := match direction with forward => addDays | backward => subDays end).
  assert (Hf : forall d, f d 1 = addDays d (stepOf direction))
    by (intros d; destruct direction; reflexivity).
  assert (Hdir : stepOf direction = 1 \/ stepOf direction = -1)
    by (destruct direction; auto).
  destruct (calculateWorkingDays_loop_steps tz config net w w1 hs Hs f (stepOf direction)
              (Z.abs numDays) Hf Hdir (Z.to_nat (Z.abs numDays)) startDate 0 w
              (or_introl eq_refl) ltac:(lia))
    as (k & wf & _ & _ & Hrun & _).
  exists k, (addDays startDate (stepOf direction * Z.of_nat k)), wf.
  intros fuel Hfuel. unfold calculateWorkingDays. fold f. now apply Hrun.
Qed.

End Steps.

(* ===================================================================== *)
(** ** The claims of the specification                                    *)
(* ===================================================================== *)

Section Claims.

Variable tz : Z.
Variable config : Config.
Variable net : Network.
Variable zoneOffset : string -> Z -> Z.

(** The time of day of a due date.  Whatever the configuration and the
    [fromDate] (given or defaulted to today), [getAsanaDueDate] returns a
    date whose time of day is 16:00:00.000, the constant [ASANA_DUE_HOUR],
    in the calendar fields of the zone of the process, which are the fields
    that the [set...] functions write. *)
Lemma getAsanaDueDate_time_of_day (fromDate : option Date) (w : World) :
  exists (fuel0 : nat) (r : Date) (w' : World),
    (forall fuel, (fuel0 <= fuel)%nat ->
       getAsanaDueDate tz config net zoneOffset fuel fromDate w = Val r w') /\
    getHours tz r = ASANA_DUE_HOUR /\
    ASANA_DUE_HOUR = 16 /\
    getMinutes tz r = 0 /\
    getSeconds tz r = 0 /\
    getMilliseconds tz r = 0.
Proof.
  set (startDate := match fromDate with
                    | Some d => d
                    | None => utcToZonedTime tz (zoneOffset UK_TIMEZONE) (clock w)
                    end).
  destruct (getNextWorkingDay_returns tz config net startDate w)
    as (f1 & d1 & w1 & H1).
  destruct (getNextWorkingDay_returns tz config net d1 w1)
    as (f2 & d2 & w2 & H2).
  assert (Hrun : exists d w', forall fuel, (Nat.max f1 f2 <= fuel)%nat ->
            getAsanaDueDate tz config net zoneOffset fuel fromDate w
            = Val (atDueTime tz d) w').
  { destruct (getDay tz startDate =? 5) eqn:E.
    - exists d2, w2. intros fuel Hf. rewrite getAsanaDueDate_unfold. fold startDate.
      now rewrite E, H1, H2 by lia.
    - exists d1, w1. intros fuel Hf. rewrite getAsanaDueDate_unfold. fold startDate.
      now rewrite E, H1 by lia. }
  destruct Hrun as (d & w' & Hrun).
  exists (Nat.max f1 f2), (atDueTime tz d), w'. split; [assumption|].
  destruct (atDueTime_fields tz d) as (? & ? & ? & ?). now repeat split.
Qed.

(** C2.  When the day of the week of [fromDate] is Friday, [getAsanaDueDate]
    returns [getNextWorkingDay] applied twice to [fromDate], with the time
    of day then set; on any other day it returns [getNextWorkingDay] applied
    once, with the time of day set.  Each of the calls returns, given
    iterations enough. *)
Theorem getAsanaDueDate_friday_twice (fromDate : Date) (w : World) :
  exists (fuel0 : nat) (d1 : Date) (w1 : World),
    (forall fuel, (fuel0 <= fuel)%nat ->
       getNextWorkingDay tz config net fuel fromDate w = Val d1 w1) /\
    if getDay tz fromDate =? 5 then
      exists (d2 : Date) (w2 : World),
        (forall fuel, (fuel0 <= fuel)%nat ->
           getNextWorkingDay tz config net fuel d1 w1 = Val d2 w2) /\
        (forall fuel, (fuel0 <= fuel)%nat ->
           getAsanaDueDate tz config net zoneOffset fuel (Some fromDate) w
             = Val (atDueTime tz d2) w2)
    else
      forall fuel, (fuel0 <= fuel)%nat ->
        getAsanaDueDate tz config net zoneOffset fuel (Some fromDate) w
          = Val (atDueTime tz d1) w1.
Proof.
  destruct (getNextWorkingDay_returns tz config net fromDate w)
    as (f1 & d1 & w1 & H1).
  destruct (getNextWorkingDay_returns tz config net d1 w1)
    as (f2 & d2 & w2 & H2).
  exists (Nat.max f1 f2), d1, w1. split.
  - intros fuel Hf. apply H1. lia.
  - destruct (getDay tz fromDate =? 5) eqn:E.
    + exists d2, w2. split.
      * intros fuel Hf. apply H2. lia.
      * intros fuel Hf. rewrite getAsanaDueDate_unfold. cbv zeta.
        now rewrite E, H1, H2 by lia.
    + intros fuel Hf. rewrite getAsanaDueDate_unfold. cbv zeta.
      now rewrite E, H1 by lia.
Qed.

(** C4.  For every date [d], [getNextWorkingDay d] returns a date that is
    strictly later than [d] and satisfies [isWorkingDay], and it is the
    least such: every calendar day strictly between that of [d] and that of
    the result fails [isWorkingDay]. *)
Theorem getNextWorkingDay_least (d : Date) (w : World) :
  exists (fuel0 : nat) (r : Date) (w' : World),
    (forall fuel, (fuel0 <= fuel)%nat ->
       getNextWorkingDay tz config net fuel d w = Val r w') /\
    d < r /\
    isWorkingDay tz config net r w' = Val true w' /\
    (forall x : Date, localDay tz d < localDay tz x < localDay tz r ->
       isWorkingDay tz config net x w' = Val false w').
Proof.
  destruct (isWorkingDay_settles tz config net w) as (hs & w' & Hs).
  destruct (first_workingDay hs (localDay tz d + 1)) as (n & Hn & Hskip).
  exists n, (addDays (addDays d 1) (Z.of_nat n)), w'.
  assert (Hday : localDay tz (addDays (addDays d 1) (Z.of_nat n))
                 = localDay tz d + 1 + Z.of_nat n)
    by now rewrite !localDay_addDays.
  split; [|split; [|split]].
  - intros fuel Hfuel. unfold getNextWorkingDay.
    apply (getNextWorkingDay_loop_skips tz config net w w' hs Hs); auto;
      rewrite localDay_addDays; auto.
  - unfold addDays, msPerDay. lia.
  - destruct Hs as (_ & _ & Hw'). now rewrite Hw', Hday, Hn.
  - intros x Hx. destruct Hs as (_ & _ & Hw'). rewrite Hw'. f_equal.
    rewrite Hday in Hx.
    replace (localDay tz x)
      with (localDay tz d + 1 + Z.of_nat (Z.to_nat (localDay tz x - localDay tz d - 1)))
      by lia.
    apply Hskip. lia.
Qed.

(** C5.  With holidays enabled: a cached set that was fetched for the
    configured country less than 24 hours ago (its expiry is the time of
    its fetch plus 24 hours) is returned unchanged, in an unchanged world:
    no request is sent; of two calls less
    than 24 hours apart at most one sends requests, and when the first one
    did, the second returns the same set; a cached country other than the
    configured one forces a fetch whatever the expiry, after which the cache
    holds the new set for the configured country for 24 hours. *)
Theorem fetchBankHolidays_cache (w : World) :
  enableBankHolidays config = true ->
  (forall hs fetchedAt, cachedHolidays w = Some hs ->
     cachedCountry w = Some (bankHolidayCountry config) ->
     cacheExpiry w = fetchedAt + 24 * 60 * 60 * 1000 ->
     clock w - fetchedAt < 24 * 60 * 60 * 1000 ->
     fetchBankHolidays tz config net w = Val hs w) /\
  (forall now2, now2 < clock w + 86400000 ->
     exists hs1 w1 hs2 w2,
       fetchBankHolidays tz config net w = Val hs1 w1 /\
       fetchBankHolidays tz config net (set_clock now2 w1) = Val hs2 w2 /\
       (requests w1 = requests w \/
        (hs2 = hs1 /\ w2 = set_clock now2 w1))) /\
  (cachedCountry w <> Some (bankHolidayCountry config) ->
     exists hs urls, urls <> [] /\
       fetchBankHolidays tz config net w
         = Val hs (refreshed hs (bankHolidayCountry config) urls w)).
Proof.
  intros E. split; [|split].
  - intros hs fetchedAt Hc Hcountry Hexp Hage.
    apply fetchBankHolidays_hit; [assumption|].
    unfold cache_hit. rewrite Hc, Hcountry, bool_decide_true by reflexivity.
    destruct (clock w <? cacheExpiry w) eqn:E'; [reflexivity | lia].
  - intros now2 Hnow2.
    destruct (cache_hit (clock w) (bankHolidayCountry config) w) as [hs|] eqn:Hh.
    + destruct (fetchBankHolidays_settles tz config net (set_clock now2 w))
        as (hs2 & w2 & H2 & _).
      exists hs, w, hs2, w2. rewrite (fetchBankHolidays_hit tz config net w hs E Hh).
      auto.
    + destruct (fetchBankHolidays_miss tz config net w E Hh) as (hs & urls & _ & _ & Hf).
      exists hs, (refreshed hs (bankHolidayCountry config) urls w), hs,
        (set_clock now2 (refreshed hs (bankHolidayCountry config) urls w)).
      split; [assumption|]. split; [|auto].
      apply fetchBankHolidays_hit; [assumption|].
      now apply cache_hit_refreshed.
  - intros Hne.
    destruct (fetchBankHolidays_miss tz config net w E) as (hs & urls & Hu & _ & Hf).
    + unfold cache_hit. destruct (cachedHolidays w); [|reflexivity].
      rewrite bool_decide_false by assumption. now rewrite andb_false_r.
    + eauto.
Qed.

(** Where the count of [getWorkingDaysBetween] is that of the calendar days.
    It is 0 whenever the start is after the end.  When the time of day of
    the start is not later than that of the end (two midnights, or twice the
    same date), it is the number of calendar days in the inclusive range
    from the day of the start to the day of the end that satisfy
    [isWorkingDay]; for a date against itself that is 1 when the date is a
    working day, else 0.  When the time of day of the start is the later
    one, the last day is not counted: see the runs at the end. *)
Lemma getWorkingDaysBetween_counts (startDate endDate : Date) (w : World) :
  (endDate < startDate ->
     forall fuel, getWorkingDaysBetween tz config net fuel startDate endDate w = Val 0 w) /\
  (startDate <= endDate ->
   timeOfDay tz startDate <= timeOfDay tz endDate ->
     exists (fuel0 : nat) (w' : World), forall fuel, (fuel0 <= fuel)%nat ->
       getWorkingDaysBetween tz config net fuel startDate endDate w
         = Val (workingDaysInRange tz config net w' startDate endDate) w') /\
  (exists w' : World, forall fuel, (1 <= fuel)%nat ->
     getWorkingDaysBetween tz config net fuel startDate startDate w
       = Val (if is_working tz config net w' startDate then 1 else 0) w').
Proof.
  split; [|split].
  - intros Hlt fuel. unfold getWorkingDaysBetween.
    destruct (endDate <? startDate) eqn:E; [reflexivity | lia].
  - apply getWorkingDaysBetween_aligned.
  - destruct (isWorkingDay_settles tz config net w) as (hs & w1 & Hs).
    pose proof Hs as (_ & Hw & _).
    exists (if isWeekend tz startDate then w else w1). intros fuel Hfuel.
    unfold getWorkingDaysBetween.
    destruct (startDate <? startDate) eqn:E; [lia|].
    destruct fuel as [|fuel]; [lia|].
    rewrite getWorkingDaysBetween_loop_unfold.
    destruct (startDate <=? startDate) eqn:E1; [|lia].
    rewrite Hw, getWorkingDaysBetween_loop_unfold.
    destruct (addDays startDate 1 <=? startDate) eqn:E2;
      [unfold addDays, msPerDay in E2; lia|].
    rewrite (is_working_settled tz config net w w1 _ hs startDate Hs)
      by (destruct (isWeekend tz startDate); auto).
    now destruct (workingDayNumber hs (localDay tz startDate)).
Qed.

(** C8.  For every [sprintLengthWeeks >= 1] and every [sprintStart] for
    which the number [d] of full days from it to now is not negative,
    [getCurrentSprintInfo] returns [sprintNumber >= 1] and
    [0 <= daysIntoSprint < sprintLengthWeeks * 7], with
    [sprintNumber = floor (d / (7 * sprintLengthWeeks)) + 1],
    [daysIntoSprint = d mod (7 * sprintLengthWeeks)] and
    [daysRemaining = 7 * sprintLengthWeeks - daysIntoSprint]. *)
Theorem getCurrentSprintInfo_position (sprintStart : Date) (sprintLengthWeeks : Z)
    (w : World) :
  1 <= sprintLengthWeeks ->
  0 <= differenceInDays (clock w) sprintStart ->
  exists info : SprintInfo,
    getCurrentSprintInfo sprintStart sprintLengthWeeks w = Val (Some info) w /\
    1 <= sprintNumber info /\
    0 <= daysIntoSprint info < sprintLengthWeeks * 7 /\
    sprintNumber info
      = differenceInDays (clock w) sprintStart / (7 * sprintLengthWeeks) + 1 /\
    daysIntoSprint info
      = differenceInDays (clock w) sprintStart mod (7 * sprintLengthWeeks) /\
    daysRemaining info = 7 * sprintLengthWeeks - daysIntoSprint info.
Proof.
  intros Hw Hd. unfold getCurrentSprintInfo. unfold_M.
  set (d := differenceInDays (clock w) sprintStart) in *. cbn.
  destruct (sprintLengthWeeks * 7 =? 0) eqn:E; [lia|].
  eexists. split; [reflexivity|]. cbn.
  rewrite Z.rem_mod_nonneg by lia.
  replace (sprintLengthWeeks * 7) with (7 * sprintLengthWeeks) by lia.
  pose proof (Z.mod_pos_bound d (7 * sprintLengthWeeks) ltac:(lia)).
  pose proof (Z.div_pos d (7 * sprintLengthWeeks) Hd ltac:(lia)).
  repeat split; lia.
Qed.


(** C10.  For every start date, direction and integer [numDays],
    [calculateWorkingDays] does with [numDays] what it does with its
    absolute value: the two calls have the same outcome for every iteration
    budget, and with a budget large enough both return the same date; with
    0 it returns the start date unchanged. *)
Theorem calculateWorkingDays_abs (startDate : Date) (numDays : Z)
    (direction : Direction) (w : World) :
  (forall fuel,
     calculateWorkingDays tz config net fuel startDate numDays direction w
     = calculateWorkingDays tz config net fuel startDate (Z.abs numDays) direction w) /\
  (exists (fuel0 : nat) (r : Date) (w' : World), forall fuel, (fuel0 <= fuel)%nat ->
     calculateWorkingDays tz config net fuel startDate numDays direction w = Val r w' /\
     calculateWorkingDays tz config net fuel startDate (Z.abs numDays) direction w
       = Val r w') /\
  (forall fuel,
     calculateWorkingDays tz config net fuel startDate 0 direction w = Val startDate w).
Proof.
  assert (Habs : forall fuel,
     calculateWorkingDays tz config net fuel startDate numDays direction w
     = calculateWorkingDays tz config net fuel startDate (Z.abs numDays) direction w).
  { intros fuel. unfold calculateWorkingDays. now rewrite Z.abs_idemp. }
  split; [exact Habs|]. split.
  - destruct (calculateWorkingDays_returns tz config net startDate numDays direction w)
      as (k & r & w' & Hrun).
    exists k, r, w'.
    intros fuel Hfuel. rewrite <- Habs. split; now apply Hrun.
  - intros fuel. unfold calculateWorkingDays. now destruct fuel.
Qed.

End Claims.

(* ===================================================================== *)
(** ** Further properties                                                 *)
(* ===================================================================== *)

Lemma localDay_atDueTime (tz : Z) (d : Date) :
  localDay tz (atDueTime tz d) = localDay tz d.
Proof.
  unfold atDueTime, setMilliseconds, setSeconds, setMinutes, setHours,
    getMilliseconds, getSeconds, getMinutes, getHours, localDay, Day, LocalTime,
    ASANA_DUE_HOUR, msPerDay, msPerHour, msPerMinute, msPerSecond.
  div_lia.
Qed.

Lemma WeekDay_shift (day k : Z) : WeekDay (day + k) = (WeekDay day + k) mod 7.
Proof. unfold WeekDay. div_lia. Qed.

Section Further.

Variable tz : Z.
Variable config : Config.
Variable net : Network.
Variable zoneOffset : string -> Z -> Z.

Lemma settles_disabled (w : World) :
  enableBankHolidays config = false -> settles tz config net w ∅ w.
Proof.
  intros E. split; [reflexivity|].
  assert (H : forall d, isWorkingDay tz config net d w
                = Val (workingDayNumber ∅ (localDay tz d)) w).
  { intros d. rewrite (isWorkingDay_run tz config net w w ∅ d).
    - now destruct (isWeekend tz d).
    - now apply fetchBankHolidays_disabled.
    - auto. }
  split; intros d; rewrite H; [now destruct (isWeekend tz d) | reflexivity].
Qed.

(** X1.  The rule for Fridays lands on Tuesday.  With holidays disabled and a
    [fromDate] that is a Friday, [getAsanaDueDate] returns the Tuesday four
    days later at 16:00: the first [getNextWorkingDay] already passes the
    weekend and gives Monday, the second gives Tuesday. *)
Theorem getAsanaDueDate_friday_tuesday (fromDate : Date) (w : World) (fuel : nat) :
  enableBankHolidays config = false ->
  getDay tz fromDate = 5 ->
  (2 <= fuel)%nat ->
  getAsanaDueDate tz config net zoneOffset fuel (Some fromDate) w
    = Val (atDueTime tz (addDays fromDate 4)) w /\
  getDay tz (atDueTime tz (addDays fromDate 4)) = 2.
Proof.
  intros E Hfri Hfuel.
  pose proof (settles_disabled w E) as Hs.
  assert (Hwd : forall k, workingDayNumber ∅ (localDay tz fromDate + k)
                 = negb (((5 + k) mod 7 =? 0) || ((5 + k) mod 7 =? 6))).
  { intros k. unfold workingDayNumber.
    rewrite bool_decide_false by apply not_elem_of_empty.
    rewrite WeekDay_shift. unfold getDay in Hfri. rewrite Hfri.
    now rewrite andb_true_r. }
  assert (H1 : getNextWorkingDay tz config net fuel fromDate w
               = Val (addDays fromDate 3) w).
  { unfold getNextWorkingDay.
    rewrite (getNextWorkingDay_loop_skips tz config net w w ∅ Hs 2
               (addDays fromDate 1) w (or_introl eq_refl)).
    - rewrite addDays_addDays. reflexivity.
    - intros j Hj. rewrite localDay_addDays, <- Z.add_assoc, Hwd.
      destruct j as [|[|j]]; [reflexivity | reflexivity | lia].
    - rewrite localDay_addDays, <- Z.add_assoc, Hwd. reflexivity.
    - assumption. }
  assert (H2 : getNextWorkingDay tz config net fuel (addDays fromDate 3) w
               = Val (addDays fromDate 4) w).
  { unfold getNextWorkingDay.
    rewrite (getNextWorkingDay_loop_skips tz config net w w ∅ Hs 0
               (addDays (addDays fromDate 3) 1) w (or_introl eq_refl)).
    - rewrite !addDays_addDays. reflexivity.
    - intros j Hj. lia.
    - rewrite !localDay_addDays, <- !Z.add_assoc, Hwd. reflexivity.
    - lia. }
  split.
  - rewrite getAsanaDueDate_unfold. cbv zeta.
    assert (E5 : (getDay tz fromDate =? 5) = true) by (rewrite Hfri; reflexivity).
    rewrite E5, H1, H2. reflexivity.
  - unfold getDay in *. rewrite localDay_atDueTime, localDay_addDays, WeekDay_shift, Hfri.
    reflexivity.
Qed.

(** X6.  [calculateWorkingDays] returns, and the date it returns is the one
    reached from [startDate] by as many days, in the direction given, as it
    takes to meet [|numDays|] working days; when [numDays] is not 0 the
    date returned is itself a working day. *)
Theorem calculateWorkingDays_steps (startDate : Date) (numDays : Z)
    (direction : Direction) (w : World) :
  exists (k : nat) (w' : World),
    (forall fuel, (k <= fuel)%nat ->
       calculateWorkingDays tz config net fuel startDate numDays direction w
       = Val (addDays startDate (stepOf direction * Z.of_nat k)) w') /\
    countStepped tz config net w' startDate (stepOf direction) k = Z.abs numDays /\
    (numDays <> 0 ->
       isWorkingDay tz config net
         (addDays startDate (stepOf direction * Z.of_nat k)) w' = Val true w').
Proof.
  destruct (isWorkingDay_settles tz config net w) as (hs & w1 & Hs).
  set (f := match direction with forward => addDays | backward => subDays end).
  assert (Hf : forall d, f d 1 = addDays d (stepOf direction))
    by (intros d; destruct direction; reflexivity).
  assert (Hdir : stepOf direction = 1 \/ stepOf direction = -1)
    by (destruct direction; auto).
  destruct (calculateWorkingDays_loop_steps tz config net w w1 hs Hs f (stepOf direction)
              (Z.abs numDays) Hf Hdir (Z.to_nat (Z.abs numDays)) startDate 0 w
              (or_introl eq_refl) ltac:(lia))
    as (k & wf & Hwf0 & Hwf1 & Hrun & Hcount & Hlast).
  assert (Hwf : wf = w \/ wf = w1).
  { destruct (Z.to_nat (Z.abs numDays)) as [|n].
    - left. now apply Hwf0.
    - right. apply Hwf1. lia. }
  exists k, wf. split; [|split].
  - intros fuel Hfuel. unfold calculateWorkingDays. fold f. now apply Hrun.
  - rewrite (countStepped_countDays tz config net w w1 wf hs _ k Hs Hwf). lia.
  - intros Hne. rewrite (Hwf1 ltac:(lia)).
    destruct Hs as (_ & _ & Hw'). rewrite Hw', localDay_addDays, Hlast by lia.
    reflexivity.
Qed.

End Further.


(* ===================================================================== *)
(** ** Laws of the working-day operations                                 *)
(* ===================================================================== *)

Lemma countDays_nonneg (hs : gset string) (s : Z) (k : nat) :
  forall day, 0 <= countDays hs day s k.
Proof.
  induction k as [|k IH]; intros day; cbn [countDays]; [lia|].
  specialize (IH (day + s)). destruct (workingDayNumber hs (day + s)); lia.
Qed.

(** A run of days that ends on a working day counts for one at least. *)
Lemma countDays_last (hs : gset string) (s : Z) (j : nat) (day : Z) :
  workingDayNumber hs (day + s * Z.of_nat (S j)) = true ->
  1 <= countDays hs day s (S j).
Proof.
  intros Hl. replace (S j) with (j + 1)%nat by lia.
  rewrite countDays_app. cbn [countDays].
  replace (day + s * Z.of_nat j + s) with (day + s * Z.of_nat (S j)) by lia.
  rewrite Hl. pose proof (countDays_nonneg hs s j day). lia.
Qed.

(** The number of days it takes to meet a given number of working days and
    to stand on one is determined. *)
Lemma countDays_unique (hs : gset string) (day s : Z) (k1 k2 : nat) :
  countDays hs day s k1 = countDays hs day s k2 ->
  ((0 < k1)%nat -> workingDayNumber hs (day + s * Z.of_nat k1) = true) ->
  ((0 < k2)%nat -> workingDayNumber hs (day + s * Z.of_nat k2) = true) ->
  0 < countDays hs day s k1 ->
  k1 = k2.
Proof.
  assert (Hlt : forall a b : nat, (a < b)%nat ->
            workingDayNumber hs (day + s * Z.of_nat b) = true ->
            countDays hs day s a < countDays hs day s b).
  { intros a b Hab Hb. replace b with (a + S (b - a - 1))%nat by lia.
    rewrite countDays_app.
    pose proof (countDays_last hs s (b - a - 1) (day + s * Z.of_nat a)) as Hl.
    assert (Hb' : Z.of_nat (S (b - a - 1)) = Z.of_nat b - Z.of_nat a) by lia.
    rewrite Hb' in Hl.
    replace (day + s * Z.of_nat a + s * (Z.of_nat b - Z.of_nat a))
      with (day + s * Z.of_nat b) in Hl by lia.
    specialize (Hl Hb). lia. }
  intros E H1 H2 Hpos.
  destruct (lt_eq_lt_dec k1 k2) as [[Hc | Hc] | Hc]; [|assumption|].
  - specialize (Hlt k1 k2 Hc (H2 ltac:(lia))). lia.
  - specialize (Hlt k2 k1 Hc (H1 ltac:(lia))). lia.
Qed.


Lemma countFrom_countDays (hs : gset string) (k : nat) :
  forall day,
    countFrom hs day (S k)
    = (if workingDayNumber hs day then 1 else 0) + countDays hs day 1 k.
Proof.
  induction k as [|k IH]; intros day.
  - reflexivity.
  - cbn [countFrom countDays] in *. rewrite (IH (day + 1)). lia.
Qed.

Lemma countFrom_app (hs : gset string) (a b : nat) :
  forall day,
    countFrom hs day (a + b) = countFrom hs day a + countFrom hs (day + Z.of_nat a) b.
Proof.
  induction a as [|a IH]; intros day; cbn [countFrom Nat.add].
  - now replace (day + Z.of_nat 0) with day by lia.
  - rewrite IH. replace (day + 1 + Z.of_nat a) with (day + Z.of_nat (S a)) by lia. lia.
Qed.

(** Without holidays the working days are the days from Monday to Friday. *)
Lemma workingDayNumber_empty (day : Z) :
  workingDayNumber ∅ day = negb ((WeekDay day =? 0) || (WeekDay day =? 6)).
Proof.
  unfold workingDayNumber.
  rewrite bool_decide_false by apply not_elem_of_empty. apply andb_true_r.
Qed.

Lemma WeekDay_range (day : Z) : 0 <= WeekDay day < 7.
Proof. unfold WeekDay. div_lia. Qed.

Lemma countFrom_week (day : Z) : countFrom ∅ day 7 = 5.
Proof.
  cbn [countFrom]. rewrite !workingDayNumber_empty.
  replace (day + 1 + 1 + 1 + 1 + 1 + 1) with (day + 6) by lia.
  replace (day + 1 + 1 + 1 + 1 + 1) with (day + 5) by lia.
  replace (day + 1 + 1 + 1 + 1) with (day + 4) by lia.
  replace (day + 1 + 1 + 1) with (day + 3) by lia.
  replace (day + 1 + 1) with (day + 2) by lia.
  rewrite !WeekDay_shift.
  pose proof (WeekDay_range day) as Hr.
  assert (H : WeekDay day = 0 \/ WeekDay day = 1 \/ WeekDay day = 2 \/ WeekDay day = 3
              \/ WeekDay day = 4 \/ WeekDay day = 5 \/ WeekDay day = 6) by lia.
  destruct H as [-> | [-> | [-> | [-> | [-> | [-> | ->]]]]]]; reflexivity.
Qed.

Lemma countFrom_weeks (k : nat) :
  forall day, countFrom ∅ day (7 * k) = 5 * Z.of_nat k.
Proof.
  induction k as [|k IH]; intros day.
  - reflexivity.
  - replace (7 * S k)%nat with (7 + 7 * k)%nat by lia.
    rewrite countFrom_app, countFrom_week, IH. lia.
Qed.


Lemma timeOfDay_addDays (tz : Z) (d : Date) (k : Z) :
  timeOfDay tz (addDays d k) = timeOfDay tz d.
Proof. unfold timeOfDay, LocalTime, addDays, msPerDay. div_lia. Qed.

(** The loop of [getWorkingDaysBetween] runs once for every full day from
    the start to the end, and once more. *)
Lemma iterations_any (startDate endDate : Date) :
  startDate <= endDate ->
  endDate < startDate
            + Z.of_nat (Z.to_nat ((endDate - startDate) / msPerDay + 1)) * msPerDay /\
  startDate + (Z.of_nat (Z.to_nat ((endDate - startDate) / msPerDay + 1)) - 1) * msPerDay
    <= endDate.
Proof. intros H. unfold msPerDay. rewrite Z2Nat.id; div_lia. Qed.

Lemma localDay_mono (tz : Z) (a b : Date) : a <= b -> localDay tz a <= localDay tz b.
Proof. unfold localDay, Day, LocalTime, msPerDay. div_lia. Qed.

Lemma later_day (tz : Z) (a b : Date) : localDay tz a < localDay tz b -> a < b.
Proof. unfold localDay, Day, LocalTime, msPerDay. div_lia. Qed.

Section WorkingDayLaws.

Variable tz : Z.
Variable config : Config.
Variable net : Network.

(** [getNextWorkingDay] against a settled set of holidays: the days it
    passes and the day it returns. *)
Lemma getNextWorkingDay_run (w w' : World) (hs : gset string) (d : Date) (w0 : World) :
  settles tz config net w hs w' -> w0 = w \/ w0 = w' ->
  exists n : nat,
    (forall fuel, (n <= fuel)%nat ->
       getNextWorkingDay tz config net fuel d w0
         = Val (addDays d (1 + Z.of_nat n)) w') /\
    workingDayNumber hs (localDay tz d + 1 * (1 + Z.of_nat n)) = true /\
    (forall j : nat, (j < n)%nat ->
       workingDayNumber hs (localDay tz d + 1 * (1 + Z.of_nat j)) = false).
Proof.
  intros Hs Hw0.
  destruct (first_workingDay_towards hs (localDay tz d) 1 (or_introl eq_refl))
    as (n & Hn & Hskip).
  exists n. split; [|split; assumption].
  intros fuel Hfuel. unfold getNextWorkingDay.
  rewrite (getNextWorkingDay_loop_skips tz config net w w' hs Hs n (addDays d 1) w0 Hw0).
  - now rewrite addDays_addDays.
  - intros j Hj. rewrite localDay_addDays.
    replace (localDay tz d + 1 + Z.of_nat j)
      with (localDay tz d + 1 * (1 + Z.of_nat j)) by lia. now apply Hskip.
  - rewrite localDay_addDays.
    now replace (localDay tz d + 1 + Z.of_nat n)
      with (localDay tz d + 1 * (1 + Z.of_nat n)) by lia.
  - assumption.
Qed.

(** [calculateWorkingDays] against a settled set of holidays. *)
Lemma calculateWorkingDays_run (w w' : World) (hs : gset string)
    (startDate : Date) (numDays : Z) (direction : Direction) (w0 : World) :
  settles tz config net w hs w' -> w0 = w \/ w0 = w' ->
  exists (k : nat) (wf : World),
    (wf = w \/ wf = w') /\
    (numDays = 0 -> k = 0%nat /\ wf = w0) /\
    (numDays <> 0 -> wf = w') /\
    (forall fuel, (k <= fuel)%nat ->
       calculateWorkingDays tz config net fuel startDate numDays direction w0
       = Val (addDays startDate (stepOf direction * Z.of_nat k)) wf) /\
    countDays hs (localDay tz startDate) (stepOf direction) k = Z.abs numDays /\
    (numDays <> 0 ->
       workingDayNumber hs (localDay tz startDate + stepOf direction * Z.of_nat k) = true).
Proof.
  intros Hs Hw0.
  set (f := match direction with forward => addDays | backward => subDays end).
  assert (Hf : forall d, f d 1 = addDays d (stepOf direction))
    by (intros d; destruct direction; reflexivity).
  assert (Hdir : stepOf direction = 1 \/ stepOf direction = -1)
    by (destruct direction; auto).
  destruct (calculateWorkingDays_loop_steps tz config net w w' hs Hs f (stepOf direction)
              (Z.abs numDays) Hf Hdir (Z.to_nat (Z.abs numDays)) startDate 0 w0
              Hw0 ltac:(lia))
    as (k & wf & Hwf0 & Hwf1 & Hrun & Hcount & Hlast).
  exists k, wf. split; [|split; [|split; [|split; [|split]]]].
  - destruct (Z.to_nat (Z.abs numDays)) as [|n].
    + destruct (Hwf0 eq_refl) as [_ ->]. assumption.
    + right. apply Hwf1. lia.
  - intros ->. now apply Hwf0.
  - intros Hne. apply Hwf1. lia.
  - intros fuel Hfuel. unfold calculateWorkingDays. fold f. now apply Hrun.
  - lia.
  - intros Hne. apply Hlast. lia.
Qed.

(** X7.  With holidays disabled the next working day is the calendar day
    after that of the date, the third day after it on a Friday and the
    second on a Saturday, and it is no day of a weekend; two turns of the
    loop are enough, and the world is left as it was. *)
Theorem getNextWorkingDay_disabled (fromDate : Date) (w : World) (fuel : nat) :
  enableBankHolidays config = false ->
  (2 <= fuel)%nat ->
  exists r : Date,
    getNextWorkingDay tz config net fuel fromDate w = Val r w /\
    localDay tz r
    = localDay tz fromDate
      + (if getDay tz fromDate =? 5 then 3
         else if getDay tz fromDate =? 6 then 2 else 1) /\
    isWeekend tz r = false.
Proof.
  intros E Hfuel.
  pose proof (settles_disabled tz config net w E) as Hs.
  assert (Hwd : forall k, workingDayNumber ∅ (localDay tz fromDate + k)
                 = negb (((getDay tz fromDate + k) mod 7 =? 0)
                         || ((getDay tz fromDate + k) mod 7 =? 6))).
  { intros k. now rewrite workingDayNumber_empty, WeekDay_shift. }
  assert (Hrun : forall n : nat, (n <= 2)%nat ->
            (forall j : nat, (j < n)%nat ->
               workingDayNumber ∅ (localDay tz fromDate + (1 + Z.of_nat j)) = false) ->
            workingDayNumber ∅ (localDay tz fromDate + (1 + Z.of_nat n)) = true ->
            exists r : Date,
              getNextWorkingDay tz config net fuel fromDate w = Val r w /\
              localDay tz r = localDay tz fromDate + (1 + Z.of_nat n) /\
              isWeekend tz r = false).
  { intros n Hn Hskip Hlast. exists (addDays fromDate (1 + Z.of_nat n)).
    split; [|split].
    - unfold getNextWorkingDay.
      rewrite (getNextWorkingDay_loop_skips tz config net w w ∅ Hs n
                 (addDays fromDate 1) w (or_introl eq_refl)).
      + now rewrite addDays_addDays.
      + intros j Hj. rewrite localDay_addDays, <- Z.add_assoc. now apply Hskip.
      + now rewrite localDay_addDays, <- Z.add_assoc.
      + lia.
    - apply localDay_addDays.
    - rewrite workingDayNumber_empty in Hlast. apply negb_true_iff in Hlast.
      unfold isWeekend, getDay. now rewrite localDay_addDays. }
  pose proof (WeekDay_range (localDay tz fromDate)) as Hr.
  fold (getDay tz fromDate) in Hr.
  assert (H : getDay tz fromDate = 0 \/ getDay tz fromDate = 1 \/ getDay tz fromDate = 2
              \/ getDay tz fromDate = 3 \/ getDay tz fromDate = 4
              \/ getDay tz fromDate = 5 \/ getDay tz fromDate = 6) by lia.
  destruct H as [H | [H | [H | [H | [H | [H | H]]]]]]; rewrite H in Hwd |- *; cbn [Z.eqb];
    [ apply (Hrun 0%nat) | apply (Hrun 0%nat) | apply (Hrun 0%nat) | apply (Hrun 0%nat)
    | apply (Hrun 0%nat) | apply (Hrun 2%nat) | apply (Hrun 1%nat) ];
    try lia; try (rewrite Hwd; reflexivity);
    intros j Hj; rewrite Hwd; destruct j as [|[|j]]; try reflexivity; lia.
Qed.

(** X8.  One more working day forward is the next working day: stepping
    [numDays + 1] working days forward gives what [getNextWorkingDay] gives
    from the date reached in [numDays] steps. *)
Theorem calculateWorkingDays_succ (startDate : Date) (numDays : Z) (w : World) :
  0 <= numDays ->
  exists (fuel0 : nat) (r1 r2 : Date) (w1 w2 : World),
    forall fuel, (fuel0 <= fuel)%nat ->
      calculateWorkingDays tz config net fuel startDate numDays forward w = Val r1 w1 /\
      getNextWorkingDay tz config net fuel r1 w1 = Val r2 w2 /\
      calculateWorkingDays tz config net fuel startDate (numDays + 1) forward w
        = Val r2 w2.
Proof.
  intros Hn.
  destruct (isWorkingDay_settles tz config net w) as (hs & w' & Hs).
  destruct (calculateWorkingDays_run w w' hs startDate numDays forward w Hs
              (or_introl eq_refl))
    as (k1 & wf1 & Hwf1 & Hz1 & _ & Hrun1 & Hcount1 & Hlast1).
  destruct (calculateWorkingDays_run w w' hs startDate (numDays + 1) forward w Hs
              (or_introl eq_refl))
    as (k2 & wf2 & _ & _ & Hwf2 & Hrun2 & Hcount2 & Hlast2).
  cbn [stepOf] in *.
  destruct (getNextWorkingDay_run w w' hs (addDays startDate (1 * Z.of_nat k1)) wf1 Hs Hwf1)
    as (m & Hnext & Hm & Hskip).
  rewrite localDay_addDays in Hm, Hskip.
  assert (Hk : k2 = (k1 + S m)%nat).
  { apply (countDays_unique hs (localDay tz startDate) 1).
    - rewrite Hcount2, countDays_app, Hcount1.
      rewrite (countDays_run hs 1 m _ Hskip Hm). lia.
    - intros _. apply Hlast2. lia.
    - intros _.
      replace (localDay tz startDate + 1 * Z.of_nat (k1 + S m))
        with (localDay tz startDate + 1 * Z.of_nat k1 + 1 * (1 + Z.of_nat m)) by lia.
      assumption.
    - lia. }
  assert (Hw2 : wf2 = w') by (apply Hwf2; lia).
  exists (k1 + S m)%nat, (addDays startDate (1 * Z.of_nat k1)),
    (addDays (addDays startDate (1 * Z.of_nat k1)) (1 + Z.of_nat m)), wf1, w'.
  intros fuel Hfuel. split; [apply Hrun1; lia|]. split; [apply Hnext; lia|].
  rewrite Hrun2 by lia. subst k2 wf2. f_equal.
  rewrite addDays_addDays. f_equal. lia.
Qed.


(** X10.  Steps add up.  Stepping [a] working days and then [b] more in the same
    direction gives the date, and leaves the world, that stepping [a + b]
    working days gives. *)
Theorem calculateWorkingDays_add (startDate : Date) (a b : Z)
    (direction : Direction) (w : World) :
  0 <= a -> 0 <= b ->
  exists (fuel0 : nat) (r1 r2 : Date) (w1 w2 : World),
    forall fuel, (fuel0 <= fuel)%nat ->
      calculateWorkingDays tz config net fuel startDate a direction w = Val r1 w1 /\
      calculateWorkingDays tz config net fuel r1 b direction w1 = Val r2 w2 /\
      calculateWorkingDays tz config net fuel startDate (a + b) direction w = Val r2 w2.
Proof.
  intros Ha Hb.
  destruct (isWorkingDay_settles tz config net w) as (hs & w' & Hs).
  destruct (calculateWorkingDays_run w w' hs startDate a direction w Hs
              (or_introl eq_refl))
    as (ka & wa & Hwa & Hza & Hna & Hruna & Hcounta & Hlasta).
  set (s := stepOf direction) in *.
  set (r1 := addDays startDate (s * Z.of_nat ka)) in *.
  destruct (calculateWorkingDays_run w w' hs r1 b direction wa Hs Hwa)
    as (kb & wb & Hwb & Hzb & Hnb & Hrunb & Hcountb & Hlastb).
  destruct (calculateWorkingDays_run w w' hs startDate (a + b) direction w Hs
              (or_introl eq_refl))
    as (k & wf & Hwf & Hz & Hn & Hrun & Hcount & Hlast).
  fold s in Hrunb, Hcountb, Hlastb, Hrun, Hcount, Hlast.
  assert (Hr1 : localDay tz r1 = localDay tz startDate + s * Z.of_nat ka)
    by apply localDay_addDays.
  rewrite Hr1 in Hcountb, Hlastb.
  assert (Hcase : k = (ka + kb)%nat /\ wf = wb).
  { destruct (Z.eq_dec (a + b) 0) as [H0 | Hne].
    - assert (a = 0) by lia. assert (b = 0) by lia.
      destruct (Hza ltac:(assumption)) as [-> ->].
      destruct (Hzb ltac:(assumption)) as [-> ->].
      destruct (Hz H0) as [-> ->]. now split.
    - split.
      + apply (countDays_unique hs (localDay tz startDate) s).
        * rewrite Hcount, countDays_app, Hcounta, Hcountb. lia.
        * intros _. now apply Hlast.
        * intros Hpos. destruct (Z.eq_dec b 0) as [Hb0 | Hb0].
          -- destruct (Hzb Hb0) as [-> _]. rewrite Nat.add_0_r. apply Hlasta. lia.
          -- replace (localDay tz startDate + s * Z.of_nat (ka + kb))
               with (localDay tz startDate + s * Z.of_nat ka + s * Z.of_nat kb) by lia.
             now apply Hlastb.
        * lia.
      + rewrite (Hn Hne). destruct (Z.eq_dec b 0) as [Hb0 | Hb0].
        * destruct (Hzb Hb0) as [_ ->]. symmetry. apply Hna. lia.
        * symmetry. now apply Hnb. }
  destruct Hcase as [-> ->].
  exists (ka + kb)%nat, r1, (addDays r1 (s * Z.of_nat kb)), wa, wb.
  intros fuel Hfuel.
  split; [apply Hruna; lia|]. split; [apply Hrunb; lia|].
  rewrite Hrun by lia. subst r1. rewrite addDays_addDays. do 2 f_equal. lia.
Qed.

(** X11.  The two ways of counting agree: between a start date and the date that
    lies [numDays] working days after it, [getWorkingDaysBetween] counts
    [|numDays|] working days, and one more when the start date is itself a
    working day, since it counts both ends. *)
Theorem getWorkingDaysBetween_after_steps (startDate : Date) (numDays : Z) (w : World) :
  exists (fuel0 : nat) (r : Date) (w1 w2 : World),
    forall fuel, (fuel0 <= fuel)%nat ->
      calculateWorkingDays tz config net fuel startDate numDays forward w = Val r w1 /\
      getWorkingDaysBetween tz config net fuel startDate r w1
        = Val (Z.abs numDays
               + (if is_working tz config net w startDate then 1 else 0)) w2.
Proof.
  destruct (isWorkingDay_settles tz config net w) as (hs & w' & Hs).
  destruct (calculateWorkingDays_run w w' hs startDate numDays forward w Hs
              (or_introl eq_refl))
    as (k & wf & Hwf & _ & _ & Hrun & Hcount & _).
  cbn [stepOf] in *.
  set (r := addDays startDate (1 * Z.of_nat k)) in *.
  destruct (getWorkingDaysBetween_loop_counts tz config net w w' hs r Hs (S k)
              startDate 0 wf Hwf) as (w2 & _ & Hbetween).
  { subst r. unfold addDays, msPerDay. lia. }
  { intros _. subst r. unfold addDays, msPerDay. lia. }
  exists (S k), r, wf, w2. intros fuel Hfuel. split; [apply Hrun; lia|].
  unfold getWorkingDaysBetween.
  destruct (r <? startDate) eqn:E; [subst r; unfold addDays, msPerDay in E; lia|].
  rewrite Hbetween by assumption.
  rewrite countFrom_countDays, Hcount.
  rewrite (is_working_settled tz config net w w' w hs startDate Hs (or_introl eq_refl)).
  f_equal. lia.
Qed.

(** X12.  Five working days a week, in a process whose zone has a fixed
    offset, where a day later is 24 hours later.  With holidays disabled, a
    range of whole weeks, from a date to the same time of day
    7 * weeks - 1 days later, holds 5 * weeks working days, whatever the day
    of the week it starts on; no request is sent. *)
Theorem getWorkingDaysBetween_whole_weeks (startDate : Date) (weeks : nat)
    (w : World) (fuel : nat) :
  enableBankHolidays config = false ->
  (7 * weeks <= fuel)%nat ->
  getWorkingDaysBetween tz config net fuel startDate
    (addDays startDate (7 * Z.of_nat weeks - 1)) w
  = Val (5 * Z.of_nat weeks) w.
Proof.
  intros E Hfuel.
  pose proof (settles_disabled tz config net w E) as Hs.
  unfold getWorkingDaysBetween.
  destruct (addDays startDate (7 * Z.of_nat weeks - 1) <? startDate) eqn:El.
  - assert (weeks = 0%nat) by (unfold addDays, msPerDay in El; lia). now subst.
  - destruct (getWorkingDaysBetween_loop_counts tz config net w w ∅
                (addDays startDate (7 * Z.of_nat weeks - 1)) Hs (7 * weeks)
                startDate 0 w (or_introl eq_refl)) as (wf & Hwf & Hrun).
    + unfold addDays, msPerDay. lia.
    + intros _. unfold addDays, msPerDay. lia.
    + rewrite Hrun by assumption. rewrite countFrom_weeks.
      now destruct Hwf as [-> | ->].
Qed.

(** X13.  Counts add up, in a process whose zone has a fixed offset, where a
    day later is 24 hours later and the time of day is that of the clock of
    the zone.  For three dates in this order whose times of day do not go
    back, the working days from the first to the third are those from the
    first to the second and those from the day after the second to the
    third. *)
Theorem getWorkingDaysBetween_split (a b c : Date) (w : World) :
  a <= b -> addDays b 1 <= c ->
  timeOfDay tz a <= timeOfDay tz b -> timeOfDay tz b <= timeOfDay tz c ->
  exists (fuel0 : nat) (x y : Z) (w1 w2 w3 : World),
    forall fuel, (fuel0 <= fuel)%nat ->
      getWorkingDaysBetween tz config net fuel a b w = Val x w1 /\
      getWorkingDaysBetween tz config net fuel (addDays b 1) c w1 = Val y w2 /\
      getWorkingDaysBetween tz config net fuel a c w = Val (x + y) w3.
Proof.
  intros Hab Hbc Htab Htbc.
  destruct (isWorkingDay_settles tz config net w) as (hs & w' & Hs).
  set (n1 := Z.to_nat (localDay tz b - localDay tz a + 1)).
  set (n2 := Z.to_nat (localDay tz c - localDay tz (addDays b 1) + 1)).
  assert (Hac : a <= c) by (unfold addDays, msPerDay in Hbc; lia).
  destruct (iterations_calendar_days tz a b n1 Hab Htab eq_refl) as [H1 H1'].
  destruct (iterations_calendar_days tz (addDays b 1) c n2 Hbc
              ltac:(now rewrite timeOfDay_addDays) eq_refl) as [H2 H2'].
  destruct (iterations_calendar_days tz a c (n1 + n2) Hac ltac:(lia)) as [H3 H3'].
  { subst n1 n2. rewrite localDay_addDays.
    pose proof (localDay_mono tz a b Hab).
    pose proof (localDay_mono tz (addDays b 1) c Hbc) as Hnext.
    rewrite localDay_addDays in Hnext. lia. }
  destruct (getWorkingDaysBetween_loop_counts tz config net w w' hs b Hs n1 a 0 w
              (or_introl eq_refl) H1 (fun _ => H1')) as (w1 & Hw1 & Hrun1).
  destruct (getWorkingDaysBetween_loop_counts tz config net w w' hs c Hs n2
              (addDays b 1) 0 w1 Hw1 H2 (fun _ => H2')) as (w2 & Hw2 & Hrun2).
  destruct (getWorkingDaysBetween_loop_counts tz config net w w' hs c Hs (n1 + n2) a 0 w
              (or_introl eq_refl) H3 (fun _ => H3')) as (w3 & Hw3 & Hrun3).
  exists (n1 + n2)%nat, (0 + countFrom hs (localDay tz a) n1),
    (0 + countFrom hs (localDay tz (addDays b 1)) n2), w1, w2, w3.
  intros fuel Hfuel. unfold getWorkingDaysBetween.
  destruct (b <? a) eqn:E1; [lia|].
  destruct (c <? addDays b 1) eqn:E2; [lia|].
  destruct (c <? a) eqn:E3; [lia|].
  rewrite Hrun1, Hrun2, Hrun3 by lia.
  repeat split. f_equal. rewrite countFrom_app, localDay_addDays.
  assert (Hn1 : Z.of_nat n1 = localDay tz b - localDay tz a + 1).
  { subst n1. rewrite Z2Nat.id; [reflexivity|].
    pose proof (localDay_mono tz a b Hab). lia. }
  rewrite Hn1. replace (localDay tz a + (localDay tz b - localDay tz a + 1))
    with (localDay tz b + 1) by lia.
  lia.
Qed.

End WorkingDayLaws.

(* ===================================================================== *)
(** ** The sources of holidays                                            *)
(* ===================================================================== *)

Lemma foldl_union_dates {A : Type} (f : A -> string) (l : list A) :
  forall acc : gset string,
    foldl (fun holidays x => {[f x]} ∪ holidays) acc l = list_to_set (f <$> l) ∪ acc.
Proof.
  induction l as [|x l IH]; intros acc; cbn.
  - now rewrite (left_id_L ∅ (∪)).
  - rewrite IH, (assoc_L (∪)). f_equal. apply (comm_L (∪)).
Qed.

Section Sources.

Variable tz : Z.
Variable config : Config.
Variable net : Network.

Lemma fetchNagerDateYear_run (countryCode : string) (holidays : gset string)
    (year : Z) (w : World) :
  match yearDates (net (length (requests w)) (nagerURL year countryCode)) with
  | Some dates =>
      fetchNagerDateYear net countryCode holidays year w
      = Val (dates ∪ holidays) (add_requests [nagerURL year countryCode] w)
  | None =>
      exists e, fetchNagerDateYear net countryCode holidays year w
                = Throw e (add_requests [nagerURL year countryCode] w)
  end.
Proof.
  unfold fetchNagerDateYear, fetch, yearDates. fold (nagerURL year countryCode). unfold_M.
  destruct (net _ _) as [|r]; [eauto|].
  destruct (ok r); cbn.
  - unfold json. destruct (body r) as [[| items |] |]; cbn; unfold_M; cbn; eauto.
    now rewrite foldl_union_dates.
  - now rewrite (left_id_L ∅ (∪)).
Qed.

(** X14.  The holidays of a country other than the United Kingdom are the dates
    of the lists answered for this year and the next.  A response that is
    not [ok] adds nothing and is not read.  A request that is rejected, or
    an [ok] response whose body is not an array, ends the loop; the dates
    already read are dropped with it, and the set is empty. *)
Theorem fetchNagerDateHolidays_years (countryCode : string) (w : World) :
  fetchNagerDateHolidays tz net countryCode w =
  match yearDates (net (length (requests w))
                     (nagerURL (getFullYear tz (clock w)) countryCode)) with
  | None =>
      Val ∅ (add_requests [nagerURL (getFullYear tz (clock w)) countryCode] w)
  | Some dates1 =>
      Val (match yearDates (net (S (length (requests w)))
                              (nagerURL (getFullYear tz (clock w) + 1) countryCode)) with
           | None => ∅
           | Some dates2 => dates1 ∪ dates2
           end)
          (add_requests [nagerURL (getFullYear tz (clock w)) countryCode;
                         nagerURL (getFullYear tz (clock w) + 1) countryCode] w)
  end.
Proof.
  unfold fetchNagerDateHolidays, try_catch, fetchNagerDateHolidays_try. unfold_M.
  set (y := getFullYear tz (clock w)).
  pose proof (fetchNagerDateYear_run countryCode ∅ y w) as H1.
  destruct (yearDates (net (length (requests w)) (nagerURL y countryCode))) as [dates1|].
  - rewrite H1.
    pose proof (fetchNagerDateYear_run countryCode (dates1 ∪ ∅) (y + 1)
                  (add_requests [nagerURL y countryCode] w)) as H2.
    cbn [requests add_requests] in H2. rewrite length_app in H2. cbn [length] in H2.
    replace (length (requests w) + 1)%nat with (S (length (requests w))) in H2 by lia.
    destruct (yearDates (net (S (length (requests w))) (nagerURL (y + 1) countryCode)))
      as [dates2|].
    + rewrite H2, add_requests_add_requests. cbn [app]. f_equal.
      rewrite (right_id_L ∅ (∪)). apply (comm_L (∪)).
    + destruct H2 as (e & ->). now rewrite add_requests_add_requests.
  - destruct H1 as (e & ->). reflexivity.
Qed.

(** X15.  The holidays of the United Kingdom are the dates of the events of
    England and Wales, and a date is a holiday when its yyyy-MM-dd string in
    the zone of the process is one of them.  The body of the response is
    read whatever its status: [ok] is not looked at. *)
Theorem isUKBankHoliday_GB_events (d : Date) (w : World) (r : Response)
    (division : string) (events : list UKEvent) :
  enableBankHolidays config = true ->
  bankHolidayCountry config = "GB" ->
  cache_hit (clock w) "GB" w = None ->
  net (length (requests w)) "https://www.gov.uk/bank-holidays.json" = Resolved r ->
  body r = Some (JUKBankHolidays division events) ->
  isUKBankHoliday tz config net d w
  = Val (bool_decide (format_yyyy_MM_dd tz d ∈ event_date <$> events))
      (refreshed (list_to_set (event_date <$> events)) "GB"
         ["https://www.gov.uk/bank-holidays.json"] w).
Proof.
  intros E Hc Hmiss Hnet Hbody.
  unfold isUKBankHoliday, fetchBankHolidays, read_cache. unfold_M.
  rewrite E, Hc. cbn [negb]. rewrite Hmiss.
  unfold fetchHolidaysOf. cbn [String.eqb Ascii.eqb Bool.eqb].
  unfold fetchUKBankHolidays, try_catch, fetchUKBankHolidays_try, fetch. unfold_M.
  rewrite Hnet. unfold json. rewrite Hbody. cbn.
  rewrite foldl_union_dates, (right_id_L ∅ (∪)).
  unfold store_cache, refreshed, add_requests. cbn.
  f_equal. apply bool_decide_ext. apply elem_of_list_to_set.
Qed.

(** What a turn of the loop of [fetchNagerDateHolidays] makes of a failure,
    and of an error status. *)
Lemma yearDates_failure (answer : FetchResult) :
  errorStatus answer = false -> Failure isHolidayArray answer ->
  yearDates answer = None.
Proof.
  intros Hs Hf. destruct Hf as [|r Hb|r data Hb Hshape]; cbn in *.
  - reflexivity.
  - apply negb_false_iff in Hs. now rewrite Hs, Hb.
  - apply negb_false_iff in Hs. rewrite Hs, Hb. now destruct data.
Qed.

Lemma yearDates_errorStatus (answer : FetchResult) :
  errorStatus answer = true -> yearDates answer = Some ∅.
Proof.
  destruct answer as [|r]; cbn; [discriminate|].
  intros Hs. apply negb_true_iff in Hs. now rewrite Hs.
Qed.

Lemma yearDates_not_failure (answer : FetchResult) :
  errorStatus answer = true \/ ~ Failure isHolidayArray answer ->
  exists dates, yearDates answer = Some dates.
Proof.
  intros [Hs | Hn].
  - rewrite yearDates_errorStatus by assumption. eauto.
  - destruct answer as [|r]; [destruct Hn; constructor|]. cbn.
    destruct (ok r); [|eauto].
    destruct (body r) as [data|] eqn:Hb; [|destruct Hn; now constructor].
    destruct data; eauto; destruct Hn; now apply (other_shape _ r _ Hb).
Qed.

(** What [fetchUKBankHolidays] makes of the answer of the network. *)
Lemma fetchUKBankHolidays_run (w : World) :
  fetchUKBankHolidays net w
  = Val (match net (length (requests w)) "https://www.gov.uk/bank-holidays.json" with
         | Resolved r =>
             match body r with
             | Some (JUKBankHolidays _ events) => list_to_set (event_date <$> events)
             | _ => ∅
             end
         | Rejected => ∅
         end)
      (add_requests ["https://www.gov.uk/bank-holidays.json"] w).
Proof.
  unfold fetchUKBankHolidays, try_catch, fetchUKBankHolidays_try, fetch. unfold_M.
  destruct (net _ _) as [|r]; [reflexivity|].
  unfold json. destruct (body r) as [[division events| items |] |]; cbn; try reflexivity.
  unfold_M. now rewrite foldl_union_dates, (right_id_L ∅ (∪)).
Qed.

(** C6, as amended.  A failure that raises inside a fetch gives the empty
    set.  For [fetchUKBankHolidays] that is a rejected request, a body that
    is not JSON, or a document without the events of England and Wales.
    For [fetchNagerDateHolidays] it is, for either year, a rejected request,
    or a response with a success status whose body is not JSON or not an
    array; the dates read for the other year are dropped.  A response with
    an HTTP error status is no such failure: [fetchNagerDateHolidays] skips
    that year and returns the dates of the other year, none when both
    years are answered so, and [fetchUKBankHolidays] does not look at the
    status and returns the dates of the body when it is a document with the
    events.  Whatever the network answers, both return a set, and
    [isUKBankHoliday] and [isWorkingDay] return a boolean: no exception
    reaches their callers. *)
Theorem fetch_fails_open (countryCode : string) (d : Date) (w : World) :
  (Failure isUKDocument
     (net (length (requests w)) "https://www.gov.uk/bank-holidays.json") ->
   fetchUKBankHolidays net w
   = Val ∅ (add_requests ["https://www.gov.uk/bank-holidays.json"] w)) /\
  (forall (r : Response) (division : string) (events : list UKEvent),
     net (length (requests w)) "https://www.gov.uk/bank-holidays.json" = Resolved r ->
     body r = Some (JUKBankHolidays division events) ->
     fetchUKBankHolidays net w
     = Val (list_to_set (event_date <$> events))
         (add_requests ["https://www.gov.uk/bank-holidays.json"] w)) /\
  (forall (answer1 answer2 : FetchResult) (url1 url2 : string),
     url1 = nagerURL (getFullYear tz (clock w)) countryCode ->
     url2 = nagerURL (getFullYear tz (clock w) + 1) countryCode ->
     answer1 = net (length (requests w)) url1 ->
     answer2 = net (S (length (requests w))) url2 ->
     (errorStatus answer1 = false -> Failure isHolidayArray answer1 ->
      fetchNagerDateHolidays tz net countryCode w = Val ∅ (add_requests [url1] w)) /\
     (errorStatus answer1 = true \/ ~ Failure isHolidayArray answer1 ->
      errorStatus answer2 = false -> Failure isHolidayArray answer2 ->
      fetchNagerDateHolidays tz net countryCode w
      = Val ∅ (add_requests [url1; url2] w)) /\
     (forall (r2 : Response) (items : list BankHoliday),
        errorStatus answer1 = true ->
        answer2 = Resolved r2 -> ok r2 = true -> body r2 = Some (JArray items) ->
        fetchNagerDateHolidays tz net countryCode w
        = Val (list_to_set (date <$> items)) (add_requests [url1; url2] w)) /\
     (forall (r1 : Response) (items : list BankHoliday),
        answer1 = Resolved r1 -> ok r1 = true -> body r1 = Some (JArray items) ->
        errorStatus answer2 = true ->
        fetchNagerDateHolidays tz net countryCode w
        = Val (list_to_set (date <$> items)) (add_requests [url1; url2] w)) /\
     (errorStatus answer1 = true -> errorStatus answer2 = true ->
      fetchNagerDateHolidays tz net countryCode w
      = Val ∅ (add_requests [url1; url2] w))) /\
  (exists hs w', fetchUKBankHolidays net w = Val hs w') /\
  (exists hs w', fetchNagerDateHolidays tz net countryCode w = Val hs w') /\
  (exists b w', isUKBankHoliday tz config net d w = Val b w') /\
  (exists b w', isWorkingDay tz config net d w = Val b w').
Proof.
  set (y := getFullYear tz (clock w)).
  assert (Hrun :
    match yearDates (net (length (requests w)) (nagerURL y countryCode)) with
    | None =>
        fetchNagerDateHolidays tz net countryCode w
        = Val ∅ (add_requests [nagerURL y countryCode] w)
    | Some dates1 =>
        fetchNagerDateHolidays tz net countryCode w
        = Val (match yearDates (net (S (length (requests w)))
                                  (nagerURL (y + 1) countryCode)) with
               | None => ∅
               | Some dates2 => dates2 ∪ dates1
               end)
            (add_requests [nagerURL y countryCode; nagerURL (y + 1) countryCode] w)
    end).
  { unfold fetchNagerDateHolidays, try_catch, fetchNagerDateHolidays_try. unfold_M.
    fold y.
    pose proof (fetchNagerDateYear_run countryCode ∅ y w) as H1.
    destruct (yearDates (net (length (requests w)) (nagerURL y countryCode)))
      as [dates1|].
    - rewrite H1.
      pose proof (fetchNagerDateYear_run countryCode (dates1 ∪ ∅) (y + 1)
                    (add_requests [nagerURL y countryCode] w)) as H2.
      cbn [requests add_requests] in H2. rewrite length_app in H2. cbn [length] in H2.
      replace (length (requests w) + 1)%nat with (S (length (requests w))) in H2 by lia.
      destruct (yearDates (net (S (length (requests w))) (nagerURL (y + 1) countryCode)))
        as [dates2|].
      + rewrite H2, add_requests_add_requests. cbn [app]. f_equal.
        now rewrite (right_id_L ∅ (∪)).
      + destruct H2 as (e & ->). now rewrite add_requests_add_requests.
    - destruct H1 as (e & ->). reflexivity. }
  split; [|split; [|split; [|split; [|split; [|split]]]]].
  - intros Hf. rewrite fetchUKBankHolidays_run.
    inversion Hf as [Hr | r Hb Hr | r data Hb Hshape Hr].
    + reflexivity.
    + now rewrite Hb.
    + rewrite Hb. now destruct data.
  - intros r division events Hr Hb. now rewrite fetchUKBankHolidays_run, Hr, Hb.
  - intros answer1 answer2 url1 url2 -> -> -> ->.
    split; [|split; [|split; [|split]]].
    + intros Hs Hf. now rewrite (yearDates_failure _ Hs Hf) in Hrun.
    + intros H1 Hs Hf. destruct (yearDates_not_failure _ H1) as (dates1 & E1).
      now rewrite E1, (yearDates_failure _ Hs Hf) in Hrun.
    + intros r2 items H1 Hr2 Hok Hb.
      rewrite (yearDates_errorStatus _ H1), Hr2 in Hrun. cbn [yearDates] in Hrun.
      rewrite Hok, Hb in Hrun. now rewrite (right_id_L ∅ (∪)) in Hrun.
    + intros r1 items Hr1 Hok Hb H2.
      rewrite Hr1 in Hrun. cbn [yearDates] in Hrun. rewrite Hok, Hb in Hrun.
      rewrite (yearDates_errorStatus _ H2) in Hrun.
      now rewrite (left_id_L ∅ (∪)) in Hrun.
    + intros H1 H2.
      rewrite (yearDates_errorStatus _ H1), (yearDates_errorStatus _ H2) in Hrun.
      now rewrite (left_id_L ∅ (∪)) in Hrun.
  - rewrite fetchUKBankHolidays_run. eauto.
  - destruct (yearDates _); rewrite Hrun; eauto.
  - destruct (fetchBankHolidays_settles tz config net w) as (hs & w' & Hf & _).
    unfold isUKBankHoliday. destruct (enableBankHolidays config); unfold_M; cbn.
    + rewrite Hf. eauto.
    + eauto.
  - destruct (isWorkingDay_settles tz config net w) as (hs & w' & _ & Hw & _).
    rewrite Hw. eauto.
Qed.

(** Where the holidays of a country come from: one or two requests. *)
Lemma fetchHolidaysOf_urls (country : string) (w : World) :
  exists hs urls,
    fetchHolidaysOf tz net country w = Val hs (add_requests urls w) /\
    (length urls <= 2)%nat /\
    (country = "GB" -> (length urls <= 1)%nat).
Proof.
  unfold fetchHolidaysOf. destruct (String.eqb country "GB") eqn:E.
  - unfold fetchUKBankHolidays, try_catch, fetchUKBankHolidays_try, fetch. unfold_M.
    destruct (net _ _) as [|r]; [exists ∅, ["https://www.gov.uk/bank-holidays.json"];
                                 cbn; repeat split; lia|].
    unfold json. destruct (body r) as [data|]; unfold_M; cbn;
      [destruct data; cbn; unfold_M|];
      eexists _, ["https://www.gov.uk/bank-holidays.json"]; cbn;
      (split; [reflexivity|]); split; lia.
  - apply String.eqb_neq in E.
    unfold fetchNagerDateHolidays, try_catch, fetchNagerDateHolidays_try. unfold_M.
    set (y := getFullYear tz (clock w)).
    pose proof (fetchNagerDateYear_run country ∅ y w) as H1.
    destruct (yearDates _) as [dates1|].
    + rewrite H1.
      pose proof (fetchNagerDateYear_run country (dates1 ∪ ∅) (y + 1)
                    (add_requests [nagerURL y country] w)) as H2.
      destruct (yearDates _) as [dates2|].
      * rewrite H2, add_requests_add_requests. eexists _, _.
        split; [reflexivity|]. cbn. split; [lia | congruence].
      * destruct H2 as (e & ->). rewrite add_requests_add_requests. eexists _, _.
        split; [reflexivity|]. cbn. split; [lia | congruence].
    + destruct H1 as (e & ->). eexists _, _.
      split; [reflexivity|]. cbn. split; [lia | congruence].
Qed.

(** The world in which the holidays are settled is the one that a single
    refresh of the cache leaves, or the world as it was. *)
Lemma isWorkingDay_settles_sent (w : World) :
  exists hs w' urls,
    settles tz config net w hs w' /\
    fetchBankHolidays tz config net w = Val hs w' /\
    requests w' = (requests w ++ urls)%list /\
    (length urls <= 2)%nat /\
    (bankHolidayCountry config = "GB" -> (length urls <= 1)%nat).
Proof.
  assert (Hsame : forall hs, settles tz config net w hs w ->
            fetchBankHolidays tz config net w = Val hs w ->
            exists hs w' urls, settles tz config net w hs w' /\
              fetchBankHolidays tz config net w = Val hs w' /\
              requests w' = (requests w ++ urls)%list /\ (length urls <= 2)%nat /\
              (bankHolidayCountry config = "GB" -> (length urls <= 1)%nat)).
  { intros hs Hs Hf. exists hs, w, []. rewrite app_nil_r. cbn [length].
    split; [assumption|]. split; [assumption|]. split; [reflexivity|].
    split; [lia|]. intros _. lia. }
  assert (Hfrom : forall hs w', fetchBankHolidays tz config net w = Val hs w' ->
            fetchBankHolidays tz config net w' = Val hs w' -> clock w' = clock w ->
            (enableBankHolidays config = false -> hs = ∅ /\ w' = w) ->
            settles tz config net w hs w').
  { intros hs w' H1 H2 Hc Hoff. split; [assumption|]. split; intros d.
    - now apply isWorkingDay_run.
    - rewrite (isWorkingDay_run tz config net w' w' hs d H2).
      + now destruct (isWeekend tz d).
      + intros E. destruct (Hoff E). now split. }
  destruct (enableBankHolidays config) eqn:E.
  - destruct (cache_hit (clock w) (bankHolidayCountry config) w) as [hs|] eqn:Hh.
    + pose proof (fetchBankHolidays_hit tz config net w hs E Hh) as Hf.
      apply (Hsame hs); [|assumption].
      apply Hfrom; auto. discriminate.
    + destruct (fetchHolidaysOf_urls (bankHolidayCountry config) w)
        as (hs & urls & Hof & Hlen & Hgb).
      assert (Hf : fetchBankHolidays tz config net w
                   = Val hs (refreshed hs (bankHolidayCountry config) urls w)).
      { unfold fetchBankHolidays, read_cache. unfold_M. rewrite E; cbn.
        now rewrite Hh, Hof. }
      exists hs, (refreshed hs (bankHolidayCountry config) urls w), urls.
      split; [|split; [assumption | split; [reflexivity | split; assumption]]].
      apply Hfrom; [assumption | | reflexivity | discriminate].
      apply fetchBankHolidays_hit; [assumption|].
      rewrite <- (set_clock_same (refreshed _ _ _ _)) at 2.
      cbn [clock refreshed]. apply cache_hit_refreshed. lia.
  - apply (Hsame ∅); [now apply settles_disabled | now apply fetchBankHolidays_disabled].
Qed.

End Sources.

(* ===================================================================== *)
(** ** The list of coming holidays                                        *)
(* ===================================================================== *)

Lemma cache_blind_ret {A : Type} (a : A) : cache_blind (mret a).
Proof. intros h e c w. reflexivity. Qed.

Lemma cache_blind_throw {A : Type} (err : Error) : cache_blind (throw (A := A) err).
Proof. intros h e c w. reflexivity. Qed.

Lemma cache_blind_bind {A B : Type} (m : M A) (k : A -> M B) :
  cache_blind m -> (forall a, cache_blind (k a)) -> cache_blind (m ≫= k).
Proof.
  intros Hm Hk h e c w. unfold mbind, M_bind. rewrite Hm.
  destruct (m w) as [a w1|err w1|]; cbn; [apply Hk | reflexivity | reflexivity].
Qed.

Lemma cache_blind_now : cache_blind Date_now.
Proof. intros h e c w. reflexivity. Qed.

Lemma cache_blind_fetch (net : Network) (url : string) : cache_blind (fetch net url).
Proof. intros h e c w. unfold fetch. cbn. now destruct (net _ _). Qed.

Lemma cache_blind_json (r : Response) : cache_blind (json r).
Proof. unfold json. destruct (body r); [apply cache_blind_ret | apply cache_blind_throw]. Qed.

Lemma cache_blind_try {A : Type} (m : M A) (handler : Error -> M A) :
  cache_blind m -> (forall err, cache_blind (handler err)) ->
  cache_blind (try_catch m handler).
Proof.
  intros Hm Hh h e c w. unfold try_catch. rewrite Hm.
  destruct (m w) as [a w1|err w1|]; cbn; [reflexivity | apply Hh | reflexivity].
Qed.

(** Past midnight, the midnight of today lies behind. *)
Lemma midnight_before (tz : Z) (now : Date) :
  timeOfDay tz now <> 0 -> localDay tz now * msPerDay - tz < now.
Proof. unfold timeOfDay, localDay, Day, LocalTime, msPerDay. div_lia. Qed.

Section UpcomingHolidays.

Variable tz : Z.
Variable config : Config.
Variable net : Network.
Variable parseISO : string -> option Date.

Lemma getUpcomingBankHolidays_blind (monthsAhead : Z) :
  cache_blind (getUpcomingBankHolidays tz config net parseISO monthsAhead).
Proof.
  unfold getUpcomingBankHolidays.
  destruct (negb (enableBankHolidays config)); [apply cache_blind_ret|].
  apply cache_blind_try; [|intros; apply cache_blind_ret].
  unfold getUpcomingBankHolidays_try.
  destruct (String.eqb (bankHolidayCountry config) "GB").
  - unfold getUpcomingBankHolidays_GB.
    apply cache_blind_bind; [apply cache_blind_fetch | intros r].
    apply cache_blind_bind; [apply cache_blind_json | intros data].
    apply cache_blind_bind; [apply cache_blind_now | intros now].
    apply cache_blind_bind; [apply cache_blind_now | intros future].
    apply cache_blind_bind; [|intros; apply cache_blind_ret].
    destruct data; [apply cache_blind_ret | apply cache_blind_throw ..].
  - assert (Hy : forall all y,
              cache_blind (getUpcomingBankHolidays_year net (bankHolidayCountry config) all y)).
    { intros all y. unfold getUpcomingBankHolidays_year.
      apply cache_blind_bind; [apply cache_blind_fetch | intros r].
      destruct (negb (ok r)); [apply cache_blind_ret|].
      apply cache_blind_bind; [apply cache_blind_json | intros data].
      apply cache_blind_bind; [|intros; apply cache_blind_ret].
      destruct data; [apply cache_blind_throw | apply cache_blind_ret
                      | apply cache_blind_throw]. }
    unfold getUpcomingBankHolidays_Nager.
    apply cache_blind_bind; [apply cache_blind_now | intros today].
    apply cache_blind_bind; [apply Hy | intros all1].
    apply cache_blind_bind; [apply Hy | intros all2].
    apply cache_blind_bind; [apply cache_blind_now | intros now].
    apply cache_blind_bind; [apply cache_blind_now | intros future].
    apply cache_blind_ret.
Qed.

Lemma getUpcomingBankHolidays_year_after (country : string) (all : list Upcoming)
    (year : Z) (w : World) :
  after_requests w (getUpcomingBankHolidays_year net country all year w).
Proof.
  unfold getUpcomingBankHolidays_year. unfold_M.
  match goal with |- context [fetch net ?u w] =>
    pose proof (fetch_after net u w) as Hf; destruct (fetch net u w) as [r w1|e w1|] end;
    cbn in *; try assumption.
  destruct (negb (ok r)); cbn; [assumption|].
  unfold json. destruct (body r) as [j|]; unfold_M; cbn; [|assumption].
  destruct j; cbn; unfold_M; assumption.
Qed.

Lemma getUpcomingBankHolidays_try_after (country : string) (monthsAhead : Z) (w : World) :
  after_requests w (getUpcomingBankHolidays_try tz net parseISO country monthsAhead w).
Proof.
  unfold getUpcomingBankHolidays_try. destruct (String.eqb country "GB").
  - unfold getUpcomingBankHolidays_GB. unfold_M.
    pose proof (fetch_after net "https://www.gov.uk/bank-holidays.json" w) as Hf.
    destruct (fetch net _ w) as [r w1|e w1|]; cbn in *; try assumption.
    unfold json. destruct (body r) as [j|]; unfold_M; cbn; [|assumption].
    destruct j; cbn; unfold_M; assumption.
  - unfold getUpcomingBankHolidays_Nager. unfold_M.
    pose proof (getUpcomingBankHolidays_year_after country [] (getFullYear tz (clock w)) w)
      as H1.
    destruct (getUpcomingBankHolidays_year net country [] _ w) as [all1 w1|e w1|];
      cbn in *; try assumption.
    pose proof (getUpcomingBankHolidays_year_after country all1
                  (getFullYear tz (clock w) + 1) w1) as H2.
    destruct (getUpcomingBankHolidays_year net country all1 _ w1) as [all2 w2|e w2|];
      cbn in *; try contradiction; eapply sent_trans; eassumption.
Qed.

(** X17.  [getUpcomingBankHolidays] goes to the network every time.  With
    holidays enabled it returns a list and never throws; it sends at least
    one request whatever the cache holds, a fresh set for the configured
    country included; the list does not depend on the cache, and the cache
    is left as it was. *)
Theorem getUpcomingBankHolidays_bypasses_cache (monthsAhead : Z) (w : World) :
  enableBankHolidays config = true ->
  exists (l : list Upcoming) (urls : list string),
    urls <> [] /\
    forall holidays expiry country,
      getUpcomingBankHolidays tz config net parseISO monthsAhead
        (with_cache holidays expiry country w)
      = Val l (add_requests urls (with_cache holidays expiry country w)).
Proof.
  intros E.
  assert (H : exists l urls, urls <> [] /\
            getUpcomingBankHolidays tz config net parseISO monthsAhead w
            = Val l (add_requests urls w)).
  { unfold getUpcomingBankHolidays, try_catch. rewrite E. cbn [negb].
    pose proof (getUpcomingBankHolidays_try_after (bankHolidayCountry config)
                  monthsAhead w) as Ha.
    destruct (getUpcomingBankHolidays_try _ _ _ _ _ w) as [l w1|e w1|]; cbn in Ha;
      [| |contradiction]; destruct Ha as (urls & Hne & ->); eauto. }
  destruct H as (l & urls & Hne & Hrun).
  exists l, urls. split; [assumption|]. intros h e c.
  rewrite getUpcomingBankHolidays_blind, Hrun. reflexivity.
Qed.

(** Every element of the list lies in the window that starts now. *)
Lemma getUpcomingBankHolidays_in_window (monthsAhead : Z) (w w' : World)
    (l : list Upcoming) :
  getUpcomingBankHolidays tz config net parseISO monthsAhead w = Val l w' ->
  forall h, In h l ->
    in_window parseISO (clock w) (monthsFrom tz (clock w) monthsAhead) (upcoming_date h)
    = true.
Proof.
  unfold getUpcomingBankHolidays, try_catch.
  destruct (negb (enableBankHolidays config)).
  { intros [= <- _] h []. }
  unfold getUpcomingBankHolidays_try.
  destruct (String.eqb (bankHolidayCountry config) "GB").
  - unfold getUpcomingBankHolidays_GB, fetch. unfold_M.
    destruct (net _ _) as [|r]; [intros [= <- _] h []|].
    unfold json. destruct (body r) as [data|]; unfold_M; cbn; [|intros [= <- _] h []].
    destruct data as [division events| |]; cbn; unfold_M; try (intros [= <- _] h []).
    intros [= <- _] h Hin.
    apply in_map_iff in Hin as (ev & <- & Hin). cbn.
    now apply filter_In in Hin as [_ Hin].
  - unfold getUpcomingBankHolidays_Nager. unfold_M.
    set (c := bankHolidayCountry config).
    assert (Hclock : forall all y w0 all' w1,
              getUpcomingBankHolidays_year net c all y w0 = Val all' w1 ->
              clock w1 = clock w0).
    { intros all y w0 all' w1. unfold getUpcomingBankHolidays_year, fetch. unfold_M.
      destruct (net _ _) as [|r]; [discriminate|].
      destruct (negb (ok r)); [now intros [= _ <-]|].
      unfold json. destruct (body r) as [data|]; unfold_M; cbn; [|discriminate].
      destruct data; cbn; unfold_M; try discriminate. now intros [= _ <-]. }
    destruct (getUpcomingBankHolidays_year net c [] _ w) as [all1 w1|e w1|] eqn:E1;
      [|intros [= <- _] h []|discriminate].
    destruct (getUpcomingBankHolidays_year net c all1 _ w1) as [all2 w2|e w2|] eqn:E2;
      [|intros [= <- _] h []|discriminate].
    apply Hclock in E1, E2. rewrite E2, E1.
    intros [= <- _] h Hin. now apply filter_In in Hin as [_ Hin].
Qed.

(** X18.  A holiday that falls today is not listed.  When [parseISO] reads
    today's yyyy-MM-dd string as midnight of today in the zone of the
    process, and it is past midnight, no element of the list bears today's
    date: the window starts at the present instant, not with the day. *)
Theorem getUpcomingBankHolidays_not_today (monthsAhead : Z) (w w' : World)
    (l : list Upcoming) :
  parseISO (format_yyyy_MM_dd tz (clock w))
    = Some (localDay tz (clock w) * msPerDay - tz) ->
  timeOfDay tz (clock w) <> 0 ->
  getUpcomingBankHolidays tz config net parseISO monthsAhead w = Val l w' ->
  forall h, In h l -> upcoming_date h <> format_yyyy_MM_dd tz (clock w).
Proof.
  intros Hparse Hpast Hrun h Hin Heq.
  pose proof (getUpcomingBankHolidays_in_window monthsAhead w w' l Hrun h Hin) as Hwin.
  unfold in_window in Hwin. rewrite Heq, Hparse in Hwin.
  apply andb_prop in Hwin as [Hnow _]. apply Z.leb_le in Hnow.
  pose proof (midnight_before tz (clock w) Hpast). lia.
Qed.

End UpcomingHolidays.

(* ===================================================================== *)
(** ** Whole operations                                                   *)
(* ===================================================================== *)

Section Operations.

Variable tz : Z.
Variable config : Config.
Variable net : Network.
Variable zoneOffset : string -> Z -> Z.
Variable parseISO : string -> option Date.

(** X2.  The due date is a working day after the day it is counted from.
    For every valid date, with the dates that are stepped through valid as
    well, [getAsanaDueDate] returns, the date it returns satisfies
    [isWorkingDay], lies on a later calendar day than the date it starts
    from, and is a later instant. *)
Theorem getAsanaDueDate_working_day (fromDate : Date) (w : World) :
  exists (fuel0 : nat) (r : Date) (w' : World),
    (forall fuel, (fuel0 <= fuel)%nat ->
       getAsanaDueDate tz config net zoneOffset fuel (Some fromDate) w = Val r w') /\
    isWorkingDay tz config net r w' = Val true w' /\
    localDay tz fromDate < localDay tz r /\
    fromDate < r.
Proof.
  destruct (isWorkingDay_settles tz config net w) as (hs & w' & Hs).
  destruct (getNextWorkingDay_run tz config net w w' hs fromDate w Hs (or_introl eq_refl))
    as (n1 & Hrun1 & Hn1 & _).
  set (d1 := addDays fromDate (1 + Z.of_nat n1)) in *.
  destruct (getNextWorkingDay_run tz config net w w' hs d1 w' Hs (or_intror eq_refl))
    as (n2 & Hrun2 & Hn2 & _).
  set (d2 := addDays d1 (1 + Z.of_nat n2)) in *.
  assert (Hd1 : localDay tz d1 = localDay tz fromDate + 1 * (1 + Z.of_nat n1))
    by (subst d1; rewrite localDay_addDays; lia).
  assert (Hd2 : localDay tz d2 = localDay tz d1 + 1 * (1 + Z.of_nat n2))
    by (subst d2; rewrite localDay_addDays; lia).
  destruct Hs as (_ & _ & Hw').
  destruct (getDay tz fromDate =? 5) eqn:E5.
  - exists (Nat.max n1 n2), (atDueTime tz d2), w'. split; [|split; [|split]].
    + intros fuel Hfuel. rewrite getAsanaDueDate_unfold. cbv zeta.
      rewrite E5, Hrun1 by lia. fold d1. rewrite Hrun2 by lia. reflexivity.
    + rewrite Hw', localDay_atDueTime, Hd2, Hn2. reflexivity.
    + rewrite localDay_atDueTime. lia.
    + apply (later_day tz). rewrite localDay_atDueTime. lia.
  - exists n1, (atDueTime tz d1), w'. split; [|split; [|split]].
    + intros fuel Hfuel. rewrite getAsanaDueDate_unfold. cbv zeta.
      rewrite E5, Hrun1 by lia. reflexivity.
    + rewrite Hw', localDay_atDueTime, Hd1, Hn1. reflexivity.
    + rewrite localDay_atDueTime. lia.
    + apply (later_day tz). rewrite localDay_atDueTime. lia.
Qed.

(** X3.  With holidays disabled nothing goes to the network.  Every operation
    returns in the world it was called in: no request is sent and the cache
    is not written.  No date is a holiday, the list of coming holidays is
    empty, and a working day is a day that is not a Saturday or a Sunday. *)
Theorem disabled_never_fetches (d e : Date) (numDays monthsAhead : Z)
    (direction : Direction) (w : World) :
  enableBankHolidays config = false ->
  fetchBankHolidays tz config net w = Val ∅ w /\
  isUKBankHoliday tz config net d w = Val false w /\
  getUpcomingBankHolidays tz config net parseISO monthsAhead w = Val [] w /\
  isWorkingDay tz config net d w = Val (negb (isWeekend tz d)) w /\
  exists (fuel0 : nat) (next stepped due : Date) (between : Z),
    forall fuel, (fuel0 <= fuel)%nat ->
      getNextWorkingDay tz config net fuel d w = Val next w /\
      calculateWorkingDays tz config net fuel d numDays direction w = Val stepped w /\
      getWorkingDaysBetween tz config net fuel d e w = Val between w /\
      getAsanaDueDate tz config net zoneOffset fuel (Some d) w = Val due w.
Proof.
  intros E.
  pose proof (settles_disabled tz config net w E) as Hs.
  split; [now apply fetchBankHolidays_disabled|].
  split; [unfold isUKBankHoliday; now rewrite E|].
  split; [unfold getUpcomingBankHolidays; now rewrite E|].
  split.
  { destruct Hs as (_ & _ & Hw). rewrite Hw, workingDayNumber_empty. reflexivity. }
  destruct (getNextWorkingDay_run tz config net w w ∅ d w Hs (or_introl eq_refl))
    as (n1 & Hnext & _).
  destruct (calculateWorkingDays_run tz config net w w ∅ d numDays direction w Hs
              (or_introl eq_refl)) as (k & wf & Hwf & _ & _ & Hcalc & _).
  assert (wf = w) by (destruct Hwf; assumption). subst wf.
  assert (Hb : exists between : Z, forall fuel,
            (Z.to_nat ((e - d) / msPerDay + 1) <= fuel)%nat ->
            getWorkingDaysBetween tz config net fuel d e w = Val between w).
  { destruct (Z_lt_le_dec e d) as [Hlt | Hle].
    - exists 0. intros fuel _.
      unfold getWorkingDaysBetween. destruct (e <? d) eqn:El; [reflexivity | lia].
    - destruct (iterations_any d e Hle) as [H1 H2].
      destruct (getWorkingDaysBetween_loop_counts tz config net w w ∅ e Hs _ d 0 w
                  (or_introl eq_refl) H1 (fun _ => H2)) as (wb & Hwb & Hrun).
      assert (wb = w) by (destruct Hwb; assumption). subst wb.
      exists (0 + countFrom ∅ (localDay tz d) (Z.to_nat ((e - d) / msPerDay + 1))).
      intros fuel Hfuel.
      unfold getWorkingDaysBetween. destruct (e <? d) eqn:El; [lia|].
      apply Hrun. assumption. }
  destruct Hb as (between & Hbetween).
  set (n := Z.to_nat ((e - d) / msPerDay + 1)) in *.
  destruct (getNextWorkingDay_run tz config net w w ∅
              (addDays d (1 + Z.of_nat n1)) w Hs (or_introl eq_refl))
    as (n2 & Hnext2 & _).
  exists (Nat.max (Nat.max n1 n2) (Nat.max k n)),
    (addDays d (1 + Z.of_nat n1)), (addDays d (stepOf direction * Z.of_nat k)),
    (atDueTime tz (if getDay tz d =? 5
                   then addDays (addDays d (1 + Z.of_nat n1)) (1 + Z.of_nat n2)
                   else addDays d (1 + Z.of_nat n1))),
    between.
  intros fuel Hfuel.
  split; [apply Hnext; lia|]. split; [apply Hcalc; lia|]. split.
  - apply Hbetween. lia.
  - rewrite getAsanaDueDate_unfold. cbv zeta.
    destruct (getDay tz d =? 5).
    + rewrite Hnext, Hnext2 by lia. reflexivity.
    + rewrite Hnext by lia. reflexivity.
Qed.

(** X16.  One refresh at most.  However many days an operation walks over, it
    refreshes the cache once at most: the world it ends in is the world it
    started in, or the one that a single call of [fetchBankHolidays]
    leaves, in which at most two requests were sent, and at most one for
    the United Kingdom.  [getNextWorkingDay] and [getAsanaDueDate] end in
    the latter. *)
Theorem one_refresh_per_operation (d e : Date) (numDays : Z)
    (direction : Direction) (w : World) :
  exists (hs : gset string) (w' : World) (urls : list string),
    fetchBankHolidays tz config net w = Val hs w' /\
    requests w' = (requests w ++ urls)%list /\
    (length urls <= 2)%nat /\
    (bankHolidayCountry config = "GB" -> (length urls <= 1)%nat) /\
    exists (fuel0 : nat) (next stepped due : Date) (between : Z) (ws wb : World),
      (ws = w \/ ws = w') /\ (wb = w \/ wb = w') /\
      forall fuel, (fuel0 <= fuel)%nat ->
        getNextWorkingDay tz config net fuel d w = Val next w' /\
        calculateWorkingDays tz config net fuel d numDays direction w
          = Val stepped ws /\
        getWorkingDaysBetween tz config net fuel d e w = Val between wb /\
        getAsanaDueDate tz config net zoneOffset fuel (Some d) w = Val due w'.
Proof.
  destruct (isWorkingDay_settles_sent tz config net w)
    as (hs & w' & urls & Hs & Hf & Hreq & Hlen & Hgb).
  exists hs, w', urls.
  split; [assumption|]. split; [assumption|]. split; [assumption|]. split; [assumption|].
  destruct (getNextWorkingDay_run tz config net w w' hs d w Hs (or_introl eq_refl))
    as (n1 & Hnext & _).
  destruct (calculateWorkingDays_run tz config net w w' hs d numDays direction w Hs
              (or_introl eq_refl)) as (k & ws & Hws & _ & _ & Hcalc & _).
  destruct (getNextWorkingDay_run tz config net w w' hs
              (addDays d (1 + Z.of_nat n1)) w' Hs (or_intror eq_refl))
    as (n2 & Hnext2 & _).
  assert (Hb : exists (n : nat) (between : Z) (wb : World), (wb = w \/ wb = w') /\
            forall fuel, (n <= fuel)%nat ->
              getWorkingDaysBetween tz config net fuel d e w = Val between wb).
  { destruct (Z_lt_le_dec e d) as [Hlt | Hle].
    - exists 0%nat, 0, w. split; [now left|]. intros fuel _.
      unfold getWorkingDaysBetween. destruct (e <? d) eqn:E; [reflexivity | lia].
    - destruct (iterations_any d e Hle) as [H1 H2].
      destruct (getWorkingDaysBetween_loop_counts tz config net w w' hs e Hs _ d 0 w
                  (or_introl eq_refl) H1 (fun _ => H2)) as (wb & Hwb & Hrun).
      exists (Z.to_nat ((e - d) / msPerDay + 1)),
        (0 + countFrom hs (localDay tz d) (Z.to_nat ((e - d) / msPerDay + 1))), wb.
      split; [assumption|]. intros fuel Hfuel.
      unfold getWorkingDaysBetween. destruct (e <? d) eqn:E; [lia|].
      apply Hrun. assumption. }
  destruct Hb as (n & between & wb & Hwb & Hbetween).
  exists (Nat.max (Nat.max n1 n2) (Nat.max k n)),
    (addDays d (1 + Z.of_nat n1)), (addDays d (stepOf direction * Z.of_nat k)),
    (atDueTime tz (if getDay tz d =? 5
                   then addDays (addDays d (1 + Z.of_nat n1)) (1 + Z.of_nat n2)
                   else addDays d (1 + Z.of_nat n1))),
    between, ws, wb.
  split; [assumption|]. split; [assumption|].
  intros fuel Hfuel.
  split; [apply Hnext; lia|]. split; [apply Hcalc; lia|].
  split; [apply Hbetween; lia|].
  rewrite getAsanaDueDate_unfold. cbv zeta.
  destruct (getDay tz d =? 5).
  - rewrite Hnext, Hnext2 by lia. reflexivity.
  - rewrite Hnext by lia. reflexivity.
Qed.

End Operations.

(* ===================================================================== *)
(** ** Requests in words                                                  *)
(* ===================================================================== *)

Lemma readDigits_uint_acc (u : Decimal.uint) :
  forall p : positive,
    readDigits (NilEmpty.string_of_uint u) (Some (Z.pos p))
    = Some (Z.pos (Pos.of_uint_acc u p)).
Proof.
  induction u; intros p; cbn [NilEmpty.string_of_uint Pos.of_uint_acc readDigits];
    try reflexivity;
    match goal with
    | |- context [digitValue ?c] =>
        let v := eval vm_compute in (digitValue c) in change (digitValue c) with v
    end; cbv iota; rewrite <- IHu; do 2 f_equal; cbv [default from_option id]; lia.
Qed.

Lemma readDigits_uint (u : Decimal.uint) :
  readDigits (NilEmpty.string_of_uint u) (Some 0) = Some (Z.of_N (N.of_uint u)).
Proof.
  unfold N.of_uint.
  induction u; cbn [NilEmpty.string_of_uint Pos.of_uint readDigits];
    try reflexivity;
    match goal with
    | |- context [digitValue ?c] =>
        let v := eval vm_compute in (digitValue c) in change (digitValue c) with v
    end; cbv iota; cbv [default from_option id];
    try (rewrite <- IHu; reflexivity);
    match goal with
    | |- readDigits _ (Some ?a) = _ =>
        let a' := eval vm_compute in a in change a with a'
    end; apply readDigits_uint_acc.
Qed.

Lemma to_uint_first (m : N) :
  exists (c : ascii) (s : string) (v : Z),
    NilEmpty.string_of_uint (N.to_uint m) = String c s /\
    digitValue c = Some v /\ isWhiteSpace c = false /\
    c <> "-"%char /\ c <> "+"%char /\ c <> "i"%char.
Proof.
  assert (Hnil : N.to_uint m <> Decimal.Nil).
  { destruct m; [discriminate | apply DecimalPos.Unsigned.to_uint_nonnil]. }
  destruct (N.to_uint m); [contradiction|..]; cbn [NilEmpty.string_of_uint];
    do 3 eexists; (split; [reflexivity|]);
    (split; [vm_compute; reflexivity|]); repeat split; discriminate.
Qed.

Lemma readDigits_first (c : ascii) (s : string) (v : Z) :
  digitValue c = Some v ->
  readDigits (String c s) None = readDigits (String c s) (Some 0).
Proof. intros H. cbn [readDigits]. now rewrite H. Qed.

(** [parseInt] reads back what [toString] writes. *)
Lemma parseInt_toString (n : Z) : parseInt (toString n) = Num n.
Proof.
  assert (H : forall m : N,
            parseInt (NilEmpty.string_of_uint (N.to_uint m)) = Num (Z.of_N m) /\
            readDigits (NilEmpty.string_of_uint (N.to_uint m)) None = Some (Z.of_N m)).
  { intros m.
    assert (Hr : readDigits (NilEmpty.string_of_uint (N.to_uint m)) None
                 = Some (Z.of_N m)).
    { destruct (to_uint_first m) as (c & s & v & E & Hv & _).
      rewrite E, (readDigits_first c s v Hv), <- E, readDigits_uint.
      now rewrite DecimalN.Unsigned.of_to. }
    split; [|assumption].
    destruct (to_uint_first m) as (c & s & v & E & Hv & Hws & Hm & Hp & _).
    unfold parseInt. rewrite E in *. cbn [skipWhiteSpace]. rewrite Hws.
    assert (Hsign : (match String c s with
                     | String "-" r => (-1, r)
                     | String "+" r => (1, r)
                     | _ => (1, String c s)
                     end) = (1, String c s)).
    { destruct c as [[] [] [] [] [] [] [] []]; try reflexivity; congruence. }
    rewrite Hsign, Hr. f_equal. lia. }
  unfold toString. destruct (n <? 0) eqn:E.
  - destruct (H (Z.to_N (Z.abs n))) as [_ Hr].
    unfold parseInt. rewrite string_app_cons, string_app_nil.
    cbn [skipWhiteSpace]. change (isWhiteSpace "-") with false. cbv iota.
    rewrite Hr. f_equal. lia.
  - destruct (H (Z.to_N (Z.abs n))) as [-> _]. f_equal. lia.
Qed.






(** Digits stay as they are in lower case, and hold no match. *)
Lemma toLowerCase_app (s t : string) :
  toLowerCase (s +:+ t) = toLowerCase s +:+ toLowerCase t.
Proof.
  induction s as [|c s IH]; [reflexivity|].
  rewrite string_app_cons. cbn [toLowerCase]. now rewrite IH, string_app_cons.
Qed.

Lemma toLowerCase_uint (u : Decimal.uint) :
  toLowerCase (NilEmpty.string_of_uint u) = NilEmpty.string_of_uint u.
Proof.
  induction u; cbn [NilEmpty.string_of_uint toLowerCase]; [reflexivity|..];
    rewrite IHu; reflexivity.
Qed.

Lemma regexp_in_uint (word : string) (u : Decimal.uint) (rest : string) :
  regexp_in word (NilEmpty.string_of_uint u +:+ rest) = regexp_in word rest.
Proof.
  induction u; cbn [NilEmpty.string_of_uint];
    [now rewrite string_app_nil|..];
    rewrite string_app_cons; cbn [regexp_in]; rewrite IHu; reflexivity.
Qed.

Lemma digitRun_uint (u : Decimal.uint) (rest : string) :
  digitRun rest = ("", rest) ->
  digitRun (NilEmpty.string_of_uint u +:+ rest) = (NilEmpty.string_of_uint u, rest).
Proof.
  intros Hrest.
  induction u; cbn [NilEmpty.string_of_uint];
    [now rewrite string_app_nil|..];
    rewrite string_app_cons; cbn [digitRun];
    match goal with
    | |- context [digitValue ?c] =>
        let v := eval vm_compute in (digitValue c) in change (digitValue c) with v
    end; cbv iota; rewrite IHu; reflexivity.
Qed.

Lemma trimEnd_app (s t : string) :
  trimEnd t = t -> t <> "" -> trimEnd (s +:+ t) = s +:+ t.
Proof.
  intros Ht Hne. induction s as [|c s IH]; [now rewrite string_app_nil|].
  rewrite string_app_cons. cbn [trimEnd]. rewrite IH.
  destruct (s +:+ t) eqn:E; [|reflexivity].
  destruct s; [rewrite string_app_nil in E; contradiction | discriminate].
Qed.

(** The two expressions of [parseAsanaDateRequest] on the text
    [in <number><rest>]. *)
Lemma regexp_in_hit (word rest tail : string) (u : Decimal.uint) :
  u <> Decimal.Nil ->
  digitRun rest = ("", rest) ->
  stripPrefix (String " " word) rest = Some tail ->
  regexp_in word
    (String "i" (String "n" (String " " (NilEmpty.string_of_uint u +:+ rest))))
  = Some (NilEmpty.string_of_uint u).
Proof.
  intros Hu Hrest Hword. cbn [regexp_in].
  assert (H : regexp_in_at word
                (String "i" (String "n" (String " " (NilEmpty.string_of_uint u +:+ rest))))
              = Some (NilEmpty.string_of_uint u)).
  { unfold regexp_in_at.
    change (stripPrefix "in " (String "i" (String "n" (String " " ?x))))
      with (Some x).
    cbv iota beta. rewrite (digitRun_uint u rest Hrest), Hword.
    destruct u; [contradiction|..]; reflexivity. }
  now rewrite H.
Qed.

Lemma regexp_in_miss (word rest : string) (u : Decimal.uint) :
  digitRun rest = ("", rest) ->
  stripPrefix (String " " word) rest = None ->
  regexp_in word
    (String "i" (String "n" (String " " (NilEmpty.string_of_uint u +:+ rest))))
  = regexp_in word rest.
Proof.
  intros Hrest Hword. cbn [regexp_in].
  assert (H : regexp_in_at word
                (String "i" (String "n" (String " " (NilEmpty.string_of_uint u +:+ rest))))
              = None).
  { unfold regexp_in_at.
    change (stripPrefix "in " (String "i" (String "n" (String " " ?x))))
      with (Some x).
    cbv iota beta. rewrite (digitRun_uint u rest Hrest), Hword.
    now destruct (NilEmpty.string_of_uint u). }
  rewrite H.
  change (regexp_in_at word (String "n" ?x)) with (@None string).
  change (regexp_in_at word (String " " ?x)) with (@None string).
  cbv iota. apply regexp_in_uint.
Qed.

Section RequestLaws.

Variable tz : Z.
Variable config : Config.
Variable net : Network.
Variable zoneOffset : string -> Z -> Z.


(** X20.  ["in N days"] and ["in N weeks"].  For every number N that is not
    negative, the request [in N days] is the due date counted from the day
    N days after today, and [in N weeks] the one counted from 7 * N days
    after today. *)
Theorem parseAsanaDateRequest_in_days (fuel : nat) (n : Z) (w : World) :
  0 <= n ->
  parseAsanaDateRequest tz config net zoneOffset fuel
    ("in " +:+ toString n +:+ " days") w
  = getAsanaDueDate tz config net zoneOffset fuel
      (Some (addDays (utcToZonedTime tz (zoneOffset UK_TIMEZONE) (clock w)) n)) w /\
  parseAsanaDateRequest tz config net zoneOffset fuel
    ("in " +:+ toString n +:+ " weeks") w
  = getAsanaDueDate tz config net zoneOffset fuel
      (Some (addDays (utcToZonedTime tz (zoneOffset UK_TIMEZONE) (clock w)) (n * 7))) w.
Proof.
  intros Hn.
  pose proof (parseInt_toString n) as Hparse.
  unfold toString in *. destruct (n <? 0) eqn:E; [lia|].
  set (u := N.to_uint (Z.to_N (Z.abs n))) in *.
  assert (Hu : u <> Decimal.Nil).
  { subst u. destruct (Z.to_N (Z.abs n)); [discriminate | apply DecimalPos.Unsigned.to_uint_nonnil]. }
  assert (Hlow : forall rest, toLowerCase rest = rest -> trimEnd rest = rest -> rest <> "" ->
            trim (toLowerCase ("in " +:+ NilEmpty.string_of_uint u +:+ rest))
            = String "i" (String "n" (String " " (NilEmpty.string_of_uint u +:+ rest)))).
  { intros rest Hl Ht Hne.
    rewrite !toLowerCase_app, toLowerCase_uint, Hl.
    change (toLowerCase "in ") with "in ". unfold trim.
    change ("in " +:+ NilEmpty.string_of_uint u +:+ rest)
      with (String "i" (String "n" (String " " (NilEmpty.string_of_uint u +:+ rest)))).
    cbn [skipWhiteSpace]. change (isWhiteSpace "i") with false. cbv iota.
    change (String "i" (String "n" (String " " (NilEmpty.string_of_uint u +:+ rest))))
      with (("in " +:+ NilEmpty.string_of_uint u) +:+ rest).
    now apply trimEnd_app. }
  unfold parseAsanaDateRequest, getTodayUK, dueDateIn. unfold_M. cbv beta iota zeta.
  rewrite !Hlow by (reflexivity || discriminate).
  split.
  - change (String.eqb (String "i" ?x) "tomorrow") with false.
    change (String.eqb (String "i" ?x) "next working day") with false.
    change (String.eqb (String "i" ?x) "default") with false.
    cbv iota beta. cbn [orb].
    rewrite (regexp_in_hit "day" " days" "s" u Hu eq_refl eq_refl), Hparse.
    reflexivity.
  - change (String.eqb (String "i" ?x) "tomorrow") with false.
    change (String.eqb (String "i" ?x) "next working day") with false.
    change (String.eqb (String "i" ?x) "default") with false.
    cbv iota beta. cbn [orb].
    rewrite (regexp_in_miss "day" " weeks" u eq_refl eq_refl).
    change (regexp_in "day" " weeks") with (@None string). cbv iota.
    rewrite (regexp_in_hit "week" " weeks" "s" u Hu eq_refl eq_refl), Hparse.
    reflexivity.
Qed.

(** X21.  The date of today is printed in the zone of London twice over.  When
    London is [offset] milliseconds east of UTC, [formatDateISO] of
    [getTodayUK()] is the calendar date, not at [offset] from UTC, but at
    [offset + (offset - tz)]: [getTodayUK] moves the instant by the
    difference between London and the zone of the process, and
    [formatInTimeZone] reads the moved instant in London again.  It is the
    date of London when the zone of the process is London's. *)
Theorem formatDateISO_today (offset : Z) (w : World) :
  (forall instant, zoneOffset UK_TIMEZONE instant = offset) ->
  exists today : Date,
    getTodayUK tz zoneOffset w = Val today w /\
    formatDateISO tz zoneOffset today = isoDateAt (offset + (offset - tz)) (clock w) /\
    (tz = offset -> formatDateISO tz zoneOffset today = isoDateAt offset (clock w)).
Proof.
  intros Hzone. eexists. split; [reflexivity|].
  assert (H : formatDateISO tz zoneOffset
                (utcToZonedTime tz (zoneOffset UK_TIMEZONE) (clock w))
              = isoDateAt (offset + (offset - tz)) (clock w)).
  { unfold formatDateISO, formatInTimeZone_yyyy_MM_dd, format_yyyy_MM_dd, isoDateAt,
      localDay, LocalTime, utcToZonedTime.
    rewrite !Hzone. do 2 f_equal. lia. }
  split; [exact H|]. intros ->. rewrite H. unfold isoDateAt. do 2 f_equal. lia.
Qed.

End RequestLaws.

(* ===================================================================== *)
(** ** What is displayed                                                  *)
(* ===================================================================== *)

(** The fields of a date moved by whole hours. *)
Lemma getHours_shift (tz : Z) (d : Date) (k : Z) :
  getHours tz (d + k * msPerHour) = (getHours tz d + k) mod 24 /\
  getMinutes tz (d + k * msPerHour) = getMinutes tz d.
Proof. unfold getHours, getMinutes, LocalTime, msPerHour, msPerMinute. split; div_lia. Qed.

Section Display.

Variable tz : Z.
Variable config : Config.
Variable net : Network.
Variable zoneOffset : string -> Z -> Z.

(** X25.  The due time as it is displayed.  [getAsanaDueDate] sets 16:00 in
    the zone of the process and [formatAsanaDisplayDate] prints the date in
    the zone of London: when London is [k] hours ahead of the zone of the
    process, the text is that of [formatDateUK] followed by the hour
    16 + k, on a clock of twelve.  It reads [at 4:00 PM] when the two zones
    agree, and [at 5:00 PM] when London is one hour ahead. *)
Theorem formatAsanaDisplayDate_due (offset k : Z) (fromDate : Date) (w : World) :
  (forall instant, zoneOffset UK_TIMEZONE instant = offset) ->
  offset - tz = k * msPerHour ->
  -16 <= k < 8 ->
  exists (fuel0 : nat) (r : Date) (w' : World),
    (forall fuel, (fuel0 <= fuel)%nat ->
       getAsanaDueDate tz config net zoneOffset fuel (Some fromDate) w = Val r w') /\
    formatAsanaDisplayDate tz zoneOffset r
    = formatDateUK tz zoneOffset r +:+ " at " +:+ format_h (16 + k) +:+ ":00 "
        +:+ format_a (16 + k) /\
    (k = 0 ->
     formatAsanaDisplayDate tz zoneOffset r
     = formatDateUK tz zoneOffset r +:+ " at 4:00 PM").
Proof.
  intros Hzone Hk Hrange.
  destruct (isWorkingDay_settles tz config net w) as (hs & w' & Hs).
  destruct (getNextWorkingDay_run tz config net w w' hs fromDate w Hs (or_introl eq_refl))
    as (n1 & Hrun1 & _).
  destruct (getNextWorkingDay_run tz config net w w' hs
              (addDays fromDate (1 + Z.of_nat n1)) w' Hs (or_intror eq_refl))
    as (n2 & Hrun2 & _).
  assert (Hfmt : forall d,
            formatAsanaDisplayDate tz zoneOffset (atDueTime tz d)
            = formatDateUK tz zoneOffset (atDueTime tz d) +:+ " at "
                +:+ format_h (16 + k) +:+ ":00 " +:+ format_a (16 + k)).
  { intros d. unfold formatAsanaDisplayDate, formatDateUK,
      formatInTimeZone_EEEE_MMMM_d_yyyy_at_h_mm_a, formatInTimeZone_EEEE_MMMM_d_yyyy,
      format_h_mm_a, utcToZonedTime.
    rewrite Hzone.
    replace (atDueTime tz d + offset - tz) with (atDueTime tz d + k * msPerHour) by lia.
    destruct (getHours_shift tz (atDueTime tz d) k) as [-> ->].
    destruct (atDueTime_fields tz d) as (-> & -> & _).
    rewrite (Z.mod_small (16 + k)) by lia. reflexivity. }
  exists (Nat.max n1 n2),
    (atDueTime tz (if getDay tz fromDate =? 5
                   then addDays (addDays fromDate (1 + Z.of_nat n1)) (1 + Z.of_nat n2)
                   else addDays fromDate (1 + Z.of_nat n1))), w'.
  split; [|split].
  - intros fuel Hfuel. rewrite getAsanaDueDate_unfold. cbv zeta.
    destruct (getDay tz fromDate =? 5).
    + rewrite Hrun1, Hrun2 by lia. reflexivity.
    + rewrite Hrun1 by lia. reflexivity.
  - apply Hfmt.
  - intros ->. rewrite Hfmt. reflexivity.
Qed.

End Display.

(* ===================================================================== *)
(** ** Sprints and configuration                                          *)
(* ===================================================================== *)


(** X23.  Before the first sprint.  When [sprintStart] lies a full day or more
    ahead of now, [getCurrentSprintInfo] answers all the same: with a
    sprint number that is 0 or negative, a [daysIntoSprint] that is 0 or
    negative, and more days remaining than a sprint has. *)
Theorem getCurrentSprintInfo_before_start (sprintStart : Date) (sprintLengthWeeks : Z)
    (w : World) :
  1 <= sprintLengthWeeks ->
  differenceInDays (clock w) sprintStart < 0 ->
  exists info : SprintInfo,
    getCurrentSprintInfo sprintStart sprintLengthWeeks w = Val (Some info) w /\
    sprintNumber info <= 0 /\
    - (sprintLengthWeeks * 7) < daysIntoSprint info <= 0 /\
    sprintLengthWeeks * 7 <= daysRemaining info < 2 * (sprintLengthWeeks * 7).
Proof.
  intros Hw Hd. unfold getCurrentSprintInfo. unfold_M. cbv beta iota zeta.
  destruct (sprintLengthWeeks * 7 =? 0) eqn:E; [lia|].
  eexists. split; [reflexivity|]. cbn [sprintNumber daysIntoSprint daysRemaining].
  set (len := sprintLengthWeeks * 7) in *.
  set (d := differenceInDays (clock w) sprintStart) in *.
  assert (Hq : d / len < 0) by (apply Z.div_lt_upper_bound; lia).
  pose proof (Z.rem_bound_abs d len ltac:(lia)) as Hr.
  pose proof (Z.rem_nonpos d len ltac:(lia) ltac:(lia)) as Hr0.
  split; [lia|]. split; lia.
Qed.

Lemma toString_first (n : Z) : exists c s, toString n = String c s.
Proof.
  unfold toString. destruct (n <? 0).
  - rewrite string_app_cons, string_app_nil. eauto.
  - destruct (to_uint_first (Z.to_N (Z.abs n))) as (c & s & _ & E & _). eauto.
Qed.

Lemma upcase_downcase (c : ascii) : upcase (downcase c) = upcase c.
Proof. destruct c as [[] [] [] [] [] [] [] []]; reflexivity. Qed.

Lemma toUpperCase_toLowerCase (s : string) : toUpperCase (toLowerCase s) = toUpperCase s.
Proof.
  induction s as [|c s IH]; [reflexivity|].
  cbn [toLowerCase toUpperCase]. now rewrite upcase_downcase, IH.
Qed.

(** X5.  The due hour of the configuration is clamped, not defaulted.  When
    [ASANA_DUE_HOUR] holds an integer in decimal, [asanaDueHour] is that
    integer brought into the range from 0 to 23: 24 and above give 23, a
    negative number gives 0.  It is 16 when the variable is not set. *)
Theorem getConfig_due_hour (env : ProcessEnv) (n : Z) :
  (env_ASANA_DUE_HOUR env = Some (toString n) ->
   asanaDueHour (getConfig env) = Num (Z.max 0 (Z.min 23 n))) /\
  (env_ASANA_DUE_HOUR env = None -> asanaDueHour (getConfig env) = Num 16).
Proof.
  unfold getConfig; cbn [asanaDueHour]. split; intros ->.
  - destruct (toString_first n) as (c & s & E).
    assert (Ho : or_else (Some (toString n)) "16" = toString n)
      by (rewrite E; reflexivity).
    rewrite Ho, parseInt_toString. reflexivity.
  - reflexivity.
Qed.

(** X24.  The country code is read without regard to the case of its letters:
    the configuration for a code in lower case is the configuration for the
    code as given. *)
Theorem getConfig_country_case (code : string) (zone hour : option string) :
  getConfig {| env_BANK_HOLIDAY_COUNTRY := Some (toLowerCase code);
               env_TIMEZONE := zone; env_ASANA_DUE_HOUR := hour |}
  = getConfig {| env_BANK_HOLIDAY_COUNTRY := Some code;
                 env_TIMEZONE := zone; env_ASANA_DUE_HOUR := hour |}.
Proof.
  unfold getConfig. cbn [env_BANK_HOLIDAY_COUNTRY env_TIMEZONE env_ASANA_DUE_HOUR].
  assert (H : toUpperCase (or_else (Some (toLowerCase code)) "NONE")
              = toUpperCase (or_else (Some code) "NONE")).
  { destruct code as [|c s]; [reflexivity|].
    cbn [toLowerCase or_else]. apply (toUpperCase_toLowerCase (String c s)). }
  now rewrite H.
Qed.

(* ===================================================================== *)
(** ** Concrete runs                                                      *)
(* ===================================================================== *)

(** C1.  The code departs from the claim: the configured due hour and the
    configured zone are not read.  With [TIMEZONE=UTC] and
    [ASANA_DUE_HOUR=9] the configured due hour is 9 and the configured zone
    is UTC, yet the due date computed from Monday 2025-01-06 is at 16:00 in
    that zone.  With [BANK_HOLIDAY_COUNTRY=lk] the configured zone is
    Asia/Colombo and the configured due hour 16, and in a process whose zone
    is UTC the due date is at 21:30 in the configured zone. *)
Lemma getAsanaDueDate_ignores_config :
  asanaDueHour configNine = Num 9 /\
  timezone configNine = "UTC" /\
  (exists r w',
     getAsanaDueDate UTC configNine netDown zoneTable 7
       (Some mon_2025_01_06_00h) (initialWorld mon_2025_01_06_00h) = Val r w' /\
     getHours (zoneTable (timezone configNine) r) r = 16) /\
  asanaDueHour configLK = Num 16 /\
  timezone configLK = "Asia/Colombo" /\
  (exists r w',
     getAsanaDueDate UTC configLK netDown zoneTable 7
       (Some mon_2025_01_06_00h) (initialWorld mon_2025_01_06_00h) = Val r w' /\
     getHours (zoneTable (timezone configLK) r) r = 21 /\
     getMinutes (zoneTable (timezone configLK) r) r = 30).
Proof.
  split; [vm_compute; reflexivity|]. split; [vm_compute; reflexivity|].
  split; [eexists _, _; split; [vm_compute; reflexivity | vm_compute; reflexivity]|].
  split; [vm_compute; reflexivity|]. split; [vm_compute; reflexivity|].
  eexists _, _. split; [vm_compute; reflexivity|].
  split; [vm_compute; reflexivity | vm_compute; reflexivity].
Qed.

(** C3.  The code departs from the claim: the configured zone is not read.
    With [BANK_HOLIDAY_COUNTRY=th] the configured zone is Asia/Bangkok.  In a process whose zone is UTC,
    the instant 2025-01-03T18:00Z is a Saturday in the configured zone, and
    [isWorkingDay] says it is a working day; the instant 2025-12-04T18:00Z
    is on 2025-12-05 in the configured zone, a day in the set of holidays
    fetched, and [isUKBankHoliday] says it is no holiday. *)
Lemma classification_not_in_configured_zone :
  timezone configTH = "Asia/Bangkok" /\
  isWeekendAt (zoneTable (timezone configTH) fri_2025_01_03_18h) fri_2025_01_03_18h = true /\
  (exists w',
     isWorkingDay UTC configTH netTH fri_2025_01_03_18h
       (initialWorld fri_2025_01_03_18h) = Val true w') /\
  isoDateAt (zoneTable (timezone configTH) thu_2025_12_04_18h) thu_2025_12_04_18h
    = "2025-12-05" /\
  (exists hs w',
     fetchBankHolidays UTC configTH netTH (initialWorld thu_2025_12_04_18h) = Val hs w' /\
     bool_decide ("2025-12-05" ∈ hs) = true /\
     isUKBankHoliday UTC configTH netTH thu_2025_12_04_18h
       (initialWorld thu_2025_12_04_18h) = Val false w').
Proof.
  split; [vm_compute; reflexivity|]. split; [vm_compute; reflexivity|].
  split; [eexists; vm_compute; reflexivity|].
  split; [vm_compute; reflexivity|].
  eexists _, _. split; [vm_compute; reflexivity|].
  split; [vm_compute; reflexivity | vm_compute; reflexivity].
Qed.

(** C5 at work: in a process configured for GB whose cache holds one
    holiday fetched for GB fourteen hours ago, the cached set comes back and
    the world, the list of requests included, is the same. *)
Lemma fetchBankHolidays_cache_witness :
  let w := {| cachedHolidays := Some {[ "2025-12-25" ]};
              cacheExpiry := mon_2025_01_06_10h;
              cachedCountry := Some "GB";
              clock := mon_2025_01_06_00h;
              requests := ["https://www.gov.uk/bank-holidays.json"] |} in
  fetchBankHolidays UTC configGB netDown w = Val {[ "2025-12-25" ]} w.
Proof.
  intros w.
  apply (fetchBankHolidays_cache UTC configGB netDown w eq_refl)
    with (fetchedAt := mon_2025_01_06_10h - 24 * 60 * 60 * 1000);
    [reflexivity | reflexivity | vm_compute; reflexivity | vm_compute; reflexivity].
Defined.

(** C7.  The code departs from the claim: the last day of the range is not
    counted.  In a process whose zone is UTC the tool
    [get_working_days_between] is asked for 2025-10-20 to 2025-10-27.
    [parseDate] gives it Monday 2025-10-20 at 01:00, London being an hour
    ahead of UTC on that day, and Monday 2025-10-27 at 00:00.  With no
    holidays the inclusive range of calendar days holds six working days,
    and [getWorkingDaysBetween] returns 5: the loop, which steps from the
    start a day at a time while [current <= end], reaches the last day at
    01:00, after the end, and does not count it. *)
Lemma getWorkingDaysBetween_misses_end_day :
  parseDate UTC zoneLondon2025 (parseISODate UTC) "2025-10-20" = Some mon_2025_10_20_01h /\
  parseDate UTC zoneLondon2025 (parseISODate UTC) "2025-10-27" = Some mon_2025_10_27_00h /\
  format_yyyy_MM_dd UTC mon_2025_10_20_01h = "2025-10-20" /\
  getDay UTC mon_2025_10_20_01h = 1 /\
  getHours UTC mon_2025_10_20_01h = 1 /\
  format_yyyy_MM_dd UTC mon_2025_10_27_00h = "2025-10-27" /\
  getDay UTC mon_2025_10_27_00h = 1 /\
  getHours UTC mon_2025_10_27_00h = 0 /\
  workingDaysInRange UTC configDefault netDown (initialWorld 0)
    mon_2025_10_20_01h mon_2025_10_27_00h = 6 /\
  (forall fuel, (7 <= fuel)%nat ->
     getWorkingDaysBetween UTC configDefault netDown fuel
       mon_2025_10_20_01h mon_2025_10_27_00h (initialWorld 0)
     = Val 5 (initialWorld 0)).
Proof.
  repeat (split; [vm_compute; reflexivity|]).
  intros fuel Hfuel.
  destruct (getWorkingDaysBetween_loop_counts UTC configDefault netDown
              (initialWorld 0) (initialWorld 0) ∅ mon_2025_10_27_00h
              (settles_disabled UTC configDefault netDown (initialWorld 0) eq_refl)
              7 mon_2025_10_20_01h 0 (initialWorld 0) (or_introl eq_refl))
    as (wf & Hwf & Hrun).
  - vm_compute. reflexivity.
  - intros _. vm_compute. discriminate.
  - unfold getWorkingDaysBetween.
    destruct (mon_2025_10_27_00h <? mon_2025_10_20_01h) eqn:E;
      [vm_compute in E; discriminate|].
    rewrite Hrun by assumption. rewrite countFrom_week.
    now destruct Hwf as [-> | ->].
Qed.

(** Another run that misses the last day.  From Monday 2025-01-06 10:00 to
    Tuesday 2025-01-07 09:00, with no holidays, the inclusive range of
    calendar days holds two working days, and [getWorkingDaysBetween]
    returns 1: the Tuesday is not counted. *)
Lemma getWorkingDaysBetween_misses_last_day :
  mon_2025_01_06_10h <= tue_2025_01_07_09h /\
  workingDaysInRange UTC configDefault netDown (initialWorld 0)
    mon_2025_01_06_10h tue_2025_01_07_09h = 2 /\
  (forall fuel, (1 <= fuel)%nat ->
     getWorkingDaysBetween UTC configDefault netDown fuel
       mon_2025_01_06_10h tue_2025_01_07_09h (initialWorld 0)
     = Val 1 (initialWorld 0)).
Proof.
  split; [vm_compute; discriminate|]. split; [vm_compute; reflexivity|].
  intros [|fuel] Hfuel; [lia|].
  change (getWorkingDaysBetween UTC configDefault netDown (S fuel)
            mon_2025_01_06_10h tue_2025_01_07_09h (initialWorld 0))
    with (getWorkingDaysBetween_loop UTC configDefault netDown (S fuel)
            tue_2025_01_07_09h mon_2025_01_06_10h 0 (initialWorld 0)).
  rewrite getWorkingDaysBetween_loop_unfold.
  replace (isWorkingDay UTC configDefault netDown mon_2025_01_06_10h (initialWorld 0))
    with (Val true (initialWorld 0)) by (vm_compute; reflexivity).
  rewrite getWorkingDaysBetween_loop_unfold. reflexivity.
Qed.

(** From Monday 2025-01-06 00:00 to Tuesday 2025-01-07 09:00 the count is
    that of the working days of the two calendar days. *)
Lemma getWorkingDaysBetween_counts_witness :
  exists (fuel0 : nat) (w' : World), forall fuel, (fuel0 <= fuel)%nat ->
    getWorkingDaysBetween UTC configDefault netDown fuel
      mon_2025_01_06_00h tue_2025_01_07_09h (initialWorld 0)
    = Val (workingDaysInRange UTC configDefault netDown w'
             mon_2025_01_06_00h tue_2025_01_07_09h) w'.
Proof.
  apply (getWorkingDaysBetween_counts UTC configDefault netDown
           mon_2025_01_06_00h tue_2025_01_07_09h (initialWorld 0));
    vm_compute; discriminate.
Defined.

(** C8 at work: two-week sprints that started on Monday 2025-01-06, seen
    from twenty days and ten hours later, are in sprint 2, day 6. *)
Lemma getCurrentSprintInfo_position_witness :
  exists info : SprintInfo,
    getCurrentSprintInfo mon_2025_01_06_00h 2
      (initialWorld (mon_2025_01_06_10h + 20 * msPerDay))
      = Val (Some info) (initialWorld (mon_2025_01_06_10h + 20 * msPerDay)) /\
    sprintNumber info = 2 /\ daysIntoSprint info = 6 /\ daysRemaining info = 8.
Proof.
  destruct (getCurrentSprintInfo_position mon_2025_01_06_00h 2
              (initialWorld (mon_2025_01_06_10h + 20 * msPerDay)))
    as (info & Hrun & _ & _ & Hn & Hd & Hr).
  - lia.
  - vm_compute. discriminate.
  - exists info. split; [exact Hrun|].
    rewrite Hr, Hd, Hn. vm_compute. repeat split; reflexivity.
Defined.


(** The Friday rule at work: from Friday 2025-01-03 18:00, with no
    holidays, the due date is Tuesday 2025-01-07 at 16:00. *)
Lemma getAsanaDueDate_friday_tuesday_witness :
  getAsanaDueDate UTC configDefault netDown zoneTable 2
    (Some fri_2025_01_03_18h) (initialWorld fri_2025_01_03_18h)
    = Val (atDueTime UTC (addDays fri_2025_01_03_18h 4)) (initialWorld fri_2025_01_03_18h) /\
  format_yyyy_MM_dd UTC (atDueTime UTC (addDays fri_2025_01_03_18h 4)) = "2025-01-07".
Proof.
  split; [|vm_compute; reflexivity].
  apply (getAsanaDueDate_friday_tuesday UTC configDefault netDown zoneTable
           fri_2025_01_03_18h (initialWorld fri_2025_01_03_18h) 2);
    [reflexivity | vm_compute; reflexivity | lia].
Defined.

(** Two weeks from Monday 2025-01-06 end on Sunday 2025-01-19. *)
Example calculateSprintDates_2025_01_06 :
  format_yyyy_MM_dd UTC (sprint_end (calculateSprintDates mon_2025_01_06_00h 2))
    = "2025-01-19".
Proof. vm_compute. reflexivity. Qed.

(** Christmas 2025 in a process configured for GB: Thursday 25 December is
    no working day, and the next working day after Wednesday 24 December is
    Monday 29 December, past Christmas Day, Boxing Day and the weekend. *)
Example getNextWorkingDay_christmas_2025 :
  exists w',
    getNextWorkingDay UTC configGB netUK 4 wed_2025_12_24_00h
      (initialWorld wed_2025_12_24_00h) = Val (addDays wed_2025_12_24_00h 5) w' /\
    isWorkingDay UTC configGB netUK (addDays wed_2025_12_24_00h 1) w' = Val false w' /\
    format_yyyy_MM_dd UTC (addDays wed_2025_12_24_00h 5) = "2025-12-29" /\
    requests w' = ["https://www.gov.uk/bank-holidays.json"].
Proof.
  eexists. split; [vm_compute; reflexivity|].
  split; [vm_compute; reflexivity|]. split; vm_compute; reflexivity.
Qed.

(** The three ways in which the [try] block of [fetchUKBankHolidays] throws,
    each answered with the empty set. *)
Example fetchUKBankHolidays_failures :
  (exists w', fetchUKBankHolidays_try netDown (initialWorld 0) = Throw FetchError w' /\
              fetchUKBankHolidays netDown (initialWorld 0) = Val ∅ w') /\
  (exists w', fetchUKBankHolidays_try netNotJson (initialWorld 0) = Throw SyntaxError w' /\
              fetchUKBankHolidays netNotJson (initialWorld 0) = Val ∅ w') /\
  (exists w', fetchUKBankHolidays_try netOtherJson (initialWorld 0) = Throw TypeError w' /\
              fetchUKBankHolidays netOtherJson (initialWorld 0) = Val ∅ w').
Proof.
  split; [|split]; eexists; (split; [vm_compute; reflexivity | vm_compute; reflexivity]).
Qed.

(** C6, the claim as it was stated fails.  For Thailand, seen from
    2025-12-04, the list of 2025 is answered with status 500 and that of
    2026 with a list that holds 2025-12-05.  The failure for 2025 does not
    make the set empty: a response that is not [ok] is skipped by
    [fetchNagerDateHolidays], which returns the dates of the other list, and
    Friday 2025-12-05 is then no working day. *)
Lemma fetch_keeps_dates_on_error_status :
  getFullYear UTC thu_2025_12_04_18h = 2025 /\
  errorStatus (netYearMissing 0%nat (nagerURL 2025 "TH")) = true /\
  (exists hs w',
     fetchNagerDateHolidays UTC netYearMissing "TH" (initialWorld thu_2025_12_04_18h)
       = Val hs w' /\
     bool_decide ("2025-12-05" ∈ hs) = true /\
     requests w' = [nagerURL 2025 "TH"; nagerURL 2026 "TH"]) /\
  getDay UTC fri_2025_12_05_00h = 5 /\
  (exists w',
     isWorkingDay UTC configTH netYearMissing fri_2025_12_05_00h
       (initialWorld thu_2025_12_04_18h) = Val false w').
Proof.
  split; [vm_compute; reflexivity|]. split; [vm_compute; reflexivity|].
  split.
  { eexists _, _. split; [vm_compute; reflexivity|].
    split; [vm_compute; reflexivity | vm_compute; reflexivity]. }
  split; [vm_compute; reflexivity|].
  eexists. vm_compute. reflexivity.
Qed.

(** A response with status 500 whose body is the document of GOV.UK: the
    status is not looked at, and the dates of the body are the holidays. *)
Example fetchUKBankHolidays_status_500 :
  exists hs w',
    fetchUKBankHolidays netUKStatus500 (initialWorld thu_2025_12_04_18h) = Val hs w' /\
    bool_decide ("2025-12-25" ∈ hs) = true.
Proof.
  eexists _, _. split; [vm_compute; reflexivity | vm_compute; reflexivity].
Qed.

(** C6 at work: with the network down, the first request for the holidays
    of Thailand is rejected, and the set is empty. *)
Lemma fetch_fails_open_witness :
  fetchNagerDateHolidays UTC netDown "TH" (initialWorld thu_2025_12_04_18h)
  = Val ∅ (add_requests [nagerURL 2025 "TH"] (initialWorld thu_2025_12_04_18h)).
Proof.
  destruct (fetch_fails_open UTC configTH netDown "TH" thu_2025_12_04_18h
              (initialWorld thu_2025_12_04_18h)) as (_ & _ & H & _).
  destruct (H Rejected Rejected (nagerURL 2025 "TH") (nagerURL 2026 "TH")
              eq_refl eq_refl eq_refl eq_refl) as (H1 & _).
  apply H1; [reflexivity | constructor].
Defined.

(** Three working days back from Monday 2025-01-06, with no holidays, is
    Wednesday 2025-01-01, and the count of -3 does what 3 does. *)
Example calculateWorkingDays_back_three :
  exists r,
    calculateWorkingDays UTC configDefault netDown 5 mon_2025_01_06_00h (-3) backward
      (initialWorld 0) = Val r (initialWorld 0) /\
    calculateWorkingDays UTC configDefault netDown 5 mon_2025_01_06_00h 3 backward
      (initialWorld 0) = Val r (initialWorld 0) /\
    format_yyyy_MM_dd UTC r = "2025-01-01".
Proof.
  eexists. split; [vm_compute; reflexivity|].
  split; [vm_compute; reflexivity | vm_compute; reflexivity].
Qed.

Lemma getNextWorkingDay_disabled_witness :
  exists r : Date,
    getNextWorkingDay UTC configDefault netDown 2 (addDays fri_2025_01_03_18h 1)
      (initialWorld 0) = Val r (initialWorld 0) /\
    format_yyyy_MM_dd UTC r = "2025-01-06".
Proof.
  destruct (getNextWorkingDay_disabled UTC configDefault netDown
              (addDays fri_2025_01_03_18h 1) (initialWorld 0) 2 eq_refl)
    as (r & Hrun & Hday & _); [lia|].
  exists r. split; [exact Hrun|].
  unfold format_yyyy_MM_dd. rewrite Hday. vm_compute. reflexivity.
Defined.

Lemma calculateWorkingDays_succ_witness :
  exists (fuel0 : nat) (r1 r2 : Date) (w1 w2 : World),
    forall fuel, (fuel0 <= fuel)%nat ->
      calculateWorkingDays UTC configGB netUK fuel wed_2025_12_24_00h 2 forward
        (initialWorld 0) = Val r1 w1 /\
      getNextWorkingDay UTC configGB netUK fuel r1 w1 = Val r2 w2 /\
      calculateWorkingDays UTC configGB netUK fuel wed_2025_12_24_00h 3 forward
        (initialWorld 0) = Val r2 w2.
Proof.
  apply (calculateWorkingDays_succ UTC configGB netUK wed_2025_12_24_00h 2
           (initialWorld 0)).
  lia.
Defined.

Lemma getWorkingDaysBetween_whole_weeks_witness :
  getWorkingDaysBetween UTC configDefault netDown 14 fri_2025_01_03_18h
    (addDays fri_2025_01_03_18h 13) (initialWorld 0)
  = Val 10 (initialWorld 0).
Proof.
  apply (getWorkingDaysBetween_whole_weeks UTC configDefault netDown
           fri_2025_01_03_18h 2 (initialWorld 0) 14); [reflexivity | lia].
Defined.

Lemma isUKBankHoliday_GB_events_witness :
  exists w' : World,
    isUKBankHoliday UTC configGB netUK (addDays wed_2025_12_24_00h 1)
      (initialWorld wed_2025_12_24_00h) = Val true w' /\
    requests w' = ["https://www.gov.uk/bank-holidays.json"].
Proof.
  eexists. split.
  - rewrite (isUKBankHoliday_GB_events UTC configGB netUK (addDays wed_2025_12_24_00h 1)
               (initialWorld wed_2025_12_24_00h) _ _ _
               eq_refl eq_refl eq_refl eq_refl eq_refl).
    f_equal.
  - reflexivity.
Defined.

Lemma getUpcomingBankHolidays_bypasses_cache_witness :
  exists (l : list Upcoming) (urls : list string),
    urls <> [] /\
    forall holidays expiry country,
      getUpcomingBankHolidays UTC configGB netUK (parseISODate UTC) 6
        (with_cache holidays expiry country (initialWorld wed_2025_12_24_00h))
      = Val l (add_requests urls
                 (with_cache holidays expiry country (initialWorld wed_2025_12_24_00h))).
Proof.
  apply (getUpcomingBankHolidays_bypasses_cache UTC configGB netUK (parseISODate UTC) 6
           (initialWorld wed_2025_12_24_00h)).
  reflexivity.
Defined.

Lemma getUpcomingBankHolidays_not_today_witness :
  getUpcomingBankHolidays UTC configGB netUK (parseISODate UTC) 6
    (initialWorld thu_2025_12_25_10h)
  = Val [ {| upcoming_date := "2025-12-26"; upcoming_title := "Boxing Day" |} ]
      (add_requests ["https://www.gov.uk/bank-holidays.json"]
         (initialWorld thu_2025_12_25_10h)) /\
  forall h,
    In h [ {| upcoming_date := "2025-12-26"; upcoming_title := "Boxing Day" |} ] ->
    upcoming_date h <> "2025-12-25".
Proof.
  assert (Hrun : getUpcomingBankHolidays UTC configGB netUK (parseISODate UTC) 6
                   (initialWorld thu_2025_12_25_10h)
                 = Val [ {| upcoming_date := "2025-12-26";
                            upcoming_title := "Boxing Day" |} ]
                     (add_requests ["https://www.gov.uk/bank-holidays.json"]
                        (initialWorld thu_2025_12_25_10h)))
    by (vm_compute; reflexivity).
  split; [exact Hrun|].
  eapply (getUpcomingBankHolidays_not_today UTC configGB netUK (parseISODate UTC) 6
            (initialWorld thu_2025_12_25_10h));
    [vm_compute; reflexivity | vm_compute; discriminate | exact Hrun].
Defined.

Lemma disabled_never_fetches_witness :
  getUpcomingBankHolidays UTC configDefault netUK (parseISODate UTC) 6
    (initialWorld wed_2025_12_24_00h) = Val [] (initialWorld wed_2025_12_24_00h) /\
  isWorkingDay UTC configDefault netUK (addDays wed_2025_12_24_00h 1)
    (initialWorld wed_2025_12_24_00h) = Val true (initialWorld wed_2025_12_24_00h).
Proof.
  destruct (disabled_never_fetches UTC configDefault netUK zoneTable (parseISODate UTC)
              (addDays wed_2025_12_24_00h 1) wed_2025_12_24_00h 1 6 forward
              (initialWorld wed_2025_12_24_00h) eq_refl)
    as (_ & _ & Hup & Hwd & _).
  split; [exact Hup|]. rewrite Hwd. vm_compute. reflexivity.
Defined.

Lemma parseAsanaDateRequest_in_days_witness :
  parseAsanaDateRequest UTC configDefault netDown zoneTable 2 "in 3 days"
    (initialWorld mon_2025_01_06_10h)
  = getAsanaDueDate UTC configDefault netDown zoneTable 2
      (Some (addDays mon_2025_01_06_10h 3)) (initialWorld mon_2025_01_06_10h) /\
  parseAsanaDateRequest UTC configDefault netDown zoneTable 2 "in 3 weeks"
    (initialWorld mon_2025_01_06_10h)
  = getAsanaDueDate UTC configDefault netDown zoneTable 2
      (Some (addDays mon_2025_01_06_10h 21)) (initialWorld mon_2025_01_06_10h).
Proof.
  apply (parseAsanaDateRequest_in_days UTC configDefault netDown zoneTable 2 3
           (initialWorld mon_2025_01_06_10h)).
  lia.
Defined.

Lemma formatDateISO_today_witness :
  exists today : Date,
    getTodayUK UTC zoneSummer (initialWorld tue_2025_07_01_22h30)
      = Val today (initialWorld tue_2025_07_01_22h30) /\
    formatDateISO UTC zoneSummer today = "2025-07-02" /\
    isoDateAt msPerHour tue_2025_07_01_22h30 = "2025-07-01".
Proof.
  destruct (formatDateISO_today UTC zoneSummer msPerHour
              (initialWorld tue_2025_07_01_22h30) (fun _ => eq_refl))
    as (today & Hrun & Hfmt & _).
  exists today. split; [exact Hrun|]. split; [|vm_compute; reflexivity].
  rewrite Hfmt. vm_compute. reflexivity.
Defined.


Lemma getCurrentSprintInfo_before_start_witness :
  exists info : SprintInfo,
    getCurrentSprintInfo mon_2025_01_06_00h 2 (initialWorld fri_2025_01_03_18h)
      = Val (Some info) (initialWorld fri_2025_01_03_18h) /\
    sprintNumber info = 0 /\ daysIntoSprint info = -2 /\ daysRemaining info = 16.
Proof.
  destruct (getCurrentSprintInfo_before_start mon_2025_01_06_00h 2
              (initialWorld fri_2025_01_03_18h))
    as (info & Hrun & _).
  - lia.
  - vm_compute. reflexivity.
  - exists info. split; [exact Hrun|].
    injection Hrun as <-. repeat split; vm_compute; reflexivity.
Defined.

Lemma calculateWorkingDays_add_witness :
  exists (fuel0 : nat) (r1 r2 : Date) (w1 w2 : World),
    forall fuel, (fuel0 <= fuel)%nat ->
      calculateWorkingDays UTC configGB netUK fuel wed_2025_12_24_00h 1 backward
        (initialWorld 0) = Val r1 w1 /\
      calculateWorkingDays UTC configGB netUK fuel r1 2 backward w1 = Val r2 w2 /\
      calculateWorkingDays UTC configGB netUK fuel wed_2025_12_24_00h 3 backward
        (initialWorld 0) = Val r2 w2.
Proof.
  apply (calculateWorkingDays_add UTC configGB netUK wed_2025_12_24_00h 1 2 backward
           (initialWorld 0)); lia.
Defined.

Lemma getWorkingDaysBetween_split_witness :
  exists (fuel0 : nat) (x y : Z) (w1 w2 w3 : World),
    forall fuel, (fuel0 <= fuel)%nat ->
      getWorkingDaysBetween UTC configDefault netDown fuel
        mon_2025_01_06_00h mon_2025_01_06_10h (initialWorld 0) = Val x w1 /\
      getWorkingDaysBetween UTC configDefault netDown fuel
        (addDays mon_2025_01_06_10h 1) (addDays mon_2025_01_06_10h 7) w1 = Val y w2 /\
      getWorkingDaysBetween UTC configDefault netDown fuel
        mon_2025_01_06_00h (addDays mon_2025_01_06_10h 7) (initialWorld 0)
        = Val (x + y) w3.
Proof.
  apply (getWorkingDaysBetween_split UTC configDefault netDown
           mon_2025_01_06_00h mon_2025_01_06_10h (addDays mon_2025_01_06_10h 7)
           (initialWorld 0)); vm_compute; discriminate.
Defined.

(** The expression is not anchored: ["Within 3 Days"] holds ["in 3 days"]. *)
Example parseAsanaDateRequest_within :
  parseAsanaDateRequest UTC configDefault netDown zoneTable 2 "  Within 3 Days, please"
    (initialWorld mon_2025_01_06_10h)
  = getAsanaDueDate UTC configDefault netDown zoneTable 2
      (Some (addDays mon_2025_01_06_10h 3)) (initialWorld mon_2025_01_06_10h).
Proof. vm_compute. reflexivity. Qed.

(** From a Saturday, one working day forward is Monday and one back from
    there is Friday. *)
Example calculateWorkingDays_from_saturday :
  calculateWorkingDays UTC configDefault netDown 3 (addDays fri_2025_01_03_18h 1) 1
    forward (initialWorld 0)
  = Val (addDays fri_2025_01_03_18h 3) (initialWorld 0) /\
  calculateWorkingDays UTC configDefault netDown 3 (addDays fri_2025_01_03_18h 3) 1
    backward (initialWorld 0)
  = Val fri_2025_01_03_18h (initialWorld 0).
Proof. split; vm_compute; reflexivity. Qed.

(** [ASANA_DUE_HOUR=24] gives 23, [ASANA_DUE_HOUR=-3] gives 0. *)
Example getConfig_due_hour_24 :
  asanaDueHour (getConfig {| env_BANK_HOLIDAY_COUNTRY := None; env_TIMEZONE := None;
                             env_ASANA_DUE_HOUR := Some "24" |}) = Num 23 /\
  asanaDueHour (getConfig {| env_BANK_HOLIDAY_COUNTRY := None; env_TIMEZONE := None;
                             env_ASANA_DUE_HOUR := Some "-3" |}) = Num 0.
Proof. split; vm_compute; reflexivity. Qed.

(** [setMonth] runs over the end of a short month and into the next year:
    one month after 31 January 2025 is 3 March, thirteen months after is
    3 March 2026, two months before is 1 December 2024. *)
Example monthsFrom_overflow :
  format_yyyy_MM_dd UTC (mon_2025_01_06_00h + 25 * msPerDay) = "2025-01-31" /\
  format_yyyy_MM_dd UTC (monthsFrom UTC (mon_2025_01_06_00h + 25 * msPerDay) 1)
    = "2025-03-03" /\
  format_yyyy_MM_dd UTC (monthsFrom UTC (mon_2025_01_06_00h + 25 * msPerDay) 13)
    = "2026-03-03" /\
  format_yyyy_MM_dd UTC (monthsFrom UTC (mon_2025_01_06_00h + 25 * msPerDay) (-2))
    = "2024-12-01".
Proof. repeat split; vm_compute; reflexivity. Qed.

Lemma formatAsanaDisplayDate_due_witness :
  exists (fuel0 : nat) (r : Date) (w' : World),
    (forall fuel, (fuel0 <= fuel)%nat ->
       getAsanaDueDate UTC configDefault netDown zoneSummer fuel
         (Some tue_2025_07_01_22h30) (initialWorld 0) = Val r w') /\
    formatAsanaDisplayDate UTC zoneSummer r
    = formatDateUK UTC zoneSummer r +:+ " at 5:00 PM".
Proof.
  destruct (formatAsanaDisplayDate_due UTC configDefault netDown zoneSummer
              msPerHour 1 tue_2025_07_01_22h30 (initialWorld 0)
              (fun _ => eq_refl) eq_refl ltac:(lia))
    as (fuel0 & r & w' & Hrun & Hfmt & _).
  exists fuel0, r, w'. split; [exact Hrun | exact Hfmt].
Defined.

(** From Friday 2025-01-03, in a process whose zone is that of London in
    winter, the due date reads Tuesday at 4:00 PM. *)
Example formatAsanaDisplayDate_2025_01_07 :
  formatAsanaDisplayDate UTC zoneTable (atDueTime UTC (addDays fri_2025_01_03_18h 4))
  = "Tuesday, January 7, 2025 at 4:00 PM".
Proof. vm_compute. reflexivity. Qed.
